(** * ICBC: a BC1 (DXT1) block encoder -- shallow embedding of [icbc.h]

    The embedding follows the default build of [icbc.h]
    ([ICBC_USE_SPMD = ICBC_AVX512], hence [VEC_SIZE = 16], and
    [ICBC_DECODER = 0], the Direct3D 10 palette).

    Numbers.  A C++ [float] is an IEEE-754 binary32 value, modelled by
    [spec_float] with precision 24 and maximal exponent 128; every C++
    arithmetic operator is one correctly rounded (to nearest, ties to even)
    operation, and [_mm512_fmadd_ps] is the fused multiply-add with a single
    rounding.  Unsigned integers are [Z] with the wrap-around written out.
    A [Color16] and a [Color32] are the [u] member of the union; the
    bit-fields are read and written through shifts and masks (b is the least
    significant field, as every ABI the header targets lays them out). *)

From Stdlib Require Import ZArith List Bool Lia Permutation.
From Stdlib Require Import Floats.SpecFloat.
Import ListNotations.
Local Open Scope Z_scope.

(** ** Binary32 arithmetic *)

Module F32.

Definition prec : Z := 24.
Definition emax : Z := 128.

Definition float : Set := spec_float.

Definition add : float -> float -> float := SFadd prec emax.
Definition sub : float -> float -> float := SFsub prec emax.
Definition mul : float -> float -> float := SFmul prec emax.
Definition div : float -> float -> float := SFdiv prec emax.
Definition ltb : float -> float -> bool := SFltb.
Definition gtb (a b : float) : bool := SFltb b a.
Definition eqb : float -> float -> bool := SFeqb.
Definition fabsf : float -> float := SFabs.

(** [float(z)] for an integer [z]. *)
Definition of_Z (z : Z) : float := binary_normalize prec emax z 0 false.

(** The literal [n / 10^k] written in decimal: the nearest binary32 value.
    With [n] and [10^k] below [2^24] both are exact, so one correctly
    rounded division yields the correctly rounded literal. *)
Definition dec (n k : Z) : float := div (of_Z n) (of_Z (10 ^ k)).

Definition zero : float := S754_zero false.
Definition one : float := of_Z 1.
Definition FLT_MAX : float := SFmax_float prec emax.

(** [int(x)] and [uint(x)]: truncation toward zero.  The conversion of a
    NaN or an infinity is undefined in C++; the model returns 0 there. *)
Definition to_Z (x : float) : Z :=
  match x with
  | S754_finite s m e => cond_Zopp s (Z.shiftl (Zpos m) e)
  | _ => 0
  end.

(** [_mm512_fmadd_ps]: [x * y + z] rounded once. *)
Definition fma (x y z : float) : float :=
  match x, y with
  | S754_nan, _ | _, S754_nan => S754_nan
  | S754_infinity _, S754_zero _ | S754_zero _, S754_infinity _ => S754_nan
  | S754_infinity sx, S754_infinity sy
  | S754_infinity sx, S754_finite sy _ _
  | S754_finite sx _ _, S754_infinity sy => add (S754_infinity (xorb sx sy)) z
  | S754_zero sx, S754_zero sy
  | S754_zero sx, S754_finite sy _ _
  | S754_finite sx _ _, S754_zero sy => add (S754_zero (xorb sx sy)) z
  | S754_finite sx mx ex, S754_finite sy my ey =>
      let sp := xorb sx sy in
      let mp := Pos.mul mx my in
      let ep := ex + ey in
      match z with
      | S754_nan => S754_nan
      | S754_infinity _ => z
      | S754_zero _ => binary_round_aux prec emax sp (Zpos mp) ep loc_Exact
      | S754_finite sz mz ez =>
          let e := Z.min ep ez in
          binary_normalize prec emax
            (cond_Zopp sp (Zpos (fst (shl_align mp ep e)))
             + cond_Zopp sz (Zpos (fst (shl_align mz ez e)))) e false
      end
  end.

(** [_mm512_roundscale_ps(x, _MM_FROUND_TO_NEAREST_INT)]: the nearest
    integer, ties to even, as a float. *)
Definition rint (x : float) : float :=
  match x with
  | S754_finite s m (Zneg p) =>
      let q := Z.shiftr (Zpos m) (Zpos p) in
      let r := Zpos m - Z.shiftl q (Zpos p) in
      let q' := match Z.compare (2 * r) (Z.shiftl 1 (Zpos p)) with
                | Lt => q
                | Gt => q + 1
                | Eq => if Z.even q then q else q + 1
                end in
      binary_normalize prec emax (cond_Zopp s q') 0 s
  | _ => x
  end.

End F32.

Import F32.

Declare Scope f32_scope.
Delimit Scope f32_scope with f32.
Bind Scope f32_scope with float.
Infix "+" := add : f32_scope.
Infix "-" := sub : f32_scope.
Infix "*" := mul : f32_scope.
Infix "/" := div : f32_scope.
Infix "<?" := ltb : f32_scope.
Infix ">?" := gtb : f32_scope.
Infix "=?" := eqb : f32_scope.

(** ** Basic templates and types *)

(** [template max]: [(b < a) ? a : b]; [template min]: [(a < b) ? a : b]. *)
Definition fmax (a b : float) : float := if (b <? a)%f32 then a else b.
Definition fmin (a b : float) : float := if (a <? b)%f32 then a else b.
Definition clamp (x a b : float) : float := fmin (fmax x a) b.
Definition saturate (x : float) : float := clamp x zero one.

Record Vector3 : Set := mkVector3 { x : float; y : float; z : float }.

(** [Vector4] is the union of [{x, y, z, w}] and [xyz]. *)
Record Vector4 : Set := mkVector4 { xyz : Vector3; w : float }.

Definition v3_zero : Vector3 := mkVector3 zero zero zero.
Definition scalar_to_vector3 (f : float) : Vector3 := mkVector3 f f f.

Definition v3_add (a b : Vector3) : Vector3 :=
  mkVector3 (x a + x b)%f32 (y a + y b)%f32 (z a + z b)%f32.
Definition v3_sub (a b : Vector3) : Vector3 :=
  mkVector3 (x a - x b)%f32 (y a - y b)%f32 (z a - z b)%f32.
Definition v3_mul (a b : Vector3) : Vector3 :=
  mkVector3 (x a * x b)%f32 (y a * y b)%f32 (z a * z b)%f32.
Definition v3_scale (v : Vector3) (s : float) : Vector3 :=
  mkVector3 (x v * s)%f32 (y v * s)%f32 (z v * s)%f32.
Definition v3_div (v : Vector3) (s : float) : Vector3 :=
  mkVector3 (x v / s)%f32 (y v / s)%f32 (z v / s)%f32.
Definition dot (a b : Vector3) : float :=
  (x a * x b + y a * y b + z a * z b)%f32.
Definition v3_saturate (v : Vector3) : Vector3 :=
  mkVector3 (saturate (x v)) (saturate (y v)) (saturate (z v)).
Definition v3_min (a b : Vector3) : Vector3 :=
  mkVector3 (fmin (x a) (x b)) (fmin (y a) (y b)) (fmin (z a) (z b)).
Definition v3_max (a b : Vector3) : Vector3 :=
  mkVector3 (fmax (x a) (x b)) (fmax (y a) (y b)) (fmax (z a) (z b)).
Definition lengthSquared (v : Vector3) : float := dot v v.

(** [equal(a, b, epsilon)]: [fabsf(a - b) < epsilon]. *)
Definition equal (a b epsilon : float) : bool :=
  (fabsf (a - b) <? epsilon)%f32.
Definition v3_equal (a b : Vector3) (epsilon : float) : bool :=
  equal (x a) (x b) epsilon && equal (y a) (y b) epsilon
  && equal (z a) (z b) epsilon.

(** A [Color16] is its 16-bit [u]; [b : 5], [g : 6], [r : 5] from bit 0. *)
Definition Color16 : Set := Z.
Definition c16_b (c : Color16) : Z := Z.land c 31.
Definition c16_g (c : Color16) : Z := Z.land (Z.shiftr c 5) 63.
Definition c16_r (c : Color16) : Z := Z.land (Z.shiftr c 11) 31.
Definition c16_make (r g b : Z) : Color16 :=
  Z.lor (Z.lor (Z.shiftl (r mod 32) 11) (Z.shiftl (g mod 64) 5)) (b mod 32).

(** A [Color32] is its 32-bit [u]; bytes [b], [g], [r], [a] from bit 0. *)
Definition Color32 : Set := Z.
Definition c32_b (c : Color32) : Z := Z.land c 255.
Definition c32_g (c : Color32) : Z := Z.land (Z.shiftr c 8) 255.
Definition c32_r (c : Color32) : Z := Z.land (Z.shiftr c 16) 255.
Definition c32_a (c : Color32) : Z := Z.land (Z.shiftr c 24) 255.
(** Storing [r], [g], [b], [a] into the four [uint8] members. *)
Definition c32_make (r g b a : Z) : Color32 :=
  Z.lor (Z.lor (Z.lor (Z.shiftl (a mod 256) 24) (Z.shiftl (r mod 256) 16))
               (Z.shiftl (g mod 256) 8)) (b mod 256).

Record BlockDXT1 : Set :=
  mkBlock { col0 : Color16; col1 : Color16; indices : Z }.

(** Array reads; the arrays of the source have 16 entries. *)
Definition colorAt (l : list Vector4) (i : nat) : Vector4 :=
  nth i l (mkVector4 v3_zero zero).
Definition v3At (l : list Vector3) (i : nat) : Vector3 := nth i l v3_zero.
Definition floatAt (l : list float) (i : nat) : float := nth i l zero.

(** A [for (i = 0; i < n; i++)] loop threading a state. *)
Definition for_loop {S : Type} (n : nat) (body : nat -> S -> S) (s : S) : S :=
  fold_left (fun acc i => body i acc) (seq 0 n) s.

(** ** Color conversion functions *)

Definition midpoints5 : list float :=
  [dec 15686 6; dec 47059 6; dec 78431 6; dec 111765 6; dec 145098 6;
   dec 176471 6; dec 207843 6; dec 241176 6; dec 274510 6; dec 305882 6;
   dec 337255 6; dec 370588 6; dec 403922 6; dec 435294 6; dec 466667 6;
   dec 5 1;
   dec 533333 6; dec 564706 6; dec 596078 6; dec 629412 6; dec 662745 6;
   dec 694118 6; dec 725490 6; dec 758824 6; dec 792157 6; dec 823529 6;
   dec 854902 6; dec 888235 6; dec 921569 6; dec 952941 6; dec 984314 6;
   one].

Definition midpoints6 : list float :=
  [dec 7843 6; dec 23529 6; dec 39216 6; dec 54902 6; dec 70588 6;
   dec 86275 6; dec 101961 6; dec 117647 6; dec 133333 6; dec 149020 6;
   dec 164706 6; dec 180392 6; dec 196078 6; dec 211765 6; dec 227451 6;
   dec 245098 6;
   dec 262745 6; dec 278431 6; dec 294118 6; dec 309804 6; dec 325490 6;
   dec 341176 6; dec 356863 6; dec 372549 6; dec 388235 6; dec 403922 6;
   dec 419608 6; dec 435294 6; dec 450980 6; dec 466667 6; dec 482353 6;
   dec 500000 6;
   dec 517647 6; dec 533333 6; dec 549020 6; dec 564706 6; dec 580392 6;
   dec 596078 6; dec 611765 6; dec 627451 6; dec 643137 6; dec 658824 6;
   dec 674510 6; dec 690196 6; dec 705882 6; dec 721569 6; dec 737255 6;
   dec 754902 6;
   dec 772549 6; dec 788235 6; dec 803922 6; dec 819608 6; dec 835294 6;
   dec 850980 6; dec 866667 6; dec 882353 6; dec 898039 6; dec 913725 6;
   dec 929412 6; dec 945098 6; dec 960784 6; dec 976471 6; dec 992157 6;
   one].

Definition bool_to_Z (b : bool) : Z := if b then 1 else 0.

(** One channel of [vector3_to_color16]: truncate, then round by the
    midpoint of the bit-expanded grid. *)
Definition quantize_channel (v : float) (scale : Z) (midpoints : list float)
  : Z :=
  let q := to_Z (clamp (v * of_Z scale)%f32 zero (of_Z scale)) in
  q + bool_to_Z (v >? floatAt midpoints (Z.to_nat q))%f32.

Definition vector3_to_color16 (v : Vector3) : Color16 :=
  let r := quantize_channel (x v) 31 midpoints5 in
  let g := quantize_channel (y v) 63 midpoints6 in
  let b := quantize_channel (z v) 31 midpoints5 in
  (Z.lor (Z.lor (Z.shiftl r 11) (Z.shiftl g 5)) b) mod 65536.

Definition bitexpand_color16_to_color32 (c16 : Color16) : Color32 :=
  let u := Z.lor (Z.lor (Z.land (Z.shiftl c16 3) 248)
                        (Z.land (Z.shiftl c16 5) 64512))
                 (Z.land (Z.shiftl c16 8) 16252928) in
  let u := Z.lor u (Z.land (Z.shiftr u 5) 458759) in
  Z.lor u (Z.land (Z.shiftr u 6) 768).

Definition color_to_vector3 (c : Color32) : Vector3 :=
  mkVector3 (of_Z (c32_r c) / of_Z 255)%f32 (of_Z (c32_g c) / of_Z 255)%f32
            (of_Z (c32_b c) / of_Z 255)%f32.

Definition to_uint8 (v : float) : Z :=
  to_Z (saturate v * of_Z 255 + dec 5 1)%f32 mod 256.

Definition vector3_to_color32 (v : Vector3) : Color32 :=
  c32_make (to_uint8 (x v)) (to_uint8 (y v)) (to_uint8 (z v)) 255.

(** ** Input block processing *)

Definition eighth : float := (one / of_Z 8)%f32.

Definition is_black (c : Vector3) : bool :=
  (x c <? eighth)%f32 && (y c <? eighth)%f32 && (z c <? eighth)%f32.

(** The output of [reduce_colors]: the first [n] entries of [colors] and
    [weights] (the returned count is their length) and [*any_black]. *)
Record Reduced : Set :=
  mkReduced { r_colors : list Vector3; r_weights : list float;
              r_any_black : bool }.

Definition r_count (r : Reduced) : nat := length (r_colors r).

Definition threshold : float := (one / of_Z 256)%f32.

(** The search [for (j = 0; j < n; j++)]: at the first accumulator equal to
    [ci] up to the threshold, add [wi] to its weight and stop; [None] stands
    for [j == n]. *)
Fixpoint find_matching (colors : list Vector3) (weights : list float)
    (ci : Vector3) (wi : float) : option (list float) :=
  match colors, weights with
  | c :: colors', wj :: weights' =>
      if v3_equal c ci threshold then Some ((wj + wi)%f32 :: weights')
      else option_map (cons wj) (find_matching colors' weights' ci wi)
  | _, _ => None
  end.

Definition reduce_step (input_colors : list Vector4)
    (input_weights : list float) (i : nat) (st : Reduced) : Reduced :=
  let ci := xyz (colorAt input_colors i) in
  let wi := floatAt input_weights i in
  if (wi >? zero)%f32 then
    let any_black := if is_black ci then true else r_any_black st in
    match find_matching (r_colors st) (r_weights st) ci wi with
    | Some weights' => mkReduced (r_colors st) weights' any_black
    | None => mkReduced (r_colors st ++ [ci]) (r_weights st ++ [wi]) any_black
    end
  else st.

Definition reduce_colors (input_colors : list Vector4)
    (input_weights : list float) (count : nat) : Reduced :=
  for_loop count (reduce_step input_colors input_weights)
           (mkReduced [] [] false).

(** [skip_blacks]: the (color, weight) pairs whose color is not black. *)
Definition skip_blacks (input_colors : list Vector3)
    (input_weights : list float) (count : nat)
  : list Vector3 * list float :=
  for_loop count
    (fun i '(colors, weights) =>
       let ci := v3At input_colors i in
       let wi := floatAt input_weights i in
       if is_black ci then (colors, weights)
       else (colors ++ [ci], weights ++ [wi]))
    ([], []).

(** ** PCA *)

Definition computeCentroid (n : nat) (points : list Vector3)
    (weights : list float) : Vector3 :=
  let '(centroid, total) :=
    for_loop n
      (fun i '(centroid, total) =>
         ((v3_add centroid (v3_scale (v3At points i) (floatAt weights i))),
          (total + floatAt weights i)%f32))
      (v3_zero, zero) in
  v3_scale centroid (one / total)%f32.

(** The symmetric matrix as the source stores it:
    [xx; xy; xz; yy; yz; zz]. *)
Definition computeCovariance (n : nat) (points : list Vector3)
    (weights : list float) : list float :=
  let centroid := computeCentroid n points weights in
  for_loop n
    (fun i cov =>
       let a := v3_sub (v3At points i) centroid in
       let b := v3_scale a (floatAt weights i) in
       [ (floatAt cov 0 + x a * x b)%f32; (floatAt cov 1 + x a * y b)%f32;
         (floatAt cov 2 + x a * z b)%f32; (floatAt cov 3 + y a * y b)%f32;
         (floatAt cov 4 + y a * z b)%f32; (floatAt cov 5 + z a * z b)%f32 ])
    [zero; zero; zero; zero; zero; zero].

Definition estimatePrincipalComponent (matrix : list float) : Vector3 :=
  let m := floatAt matrix in
  let row0 := mkVector3 (m 0%nat) (m 1%nat) (m 2%nat) in
  let row1 := mkVector3 (m 1%nat) (m 3%nat) (m 4%nat) in
  let row2 := mkVector3 (m 2%nat) (m 4%nat) (m 5%nat) in
  let r0 := lengthSquared row0 in
  let r1 := lengthSquared row1 in
  let r2 := lengthSquared row2 in
  if (r0 >? r1)%f32 && (r0 >? r2)%f32 then row0
  else if (r1 >? r2)%f32 then row1
  else row2.

(** The body of the power-iteration loop. *)
Definition power_step (matrix : list float) (v : Vector3) : Vector3 :=
  let m := floatAt matrix in
  let x' := (x v * m 0%nat + y v * m 1%nat + z v * m 2%nat)%f32 in
  let y' := (x v * m 1%nat + y v * m 3%nat + z v * m 4%nat)%f32 in
  let z' := (x v * m 2%nat + y v * m 4%nat + z v * m 5%nat)%f32 in
  let norm := fmax (fmax x' y') z' in
  v3_scale (mkVector3 x' y' z') (one / norm)%f32.

Definition NUM : nat := 8.

Definition firstEigenVector_PowerMethod (matrix : list float) : Vector3 :=
  let m := floatAt matrix in
  if (m 0%nat =? zero)%f32 && (m 3%nat =? zero)%f32 && (m 5%nat =? zero)%f32
  then v3_zero
  else for_loop NUM (fun _ v => power_step matrix v)
                (estimatePrincipalComponent matrix).

Definition computePrincipalComponent_PowerMethod (n : nat)
    (points : list Vector3) (weights : list float) : Vector3 :=
  firstEigenVector_PowerMethod (computeCovariance n points weights).

(** ** Summed-area table *)

Record SummedAreaTable : Set :=
  mkSat { sat_r : list float; sat_g : list float; sat_b : list float;
          sat_w : list float }.

(** [l[i] = v] on an array held as a list (no effect out of range). *)
Fixpoint upd {A : Type} (l : list A) (i : nat) (v : A) : list A :=
  match l, i with
  | [], _ => []
  | _ :: l', O => v :: l'
  | a :: l', S i' => a :: upd l' i' v
  end.

Definition swap_at {A : Type} (d : A) (l : list A) (i j : nat) : list A :=
  upd (upd l i (nth j l d)) j (nth i l d).

(** The inner loop of the stable insertion sort:
    [for (j = i; j > 0 && dps[j] < dps[j - 1]; --j) swap ...]. *)
Fixpoint sort_inner (j : nat) (st : list float * list nat)
  : list float * list nat :=
  match j with
  | O => st
  | S j' =>
      let '(dps, order) := st in
      if (floatAt dps j <? floatAt dps j')%f32
      then sort_inner j' (swap_at zero dps j j', swap_at O order j j')
      else st
  end.

Definition compute_sat (colors : list Vector3) (weights : list float)
    (count : nat) : nat * SummedAreaTable :=
  let principal := computePrincipalComponent_PowerMethod count colors weights in
  let order0 := seq 0 count in
  let dps0 := map (fun i => dot (v3At colors i) principal) order0 in
  let '(_, order) := for_loop count sort_inner (dps0, order0) in
  let term (i : nat) : Vector3 * float :=
    let wi := floatAt weights (nth i order O) in
    (v3_scale (v3At colors (nth i order O)) wi, wi) in
  let first := mkSat [x (fst (term O))] [y (fst (term O))] [z (fst (term O))]
                     [snd (term O)] in
  let sums :=
    for_loop (count - 1)
      (fun k s =>
         let i := S k in
         let '(cw, wi) := term i in
         mkSat (sat_r s ++ [(floatAt (sat_r s) k + x cw)%f32])
               (sat_g s ++ [(floatAt (sat_g s) k + y cw)%f32])
               (sat_b s ++ [(floatAt (sat_b s) k + z cw)%f32])
               (sat_w s ++ [(floatAt (sat_w s) k + wi)%f32]))
      first in
  let pad (l : list float) := firstn 16 (l ++ repeat FLT_MAX 16) in
  (count, mkSat (pad (sat_r sums)) (pad (sat_g sums)) (pad (sat_b sums))
                (pad (sat_w sums))).

(** ** Cluster fit *)

Record Combinations : Set := mkComb { comb_c0 : nat; comb_c1 : nat; comb_c2 : nat }.

Definition comb_eqb (a b : Combinations) : bool :=
  Nat.eqb (comb_c0 a) (comb_c0 b) && Nat.eqb (comb_c1 a) (comb_c1 b)
  && Nat.eqb (comb_c2 a) (comb_c2 b).

(** One value of [t] in the first loop nest of [init_cluster_tables]; the
    state is the filled part of [s_fourCluster] and of [s_fourClusterTotal]
    ([found] searches the entries counted by the previous total). *)
Definition four_cluster_step (k : nat)
    (st : list Combinations * list nat) : list Combinations * list nat :=
  let t := S k in
  let '(table, totals) := st in
  let prev := firstn (nth (t - 2) totals O) table in
  let table' :=
    for_loop (S t) (fun c0 tb =>
      for_loop (S (t - c0)) (fun c1 tb =>
        for_loop (S (t - c0 - c1)) (fun c2 tb =>
          if Nat.eqb c0 0 && Nat.eqb c1 0 && Nat.eqb c2 0 then tb
          else
            let e := mkComb c0 (c0 + c1) (c0 + c1 + c2) in
            if Nat.ltb 1 t && existsb (comb_eqb e) prev then tb
            else tb ++ [e]) tb) tb) table in
  (table', totals ++ [length table']).

Definition three_cluster_step (k : nat)
    (st : list Combinations * list nat) : list Combinations * list nat :=
  let t := S k in
  let '(table, totals) := st in
  let prev := firstn (nth (t - 2) totals O) table in
  let table' :=
    for_loop (S t) (fun c0 tb =>
      for_loop (S (t - c0)) (fun c1 tb =>
        if Nat.eqb c0 0 && Nat.eqb c1 0 then tb
        else
          let e := mkComb c0 (c0 + c1) 0 in
          if Nat.ltb 1 t && existsb (comb_eqb e) prev then tb
          else tb ++ [e]) tb) table in
  (table', totals ++ [length table']).

(** The tables after [init_cluster_tables], the last entry replicated 8
    times. *)
Definition replicate_last (tb : list Combinations) : list Combinations :=
  tb ++ repeat (last tb (mkComb 0 0 0)) 8.

Definition four_cluster_tables : list Combinations * list nat := Eval vm_compute in
  (let '(tb, totals) := for_loop 16 four_cluster_step ([], []) in
   (replicate_last tb, totals)).

Definition three_cluster_tables : list Combinations * list nat := Eval vm_compute in
  (let '(tb, totals) := for_loop 16 three_cluster_step ([], []) in
   (replicate_last tb, totals)).

Definition s_fourCluster : list Combinations := fst four_cluster_tables.
Definition s_fourClusterTotal : list nat := snd four_cluster_tables.
Definition s_threeCluster : list Combinations := fst three_cluster_tables.
Definition s_threeClusterTotal : list nat := snd three_cluster_tables.

Definition VEC_SIZE : nat := 16.

(** One SIMD lane of the running best: [vbesterror], [vbeststart],
    [vbestend]. *)
Record Lane : Set :=
  mkLane { lane_error : float; lane_start : Vector3; lane_end : Vector3 }.

(** The SAT entry selected by a cluster boundary [c]: zero when [c = 0],
    otherwise lane [c - 1] of the register loaded under [loadmask]
    (entries at and beyond [count] are [FLT_MAX]). *)
Definition sat_lookup (arr : list float) (count c : nat) : float :=
  match c with
  | O => zero
  | S k => if Nat.ltb (k mod 16) count then floatAt arr (k mod 16) else FLT_MAX
  end.

Definition sat_lookup3 (sat : SummedAreaTable) (count c : nat) : Vector3 :=
  mkVector3 (sat_lookup (sat_r sat) count c) (sat_lookup (sat_g sat) count c)
            (sat_lookup (sat_b sat) count c).

Definition vmad (a b c : float) : float := fma a b c.
Definition vmad3 (a : Vector3) (b : float) (c : Vector3) : Vector3 :=
  mkVector3 (vmad (x a) b (x c)) (vmad (y a) b (y c)) (vmad (z a) b (z c)).
Definition vmad33 (a b c : Vector3) : Vector3 :=
  mkVector3 (vmad (x a) (x b) (x c)) (vmad (y a) (y b) (y c))
            (vmad (z a) (z b) (z c)).
Definition vrcp (a : float) : float := (one / a)%f32.
Definition vround (a : float) : float := rint a.

Definition vround_ept (v : Vector3) : Vector3 :=
  mkVector3 (vround (x v * of_Z 31) * (one / of_Z 31))%f32
            (vround (y v * of_Z 63) * (one / of_Z 63))%f32
            (vround (z v * of_Z 31) * (one / of_Z 31))%f32.

(** The common tail of both solvers: endpoints from the five sums, clamped
    and snapped to the grid, and the closed-form error. *)
Definition solve_endpoints (alpha2_sum beta2_sum alphabeta_sum : float)
    (alphax_sum betax_sum metric_sqr : Vector3) : Lane :=
  let factor :=
    vrcp (alpha2_sum * beta2_sum - alphabeta_sum * alphabeta_sum)%f32 in
  let a := v3_scale (v3_sub (v3_scale alphax_sum beta2_sum)
                            (v3_scale betax_sum alphabeta_sum)) factor in
  let b := v3_scale (v3_sub (v3_scale betax_sum alpha2_sum)
                            (v3_scale alphax_sum alphabeta_sum)) factor in
  let a := vround_ept (v3_saturate a) in
  let b := vround_ept (v3_saturate b) in
  let e1 :=
    vmad3 (v3_mul a a) alpha2_sum
      (vmad3 (v3_mul b b) beta2_sum
         (v3_scale
            (v3_sub (v3_sub (v3_scale (v3_mul a b) alphabeta_sum)
                            (v3_mul a alphax_sum))
                    (v3_mul b betax_sum))
            (of_Z 2))) in
  mkLane (dot e1 metric_sqr) a b.

Definition keep_if_wins (best cand : Lane) : Lane :=
  if (lane_error cand <? lane_error best)%f32 then cand else best.

Definition four_candidate (sat : SummedAreaTable) (count : nat)
    (metric_sqr : Vector3) (c : Combinations) : Lane :=
  let sum := mkVector3 (floatAt (sat_r sat) (count - 1))
                       (floatAt (sat_g sat) (count - 1))
                       (floatAt (sat_b sat) (count - 1)) in
  let w_sum := floatAt (sat_w sat) (count - 1) in
  let x0 := sat_lookup3 sat count (comb_c0 c) in
  let w0 := sat_lookup (sat_w sat) count (comb_c0 c) in
  let x1 := sat_lookup3 sat count (comb_c1 c) in
  let w1 := sat_lookup (sat_w sat) count (comb_c1 c) in
  let x2 := sat_lookup3 sat count (comb_c2 c) in
  let w2 := sat_lookup (sat_w sat) count (comb_c2 c) in
  let w3 := (w_sum - w2)%f32 in
  let x2 := v3_sub x2 x1 in
  let x1 := v3_sub x1 x0 in
  let w2 := (w2 - w1)%f32 in
  let w1 := (w1 - w0)%f32 in
  let alpha2_sum :=
    vmad w2 (one / of_Z 9)%f32 (vmad w1 (of_Z 4 / of_Z 9)%f32 w0) in
  let beta2_sum :=
    vmad w1 (one / of_Z 9)%f32 (vmad w2 (of_Z 4 / of_Z 9)%f32 w3) in
  let alphabeta_sum := ((w1 + w2) * (of_Z 2 / of_Z 9))%f32 in
  let alphax_sum :=
    vmad3 x2 (one / of_Z 3)%f32 (vmad3 x1 (of_Z 2 / of_Z 3)%f32 x0) in
  let betax_sum := v3_sub sum alphax_sum in
  solve_endpoints alpha2_sum beta2_sum alphabeta_sum alphax_sum betax_sum
                  metric_sqr.

Definition three_candidate (sat : SummedAreaTable) (count : nat)
    (metric_sqr : Vector3) (c : Combinations) : Lane :=
  let sum := mkVector3 (floatAt (sat_r sat) (count - 1))
                       (floatAt (sat_g sat) (count - 1))
                       (floatAt (sat_b sat) (count - 1)) in
  let w_sum := floatAt (sat_w sat) (count - 1) in
  let x0 := sat_lookup3 sat count (comb_c0 c) in
  let w0 := sat_lookup (sat_w sat) count (comb_c0 c) in
  let x1 := sat_lookup3 sat count (comb_c1 c) in
  let w1 := sat_lookup (sat_w sat) count (comb_c1 c) in
  let w2 := (w_sum - w1)%f32 in
  let x1 := v3_sub x1 x0 in
  let w1 := (w1 - w0)%f32 in
  let alphabeta_sum := (w1 * dec 25 2)%f32 in
  let alpha2_sum := (w0 + alphabeta_sum)%f32 in
  let beta2_sum := (w2 + alphabeta_sum)%f32 in
  let alphax_sum := v3_add x0 (v3_scale x1 (dec 5 1)) in
  let betax_sum := v3_sub sum alphax_sum in
  solve_endpoints alpha2_sum beta2_sum alphabeta_sum alphax_sum betax_sum
                  metric_sqr.

(** The main loop, [VEC_SIZE] table entries per iteration, lane [l] taking
    entry [i + l]; then the reduction across lanes.  [int bestindex;] is
    declared without a value and assigned only when a lane error is below
    the running [besterror], which starts at [FLT_MAX]: when no lane error
    is below [FLT_MAX] the source reads [lane(v, bestindex)] with
    [bestindex] unassigned, which is undefined behaviour.  The model carries
    [bestindex] as an option and returns [None] there. *)
Definition cluster_fit (candidate : Combinations -> Lane)
    (table : list Combinations) (total_order_count : nat)
  : option (Vector3 * Vector3) :=
  let init := repeat (mkLane FLT_MAX v3_zero v3_zero) VEC_SIZE in
  let iterations := ((total_order_count + (VEC_SIZE - 1)) / VEC_SIZE)%nat in
  let lanes :=
    for_loop iterations
      (fun k lanes =>
         let i := (k * VEC_SIZE)%nat in
         map (fun '(l, best) =>
                keep_if_wins best
                  (candidate (nth (i + l)%nat table (mkComb 0 0 0))))
             (combine (seq 0 VEC_SIZE) lanes))
      init in
  let '(_, bestindex) :=
    for_loop VEC_SIZE
      (fun i '(besterror, bestindex) =>
         let e := lane_error (nth i lanes (mkLane FLT_MAX v3_zero v3_zero)) in
         if (e <? besterror)%f32 then (e, Some i) else (besterror, bestindex))
      (FLT_MAX, None) in
  match bestindex with
  | Some bestindex =>
      let best := nth bestindex lanes (mkLane FLT_MAX v3_zero v3_zero) in
      Some (lane_start best, lane_end best)
  | None => None
  end.

Definition cluster_fit_three (sat : SummedAreaTable) (count : nat)
    (metric_sqr : Vector3) : option (Vector3 * Vector3) :=
  cluster_fit (three_candidate sat count metric_sqr) s_threeCluster
              (nth (count - 1) s_threeClusterTotal O).

Definition cluster_fit_four (sat : SummedAreaTable) (count : nat)
    (metric_sqr : Vector3) : option (Vector3 * Vector3) :=
  cluster_fit (four_candidate sat count metric_sqr) s_fourCluster
              (nth (count - 1) s_fourClusterTotal O).

(** ** Palette evaluation *)


Definition Palette : Set := list Color32.
Definition paletteAt (p : Palette) (i : nat) : Color32 := nth i p 0.

Definition evaluate_palette4_d3d10 (c0 c1 : Color16) (palette : Palette)
  : Palette :=
  let p0 := paletteAt palette 0 in
  let p1 := paletteAt palette 1 in
  let palette :=
    upd palette 2 (c32_make ((2 * c32_r p0 + c32_r p1) / 3)
                            ((2 * c32_g p0 + c32_g p1) / 3)
                            ((2 * c32_b p0 + c32_b p1) / 3) 255) in
  upd palette 3 (c32_make ((2 * c32_r p1 + c32_r p0) / 3)
                          ((2 * c32_g p1 + c32_g p0) / 3)
                          ((2 * c32_b p1 + c32_b p0) / 3) 255).

Definition evaluate_palette3_d3d10 (c0 c1 : Color16) (palette : Palette)
  : Palette :=
  let p0 := paletteAt palette 0 in
  let p1 := paletteAt palette 1 in
  let palette :=
    upd palette 2 (c32_make ((c32_r p0 + c32_r p1) / 2)
                            ((c32_g p0 + c32_g p1) / 2)
                            ((c32_b p0 + c32_b p1) / 2) 255) in
  upd palette 3 0.

Definition evaluate_palette_d3d10 (c0 c1 : Color16) : Palette :=
  let palette := [bitexpand_color16_to_color32 c0;
                  bitexpand_color16_to_color32 c1; 0; 0] in
  if c0 >? c1 then evaluate_palette4_d3d10 c0 c1 palette
  else evaluate_palette3_d3d10 c0 c1 palette.

(** NVIDIA; [/] on [int] truncates toward zero. *)
Definition evaluate_palette4_nv (c0 c1 : Color16) (palette : Palette)
  : Palette :=
  let p0 := paletteAt palette 0 in
  let p1 := paletteAt palette 1 in
  let gdiff := c32_g p1 - c32_g p0 in
  let palette :=
    upd palette 2
      (c32_make (Z.quot ((2 * c16_r c0 + c16_r c1) * 22) 8)
                (Z.quot (256 * c32_g p0 + Z.quot gdiff 4 + 128 + gdiff * 80) 256)
                (Z.quot ((2 * c16_b c0 + c16_b c1) * 22) 8) 255) in
  upd palette 3
    (c32_make (Z.quot ((2 * c16_r c1 + c16_r c0) * 22) 8)
              (Z.quot (256 * c32_g p1 - Z.quot gdiff 4 + 128 - gdiff * 80) 256)
              (Z.quot ((2 * c16_b c1 + c16_b c0) * 22) 8) 255).

Definition evaluate_palette3_nv (c0 c1 : Color16) (palette : Palette)
  : Palette :=
  let p0 := paletteAt palette 0 in
  let p1 := paletteAt palette 1 in
  let gdiff := c32_g p1 - c32_g p0 in
  let palette :=
    upd palette 2
      (c32_make (Z.quot ((c16_r c0 + c16_r c1) * 33) 8)
                (Z.quot (256 * c32_g p0 + Z.quot gdiff 4 + 128 + gdiff * 128) 256)
                (Z.quot ((c16_b c0 + c16_b c1) * 33) 8) 255) in
  upd palette 3 0.

Definition evaluate_palette_nv (c0 c1 : Color16) : Palette :=
  let palette := [bitexpand_color16_to_color32 c0;
                  bitexpand_color16_to_color32 c1; 0; 0] in
  if c0 >? c1 then evaluate_palette4_nv c0 c1 palette
  else evaluate_palette3_nv c0 c1 palette.

(** AMD. *)
Definition evaluate_palette4_amd (c0 c1 : Color16) (palette : Palette)
  : Palette :=
  let p0 := paletteAt palette 0 in
  let p1 := paletteAt palette 1 in
  let palette :=
    upd palette 2 (c32_make ((43 * c32_r p0 + 21 * c32_r p1 + 32) / 8)
                            ((43 * c32_g p0 + 21 * c32_g p1 + 32) / 8)
                            ((43 * c32_b p0 + 21 * c32_b p1 + 32) / 8) 255) in
  upd palette 3 (c32_make ((43 * c32_r p1 + 21 * c32_r p0 + 32) / 8)
                          ((43 * c32_g p1 + 21 * c32_g p0 + 32) / 8)
                          ((43 * c32_b p1 + 21 * c32_b p0 + 32) / 8) 255).

Definition evaluate_palette3_amd (c0 c1 : Color16) (palette : Palette)
  : Palette :=
  let palette :=
    upd palette 2 (c32_make ((c16_r c0 + c16_r c1 + 1) / 2)
                            ((c16_g c0 + c16_g c1 + 1) / 2)
                            ((c16_b c0 + c16_b c1 + 1) / 2) 255) in
  upd palette 3 0.

Definition evaluate_palette_amd (c0 c1 : Color16) : Palette :=
  let palette := [bitexpand_color16_to_color32 c0;
                  bitexpand_color16_to_color32 c1; 0; 0] in
  if c0 >? c1 then evaluate_palette4_amd c0 c1 palette
  else evaluate_palette3_amd c0 c1 palette.

(** [ICBC_DECODER] is 0: the Direct3D 10 palette. *)
Definition evaluate_palette (c0 c1 : Color16) : Palette :=
  evaluate_palette_d3d10 c0 c1.

Definition evaluate_palette_v3 (c0 c1 : Color16) : list Vector3 :=
  map color_to_vector3 (evaluate_palette c0 c1).

(** ** Error evaluation *)

(** [evaluate_mse(const Vector3 & p, const Vector3 & c, const Vector3 & w)]. *)
Definition evaluate_mse_v3 (p c w : Vector3) : float :=
  let d := v3_scale (v3_mul (v3_sub p c) w) (of_Z 255) in
  dot d d.

(** [evaluate_mse(const Color32 & p, const Vector3 & c, const Vector3 & w)]. *)
Definition evaluate_mse_c32 (p : Color32) (c w : Vector3) : float :=
  evaluate_mse_v3 (color_to_vector3 p) c w.


Definition index_at (indices : Z) (i : nat) : nat :=
  Z.to_nat (Z.land (Z.shiftr indices (2 * Z.of_nat i)) 3).

(** [evaluate_mse(input_colors, input_weights, color_weights, output)]. *)
Definition evaluate_mse (input_colors : list Vector4)
    (input_weights : list float) (color_weights : Vector3)
    (output : BlockDXT1) : float :=
  let palette := evaluate_palette (col0 output) (col1 output) in
  for_loop 16
    (fun i error =>
       let index := index_at (indices output) i in
       (error + floatAt input_weights i
                * evaluate_mse_c32 (paletteAt palette index)
                    (xyz (colorAt input_colors i)) color_weights)%f32)
    zero.


(** ** Index selection *)

Definition palette_distances (palette : list Vector3) (c w : Vector3)
  : float * float * float * float :=
  (evaluate_mse_v3 (v3At palette 0) c w, evaluate_mse_v3 (v3At palette 1) c w,
   evaluate_mse_v3 (v3At palette 2) c w, evaluate_mse_v3 (v3At palette 3) c w).

Definition compute_indices4 (input_colors : list Vector4)
    (color_weights : Vector3) (palette : list Vector3) : Z :=
  for_loop 16
    (fun i indices =>
       let '(d0, d1, d2, d3) :=
         palette_distances palette (xyz (colorAt input_colors i))
                           color_weights in
       let b0 := bool_to_Z (d0 >? d3)%f32 in
       let b1 := bool_to_Z (d1 >? d2)%f32 in
       let b2 := bool_to_Z (d0 >? d2)%f32 in
       let b3 := bool_to_Z (d1 >? d3)%f32 in
       let b4 := bool_to_Z (d2 >? d3)%f32 in
       let x0 := Z.land b1 b2 in
       let x1 := Z.land b0 b3 in
       let x2 := Z.land b0 b4 in
       Z.lor indices
             (Z.shiftl (Z.lor x2 (Z.shiftl (Z.lor x0 x1) 1))
                       (2 * Z.of_nat i)))
    0.

Definition compute_indices (input_colors : list Vector4)
    (color_weights : Vector3) (palette : list Vector3) : Z :=
  for_loop 16
    (fun i indices =>
       let '(d0, d1, d2, d3) :=
         palette_distances palette (xyz (colorAt input_colors i))
                           color_weights in
       let index :=
         if (d0 <? d1)%f32 && (d0 <? d2)%f32 && (d0 <? d3)%f32 then 0
         else if (d1 <? d2)%f32 && (d1 <? d3)%f32 then 1
         else if (d2 <? d3)%f32 then 2
         else 3 in
       Z.lor indices (Z.shiftl index (2 * Z.of_nat i)))
    0.

Definition output_block3 (input_colors : list Vector4)
    (color_weights v0 v1 : Vector3) : BlockDXT1 :=
  let color0 := vector3_to_color16 v0 in
  let color1 := vector3_to_color16 v1 in
  let '(color0, color1) :=
    if color0 >? color1 then (color1, color0) else (color0, color1) in
  let palette := evaluate_palette_v3 color0 color1 in
  mkBlock color0 color1 (compute_indices input_colors color_weights palette).

Definition output_block4 (input_colors : list Vector4)
    (color_weights v0 v1 : Vector3) : BlockDXT1 :=
  let color0 := vector3_to_color16 v0 in
  let color1 := vector3_to_color16 v1 in
  let '(color0, color1) :=
    if color0 <? color1 then (color1, color0) else (color0, color1) in
  let palette := evaluate_palette_v3 color0 color1 in
  mkBlock color0 color1 (compute_indices4 input_colors color_weights palette).

(** ** Endpoint optimisation and quick endpoint selection *)

(** [optimize_end_points4(indices, const Vector4 * colors, count, a, b)]:
    [None] stands for [return false] ([*a] and [*b] untouched). *)
Definition optimize_end_points4 (indices : Z) (colors : list Vector4)
    (count : nat) : option (Vector3 * Vector3) :=
  let '(alpha2_sum, beta2_sum, alphabeta_sum, alphax_sum, betax_sum) :=
    for_loop count
      (fun i '(alpha2_sum, beta2_sum, alphabeta_sum, alphax_sum, betax_sum) =>
         let bits := Z.shiftr indices (2 * Z.of_nat i) in
         let beta := of_Z (Z.land bits 1) in
         let beta := if Z.eqb (Z.land bits 2) 0 then beta
                     else ((one + beta) / of_Z 3)%f32 in
         let alpha := (one - beta)%f32 in
         let c := xyz (colorAt colors i) in
         ((alpha2_sum + alpha * alpha)%f32, (beta2_sum + beta * beta)%f32,
          (alphabeta_sum + alpha * beta)%f32,
          v3_add alphax_sum (v3_scale c alpha),
          v3_add betax_sum (v3_scale c beta)))
      (zero, zero, zero, v3_zero, v3_zero) in
  let denom :=
    (alpha2_sum * beta2_sum - alphabeta_sum * alphabeta_sum)%f32 in
  if equal denom zero (dec 1 4) then None
  else
    let factor := (one / denom)%f32 in
    Some (v3_saturate
            (v3_scale (v3_sub (v3_scale alphax_sum beta2_sum)
                              (v3_scale betax_sum alphabeta_sum)) factor),
          v3_saturate
            (v3_scale (v3_sub (v3_scale betax_sum alpha2_sum)
                              (v3_scale alphax_sum alphabeta_sum)) factor)).

Definition fit_colors_bbox (colors : list Vector3) (count : nat)
  : Vector3 * Vector3 :=
  for_loop count
    (fun i '(c0, c1) =>
       (v3_max c0 (v3At colors i), v3_min c1 (v3At colors i)))
    (v3_zero, mkVector3 one one one).

Definition select_diagonal (colors : list Vector3) (count : nat)
    (c : Vector3 * Vector3) : Vector3 * Vector3 :=
  let '(c0, c1) := c in
  let center := v3_scale (v3_add c0 c1) (dec 5 1) in
  let '(cov_xz, cov_yz) :=
    for_loop count
      (fun i '(cov_xz, cov_yz) =>
         let t := v3_sub (v3At colors i) center in
         ((cov_xz + x t * z t)%f32, (cov_yz + y t * z t)%f32))
      (zero, zero) in
  let '(x0, x1) := if (cov_xz <? zero)%f32 then (x c1, x c0)
                   else (x c0, x c1) in
  let '(y0, y1) := if (cov_yz <? zero)%f32 then (y c1, y c0)
                   else (y c0, y c1) in
  (mkVector3 x0 y0 (z c0), mkVector3 x1 y1 (z c1)).

Definition inset_bbox (c : Vector3 * Vector3) : Vector3 * Vector3 :=
  let '(c0, c1) := c in
  let bias := (of_Z 8 / of_Z 255 / of_Z 16)%f32 in
  let inset := v3_sub (v3_div (v3_sub c0 c1) (of_Z 16))
                      (scalar_to_vector3 bias) in
  (v3_saturate (v3_sub c0 inset), v3_saturate (v3_add c1 inset)).

(** ** Single color lookup tables *)

Definition Lerp13 (a b : Z) : Z := Z.quot (a * 2 + b) 3.

(** Entry [i] of the table [PrepareOptTable] fills: [(max, min)]. *)
Definition PrepareOptTable_entry (expand : list Z) (size : nat) (i : Z)
  : Z * Z :=
  let '(_, best) :=
    for_loop size
      (fun min st =>
         for_loop size
           (fun max '(bestErr, best) =>
              let mine := nth min expand 0 in
              let maxe := nth max expand 0 in
              let err := Z.abs (Lerp13 maxe mine - i) * 100 in
              let err := err + Z.abs (Z.of_nat max - Z.of_nat min) * 3 in
              if err <? bestErr then (err, (Z.of_nat max, Z.of_nat min))
              else (bestErr, best))
           st)
      (256 * 100, (0, 0)) in
  best.

Definition PrepareOptTable (expand : list Z) (size : nat) : list (Z * Z) :=
  map (fun i => PrepareOptTable_entry expand size (Z.of_nat i)) (seq 0 256).

Definition expand5 : list Z :=
  map (fun i => Z.lor (Z.shiftl (Z.of_nat i) 3) (Z.shiftr (Z.of_nat i) 2) mod 256)
      (seq 0 32).
Definition expand6 : list Z :=
  map (fun i => Z.lor (Z.shiftl (Z.of_nat i) 2) (Z.shiftr (Z.of_nat i) 4) mod 256)
      (seq 0 64).

(** The tables after [init_dxt1_tables]. *)
Definition s_match5 : list (Z * Z) := Eval vm_compute in
  PrepareOptTable expand5 32.
Definition s_match6 : list (Z * Z) := Eval vm_compute in
  PrepareOptTable expand6 64.

Definition matchAt (t : list (Z * Z)) (v : Z) : Z * Z :=
  nth (Z.to_nat v) t (0, 0).

(** The endpoints read from the tables, before the ordering test. *)
Definition single_color_endpoints (c : Color32) : Color16 * Color16 :=
  (c16_make (fst (matchAt s_match5 (c32_r c)))
            (fst (matchAt s_match6 (c32_g c)))
            (fst (matchAt s_match5 (c32_b c))),
   c16_make (snd (matchAt s_match5 (c32_r c)))
            (snd (matchAt s_match6 (c32_g c)))
            (snd (matchAt s_match5 (c32_b c)))).

Definition compress_dxt1_single_color_optimal (c : Color32) : BlockDXT1 :=
  let '(c0, c1) := single_color_endpoints c in
  let indices := 2863311530 in
  if c0 <? c1 then mkBlock c1 c0 (Z.lxor indices 1431655765)
  else mkBlock c0 c1 indices.

(** ** Cluster fit, refinement and the top-level compressor *)

(** [compress_dxt1_cluster_fit]: the returned error and the block written
    to [*output]; [None] where one of the two fits reads [bestindex]
    unassigned. *)
Definition compress_dxt1_cluster_fit (input_colors : list Vector4)
    (input_weights : list float) (colors : list Vector3)
    (weights : list float) (count : nat) (color_weights : Vector3)
    (three_color_mode use_transparent_black : bool)
  : option (float * BlockDXT1) :=
  let metric_sqr := v3_mul color_weights color_weights in
  let '(sat_count, sat) := compute_sat colors weights count in
  match cluster_fit_four sat sat_count metric_sqr with
  | None => None
  | Some (start, end_) =>
      let output := output_block4 input_colors color_weights start end_ in
      let best_error :=
        evaluate_mse input_colors input_weights color_weights output in
      if three_color_mode then
        let '(tmp_colors, tmp_weights) := skip_blacks colors weights count in
        let tmp_count := length tmp_colors in
        if use_transparent_black && Nat.eqb tmp_count 0
        then Some (best_error, output)
        else
          let '(sat_count, sat) :=
            if use_transparent_black
            then compute_sat tmp_colors tmp_weights tmp_count
            else (sat_count, sat) in
          match cluster_fit_three sat sat_count metric_sqr with
          | None => None
          | Some (start, end_) =>
              let three_color_block :=
                output_block3 input_colors color_weights start end_ in
              let three_color_error :=
                evaluate_mse input_colors input_weights color_weights
                             three_color_block in
              if (three_color_error <? best_error)%f32
              then Some (three_color_error, three_color_block)
              else Some (best_error, output)
          end
      else Some (best_error, output)
  end.

Definition deltas : list (Z * Z * Z) :=
  [(1, 0, 0); (0, 1, 0); (0, 0, 1);
   (-1, 0, 0); (0, -1, 0); (0, 0, -1);
   (1, 1, 0); (1, 0, 1); (0, 1, 1);
   (-1, -1, 0); (-1, 0, -1); (0, -1, -1);
   (-1, 1, 0);
   (1, -1, 0); (0, -1, 1);
   (0, 1, -1)].

(** [c.r += dr; c.g += dg; c.b += db] on the bit-fields. *)
Definition c16_add (c : Color16) (d : Z * Z * Z) : Color16 :=
  let '(dr, dg, db) := d in
  c16_make (c16_r c + dr) (c16_g c + dg) (c16_b c + db).

(** The candidate of step [i], before its indices are computed. *)
Definition refine_candidate (three_color_mode : bool) (i : nat)
    (output : BlockDXT1) : Color16 * Color16 :=
  let delta := nth (i mod 16) deltas (0, 0, 0) in
  let '(r0, r1) :=
    if Nat.odd (i / 16) then (c16_add (col0 output) delta, col1 output)
    else (col0 output, c16_add (col1 output) delta) in
  if three_color_mode then (r0, r1)
  else
    let r1 := if r0 =? r1 then c16_add r1 (0, 1, 0) else r1 in
    if r0 <? r1 then (r1, r0) else (r0, r1).

(** The state of the loop: [best_error], [*output], [lastImprovement]. *)
Definition refine_step (input_colors : list Vector4)
    (input_weights : list float) (color_weights : Vector3)
    (three_color_mode : bool) (i : nat) (st : float * BlockDXT1 * nat)
  : float * BlockDXT1 * nat :=
  let '(best_error, output, lastImprovement) := st in
  let '(r0, r1) := refine_candidate three_color_mode i output in
  let palette := evaluate_palette_v3 (col0 output) (col1 output) in
  let refined :=
    mkBlock r0 r1 (compute_indices input_colors color_weights palette) in
  let refined_error :=
    evaluate_mse input_colors input_weights color_weights refined in
  if (refined_error <? best_error)%f32 then (refined_error, refined, i)
  else st.

(** [for (i = 0; i < 256; i++) { ...; if (i - lastImprovement > 32) break; }]
    with [fuel] iterations left. *)
Fixpoint refine_loop (input_colors : list Vector4)
    (input_weights : list float) (color_weights : Vector3)
    (three_color_mode : bool) (fuel i : nat) (st : float * BlockDXT1 * nat)
  : float * BlockDXT1 * nat :=
  match fuel with
  | O => st
  | S fuel' =>
      let st' := refine_step input_colors input_weights color_weights
                             three_color_mode i st in
      if Nat.ltb 32 (i - snd st') then st'
      else refine_loop input_colors input_weights color_weights
                       three_color_mode fuel' (S i) st'
  end.

Definition refine_endpoints (input_colors : list Vector4)
    (input_weights : list float) (color_weights : Vector3)
    (three_color_mode : bool) (input_error : float) (output : BlockDXT1)
  : float * BlockDXT1 :=
  fst (refine_loop input_colors input_weights color_weights three_color_mode
                   256 0 (input_error, output, O)).

(** [compress_dxt1]: the returned error and the block written to
    [*output]; [None] where the cluster fit reads [bestindex] unassigned. *)
Definition compress_dxt1 (input_colors : list Vector4)
    (input_weights : list float) (color_weights : Vector3)
    (three_color_mode hq : bool) : option (float * BlockDXT1) :=
  let reduced := reduce_colors input_colors input_weights 16 in
  let colors := r_colors reduced in
  let weights := r_weights reduced in
  let use_transparent_black := r_any_black reduced in
  let count := r_count reduced in
  match count with
  | O => Some (zero, mkBlock 0 0 0)
  | S O =>
      let output :=
        compress_dxt1_single_color_optimal
          (vector3_to_color32 (v3At colors 0)) in
      Some (evaluate_mse input_colors input_weights color_weights output,
            output)
  | _ =>
      let '(c0, c1) :=
        select_diagonal colors count
          (inset_bbox (fit_colors_bbox colors count)) in
      let output := output_block4 input_colors color_weights c0 c1 in
      let error :=
        evaluate_mse input_colors input_weights color_weights output in
      let '(error, output) :=
        match optimize_end_points4 (indices output) input_colors 16 with
        | Some (c0, c1) =>
            let optimized_block :=
              output_block4 input_colors color_weights c0 c1 in
            let optimized_error :=
              evaluate_mse input_colors input_weights color_weights
                           optimized_block in
            if (optimized_error <? error)%f32
            then (optimized_error, optimized_block)
            else (error, output)
        | None => (error, output)
        end in
      match compress_dxt1_cluster_fit input_colors input_weights colors
              weights count color_weights three_color_mode
              use_transparent_black with
      | None => None
      | Some (cluster_fit_error, cluster_fit_output) =>
          let '(error, output) :=
            if (cluster_fit_error <? error)%f32
            then (cluster_fit_error, cluster_fit_output)
            else (error, output) in
          if hq then
            Some (refine_endpoints input_colors input_weights color_weights
                                   three_color_mode error output)
          else Some (error, output)
      end
  end.

(** ** The fast paths *)

(** [operator==(const Vector3 &, const Vector3 &)]. *)
Definition v3_eqb (a b : Vector3) : bool :=
  (x a =? x b)%f32 && (y a =? y b)%f32 && (z a =? z b)%f32.

(** [compute_indices4(const Vector3 input_colors[16],
    const Vector3 palette[4])]. *)
Definition compute_indices4_v3 (input_colors : list Vector3)
    (palette : list Vector3) : Z :=
  for_loop 16
    (fun i indices =>
       let '(d0, d1, d2, d3) :=
         palette_distances palette (v3At input_colors i)
                           (mkVector3 one one one) in
       let b0 := bool_to_Z (d0 >? d3)%f32 in
       let b1 := bool_to_Z (d1 >? d2)%f32 in
       let b2 := bool_to_Z (d0 >? d2)%f32 in
       let b3 := bool_to_Z (d1 >? d3)%f32 in
       let b4 := bool_to_Z (d2 >? d3)%f32 in
       let x0 := Z.land b1 b2 in
       let x1 := Z.land b0 b3 in
       let x2 := Z.land b0 b4 in
       Z.lor indices
             (Z.shiftl (Z.lor x2 (Z.shiftl (Z.lor x0 x1) 1))
                       (2 * Z.of_nat i)))
    0.

(** [output_block4(const Vector3 input_colors[16], v0, v1, block)]. *)
Definition output_block4_v3 (input_colors : list Vector3)
    (v0 v1 : Vector3) : BlockDXT1 :=
  let color0 := vector3_to_color16 v0 in
  let color1 := vector3_to_color16 v1 in
  let '(color0, color1) :=
    if color0 <? color1 then (color1, color0) else (color0, color1) in
  let palette := evaluate_palette_v3 color0 color1 in
  mkBlock color0 color1 (compute_indices4_v3 input_colors palette).

(** [optimize_end_points4(indices, const Vector3 * colors, count, factors,
    a, b)]: least squares with the interpolation factor of each index read
    from [factors]. *)
Definition optimize_end_points4_factors (indices : Z) (colors : list Vector3)
    (count : nat) (factors : list float) : option (Vector3 * Vector3) :=
  let '(alpha2_sum, beta2_sum, alphabeta_sum, alphax_sum, betax_sum) :=
    for_loop count
      (fun i '(alpha2_sum, beta2_sum, alphabeta_sum, alphax_sum, betax_sum) =>
         let idx := Z.land (Z.shiftr indices (2 * Z.of_nat i)) 3 in
         let alpha := floatAt factors (Z.to_nat idx) in
         let beta := (one - alpha)%f32 in
         let c := v3At colors i in
         ((alpha2_sum + alpha * alpha)%f32, (beta2_sum + beta * beta)%f32,
          (alphabeta_sum + alpha * beta)%f32,
          v3_add alphax_sum (v3_scale c alpha),
          v3_add betax_sum (v3_scale c beta)))
      (zero, zero, zero, v3_zero, v3_zero) in
  let denom :=
    (alpha2_sum * beta2_sum - alphabeta_sum * alphabeta_sum)%f32 in
  if equal denom zero (dec 1 4) then None
  else
    let factor := (one / denom)%f32 in
    Some (v3_saturate
            (v3_scale (v3_sub (v3_scale alphax_sum beta2_sum)
                              (v3_scale betax_sum alphabeta_sum)) factor),
          v3_saturate
            (v3_scale (v3_sub (v3_scale betax_sum alpha2_sum)
                              (v3_scale alphax_sum alphabeta_sum)) factor)).

(** [optimize_end_points4(indices, const Vector3 * colors, count, a, b)]. *)
Definition optimize_end_points4_v3 (indices : Z) (colors : list Vector3)
    (count : nat) : option (Vector3 * Vector3) :=
  optimize_end_points4_factors indices colors count
    [one; zero; (of_Z 2 / of_Z 3)%f32; (one / of_Z 3)%f32].

(** [compress_dxt1_fast(const Vector4 input_colors[16], input_weights,
    color_weights, output)]: the returned error and the block. *)
Definition compress_dxt1_fast (input_colors : list Vector4)
    (input_weights : list float) (color_weights : Vector3)
  : float * BlockDXT1 :=
  let colors := map (fun i => xyz (colorAt input_colors i)) (seq 0 16) in
  let count := 16%nat in
  let '(c0, c1) := fit_colors_bbox colors count in
  if v3_eqb c0 c1 then
    let output := compress_dxt1_single_color_optimal (vector3_to_color32 c0) in
    (evaluate_mse input_colors input_weights color_weights output, output)
  else
    let '(c0, c1) := select_diagonal colors count (inset_bbox (c0, c1)) in
    let output := output_block4 input_colors color_weights c0 c1 in
    let output :=
      match optimize_end_points4 (indices output) input_colors 16 with
      | Some (c0, c1) => output_block4 input_colors color_weights c0 c1
      | None => output
      end in
    (evaluate_mse input_colors input_weights color_weights output, output).

(** [compress_dxt1_fast(const uint8 input_colors[16*4], output)]. *)
Definition compress_dxt1_fast_u8 (input_colors : list Z) : BlockDXT1 :=
  let vec_colors :=
    map (fun i =>
           mkVector3 (of_Z (nth (4 * i) input_colors 0) / of_Z 255)%f32
                     (of_Z (nth (4 * i + 1) input_colors 0) / of_Z 255)%f32
                     (of_Z (nth (4 * i + 2) input_colors 0) / of_Z 255)%f32)
        (seq 0 16) in
  let '(c0, c1) := fit_colors_bbox vec_colors 16 in
  if v3_eqb c0 c1 then
    compress_dxt1_single_color_optimal (vector3_to_color32 c0)
  else
    let '(c0, c1) := select_diagonal vec_colors 16 (inset_bbox (c0, c1)) in
    let output := output_block4_v3 vec_colors c0 c1 in
    match optimize_end_points4_v3 (indices output) vec_colors 16 with
    | Some (c0, c1) => output_block4_v3 vec_colors c0 c1
    | None => output
    end.

(** ** The power iteration in the words of the specification *)

(** The product of the symmetric matrix [xx; xy; xz; yy; yz; zz] with a
    vector, row by row. *)
Definition sym_mat_vec (matrix : list float) (v : Vector3) : Vector3 :=
  let m := floatAt matrix in
  mkVector3 (dot v (mkVector3 (m 0%nat) (m 1%nat) (m 2%nat)))
            (dot v (mkVector3 (m 1%nat) (m 3%nat) (m 4%nat)))
            (dot v (mkVector3 (m 2%nat) (m 4%nat) (m 5%nat))).

Definition diagonal_is_zero (matrix : list float) : bool :=
  (floatAt matrix 0 =? zero)%f32 && (floatAt matrix 3 =? zero)%f32
  && (floatAt matrix 5 =? zero)%f32.

(** Section 4.4 of the specification, word for word: "v <- Sigma v, then
    v <- v / max(|vx|, |vy|, |vz|)". *)
Definition spec_power_step (matrix : list float) (v : Vector3) : Vector3 :=
  let u := sym_mat_vec matrix v in
  v3_div u (fmax (fmax (fabsf (x u)) (fabsf (y u))) (fabsf (z u))).

(** "Iterate 8 times [...] If all diagonal entries are zero, return the zero
    vector", from the seed the source uses. *)
Definition spec_power_iteration (matrix : list float) : Vector3 :=
  if diagonal_is_zero matrix then v3_zero
  else Nat.iter 8 (spec_power_step matrix) (estimatePrincipalComponent matrix).

(** ** Quantization grids *)

(** The 5-to-8 and 6-to-8 bit replication. *)
Definition bitexpand5 (k : Z) : Z := Z.lor (Z.shiftl k 3) (Z.shiftr k 2).
Definition bitexpand6 (k : Z) : Z := Z.lor (Z.shiftl k 2) (Z.shiftr k 4).

(** An 8-bit channel as a normalized float, as [color_to_vector3] does. *)
Definition norm8 (c : Z) : float := (of_Z c / of_Z 255)%f32.

(** Quantize to 5:6:5, then bit-expand back to normalized floats. *)
Definition quantize_expand (v : Vector3) : Vector3 :=
  color_to_vector3 (bitexpand_color16_to_color32 (vector3_to_color16 v)).

Definition zrange (n : nat) : list Z := map Z.of_nat (seq 0 n).

(** Decidable checks run over the whole grid. *)
Definition channel_ok (scale : Z) (midpoints : list float) (expand : Z -> Z)
    (k : Z) : bool :=
  (quantize_channel (of_Z k / of_Z scale)%f32 scale midpoints =? k)
  && (quantize_channel (norm8 (expand k)) scale midpoints =? k).

Definition pack_ok (r g b : Z) : bool :=
  let c := (Z.lor (Z.lor (Z.shiftl r 11) (Z.shiftl g 5)) b) mod 65536 in
  let e := bitexpand_color16_to_color32 c in
  (c =? c16_make r g b) && (c32_r e =? bitexpand5 r)
  && (c32_g e =? bitexpand6 g) && (c32_b e =? bitexpand5 b).

Definition fields_ok (r g b : Z) : bool :=
  let c := c32_make r g b 255 in
  (c32_r c =? r) && (c32_g c =? g) && (c32_b c =? b).

(** ** Properties of blocks and errors *)

(** The endpoint order every 4-color-mode path establishes. *)
Definition ordered (b : BlockDXT1) : Prop := col1 b <= col0 b.

(** [a] is less than [b], or the very same value. *)
Definition le_or_same (a b : float) : Prop := (a <? b)%f32 = true \/ a = b.

(** A 3-color-mode block: endpoint0 <= endpoint1, and not the degenerate
    single-color block, that is, the endpoints differ or some texel has
    index 3 (with equal endpoints, entries 0, 1 and 2 of the palette are the
    one color and only entry 3 differs). *)
Definition three_color_mode_block (b : BlockDXT1) : Prop :=
  col0 b <= col1 b
  /\ (col0 b <> col1 b
      \/ exists i, (i < 16)%nat /\ index_at (indices b) i = 3%nat).

(** ** Concrete inputs *)

(** A texel given by 8-bit channels, alpha 255. *)
Definition rgb8 (r g b : Z) : Vector4 :=
  mkVector4 (mkVector3 (norm8 r) (norm8 g) (norm8 b)) (norm8 255).

Definition solid_red : list Vector4 :=
  repeat (mkVector4 (mkVector3 one zero zero) one) 16.
Definition unit_weights : list float := repeat one 16.
Definition zero_weights : list float := repeat zero 16.
Definition unit_channel_weights : Vector3 := mkVector3 one one one.

(** White, a mid grey and a darker grey; the mid grey is the 3-color-mode
    midpoint of the other two, and no texel is near black. *)
Definition three_tone_block : list Vector4 :=
  repeat (rgb8 255 255 255) 5 ++ repeat (rgb8 193 192 193) 6
  ++ repeat (rgb8 132 130 132) 5.

(** Solid red but for a black first texel, which the weights below mask. *)
Definition red_with_black_corner : list Vector4 :=
  mkVector4 v3_zero one :: repeat (mkVector4 (mkVector3 one zero zero) one) 15.
Definition first_texel_masked : list float := zero :: repeat one 15.

(** A positive definite covariance matrix, [xx; xy; xz; yy; yz; zz]. *)
Definition covariance_3_2_2_4_0_4 : list float :=
  map of_Z [3; -2; -2; 4; 0; 4].

(** ** Predicates and invariants of the further properties *)

(** [v] lies between [a] and [b], in either order. *)
Definition between (a b v : Z) : Prop := Z.min a b <= v <= Z.max a b.

(** The check of [bitexpand_color16_to_color32] on one triple of fields. *)
Definition expand_ok (r g b : Z) : bool :=
  let e := bitexpand_color16_to_color32 (c16_make r g b) in
  (c32_r e =? bitexpand5 r) && (c32_g e =? bitexpand6 g)
  && (c32_b e =? bitexpand5 b) && (c32_a e =? 0).

(** The color channels of a [Color32]. *)
Definition channels : list (Color32 -> Z) := [c32_r; c32_g; c32_b].

Definition betweenb (a b v : Z) : bool :=
  (Z.min a b <=? v) && (v <=? Z.max a b).

(** The NVIDIA formulas on the unexpanded fields, before the store. *)
Definition nv_rb4 (e0 e1 : Z) : Z := Z.quot ((2 * e0 + e1) * 22) 8.

Definition nv_rb3 (e0 e1 : Z) : Z := Z.quot ((e0 + e1) * 33) 8.

Definition nv_g (p0 gdiff k : Z) : Z :=
  Z.quot (256 * p0 + Z.quot gdiff 4 + 128 + gdiff * k) 256.

(** The checks of the NVIDIA interpolants on one pair of fields. *)
Definition nv_rb_ok (e0 e1 : Z) : bool :=
  betweenb (bitexpand5 e0) (bitexpand5 e1) (nv_rb4 e0 e1)
  && betweenb (bitexpand5 e0) (bitexpand5 e1) (nv_rb3 e0 e1).

Definition nv_g_ok (g0 g1 : Z) : bool :=
  let p0 := bitexpand6 g0 in
  let p1 := bitexpand6 g1 in
  betweenb p0 p1 (nv_g p0 (p1 - p0) 80)
  && betweenb p0 p1 (Z.quot (256 * p1 - Z.quot (p1 - p0) 4 + 128
                             - (p1 - p0) * 80) 256)
  && betweenb p0 p1 (nv_g p0 (p1 - p0) 128).

(** The cost [PrepareOptTable] minimises for target [i] and pair
    [(max, min)]. *)
Definition opt_err (expand : Z -> Z) (i mx mn : Z) : Z :=
  Z.abs (Lerp13 (expand mx) (expand mn) - i) * 100 + Z.abs (mx - mn) * 3.

(** The check of one table entry: in range, within 1 of the target, and of
    least cost among all pairs. *)
Definition match_ok (table : list (Z * Z)) (expand : Z -> Z) (size : nat)
    (i : Z) : bool :=
  let '(mx, mn) := matchAt table i in
  (0 <=? mx) && (mx <? Z.of_nat size) && (0 <=? mn) && (mn <? Z.of_nat size)
  && (Z.abs ((2 * expand mx + expand mn) / 3 - i) <=? 1)
  && forallb (fun a => forallb (fun b =>
       opt_err expand i mx mn <=? opt_err expand i a b)
       (zrange size)) (zrange size).

(** The texel a decoder reconstructs: the palette entry its index selects. *)
Definition decoded_texel (palette : Palette) (block : BlockDXT1) (i : nat)
  : Color32 :=
  paletteAt palette (index_at (indices block) i).

(** Every color channel of [decoded] is within 1 of that of [target]. *)
Definition within_one (target decoded : Color32) : Prop :=
  Z.abs (c32_r decoded - c32_r target) <= 1
  /\ Z.abs (c32_g decoded - c32_g target) <= 1
  /\ Z.abs (c32_b decoded - c32_b target) <= 1.



(** Two colors [reduce_colors] keeps apart. *)
Definition far_apart (a b : Vector3) : Prop := v3_equal a b threshold = false.

(** What holds of the accumulators after [k] texels. *)
Record reduce_inv (ic : list Vector4) (iw : list float) (k : nat)
    (st : Reduced) : Prop :=
  { inv_lengths : length (r_weights st) = length (r_colors st);
    inv_count : (length (r_colors st) <= k)%nat;
    inv_from_input :
      Forall (fun c => exists i, (i < k)%nat /\ c = xyz (colorAt ic i)
                                 /\ (floatAt iw i >? zero)%f32 = true)
             (r_colors st);
    inv_far_apart : ForallOrdPairs far_apart (r_colors st);
    inv_any_black :
      r_any_black st = true <->
      exists i, (i < k)%nat /\ (floatAt iw i >? zero)%f32 = true
                /\ is_black (xyz (colorAt ic i)) = true }.

(** The descriptors enumerated for an input count [t]. *)
Definition four_partitions (t : nat) : list Combinations :=
  firstn (nth (t - 1) s_fourClusterTotal O) s_fourCluster.

Definition three_partitions (t : nat) : list Combinations :=
  firstn (nth (t - 1) s_threeClusterTotal O) s_threeCluster.

(** No descriptor occurs twice. *)
Fixpoint nodupb (l : list Combinations) : bool :=
  match l with
  | [] => true
  | a :: l' => negb (existsb (comb_eqb a) l') && nodupb l'
  end.

(** The check of the tables for [t = k + 1] colors: every admissible
    descriptor is listed, every listed one is admissible, none twice. *)
Definition four_complete (k : nat) : bool :=
  let t := S k in
  forallb (fun c0 => forallb (fun c1 => forallb (fun c2 =>
    if Nat.leb c0 c1 && Nat.leb c1 c2 && Nat.ltb 0 c2
    then existsb (comb_eqb (mkComb c0 c1 c2)) (four_partitions t)
    else true) (seq 0 (S t))) (seq 0 (S t))) (seq 0 (S t))
  && forallb (fun c => Nat.leb (comb_c0 c) (comb_c1 c)
                       && Nat.leb (comb_c1 c) (comb_c2 c)
                       && Nat.ltb 0 (comb_c2 c) && Nat.leb (comb_c2 c) t)
             (four_partitions t)
  && nodupb (four_partitions t).

Definition three_complete (k : nat) : bool :=
  let t := S k in
  forallb (fun c0 => forallb (fun c1 =>
    if Nat.leb c0 c1 && Nat.ltb 0 c1
    then existsb (comb_eqb (mkComb c0 c1 0)) (three_partitions t)
    else true) (seq 0 (S t))) (seq 0 (S t))
  && forallb (fun c => Nat.leb (comb_c0 c) (comb_c1 c)
                       && Nat.ltb 0 (comb_c1 c) && Nat.leb (comb_c1 c) t
                       && Nat.eqb (comb_c2 c) 0)
             (three_partitions t)
  && nodupb (three_partitions t).

Definition is_nan (f : float) : bool :=
  match f with S754_nan => true | _ => false end.

(** The values [saturate] returns: 0, 1, or strictly between. *)
Definition in_unit (a : float) : Prop :=
  a = zero \/ a = one \/ ((zero <? a)%f32 = true /\ (a <? one)%f32 = true).

Definition v3_in_unit (v : Vector3) : Prop :=
  in_unit (x v) /\ in_unit (y v) /\ in_unit (z v).

(** An (error, block) pair whose error is that of the block. *)
Definition consistent (ic : list Vector4) (iw : list float) (cw : Vector3)
    (r : float * BlockDXT1) : Prop :=
  fst r = evaluate_mse ic iw cw (snd r).

(** The same pair, or a strictly smaller error. *)
Definition unchanged_or_better (before after : float * BlockDXT1) : Prop :=
  after = before \/ (fst after <? fst before)%f32 = true.

(** [input_weights[i] > 0]. *)
Definition positive_weight (iw : list float) (i : nat) : Prop :=
  (floatAt iw i >? zero)%f32 = true.

(** The weighted squared distance of a color to palette entry [j]. *)
Definition texel_distance (palette : list Vector3) (c w : Vector3) (j : nat)
  : float :=
  evaluate_mse_v3 (v3At palette j) c w.

(** The number of table entries the main loop evaluates: the total rounded
    up to whole registers. *)
Definition tested (total_order_count : nat) : nat :=
  (((total_order_count + (VEC_SIZE - 1)) / VEC_SIZE) * VEC_SIZE)%nat.

(** A lane of the running best before the first iteration. *)
Definition init_lane : Lane := mkLane FLT_MAX v3_zero v3_zero.

(** Entry [j] of the table as a candidate, and its error. *)
Definition table_entry (candidate : Combinations -> Lane)
    (table : list Combinations) (j : nat) : Lane :=
  candidate (nth j table (mkComb 0 0 0)).

Definition entry_error (candidate : Combinations -> Lane)
    (table : list Combinations) (j : nat) : float :=
  lane_error (table_entry candidate table j).

(** Lane [l] after [K] iterations of the main loop: it holds the initial
    value or a candidate of its own column that beat [FLT_MAX], and no
    candidate of the column seen so far has a smaller error. *)
Definition lane_inv (candidate : Combinations -> Lane)
    (table : list Combinations) (K l : nat) (best : Lane) : Prop :=
  (best = init_lane
   \/ exists k, (k < K)%nat /\ best = table_entry candidate table (k * 16 + l)
                /\ (lane_error best <? FLT_MAX)%f32 = true)
  /\ forall k, (k < K)%nat ->
       (entry_error candidate table (k * 16 + l) <? lane_error best)%f32
       = false.

(** The registers after [K] iterations of the main loop of [cluster_fit]. *)
Definition lanes_after (candidate : Combinations -> Lane)
    (table : list Combinations) (K : nat) : list Lane :=
  for_loop K
    (fun k lanes =>
       let i := (k * 16)%nat in
       map (fun '(l, best) =>
              keep_if_wins best
                (candidate (nth (i + l)%nat table (mkComb 0 0 0))))
           (combine (seq 0 16) lanes))
    (repeat init_lane 16).

(** The reduction across lanes after [i] lanes. *)
Definition reduce_inv_lanes (lanes : list Lane) (i : nat)
    (st : float * option nat) : Prop :=
  (forall l, (l < i)%nat ->
     (lane_error (nth l lanes init_lane) <? fst st)%f32 = false)
  /\ match snd st with
     | None => fst st = FLT_MAX
     | Some bestindex =>
         (bestindex < i)%nat
         /\ fst st = lane_error (nth bestindex lanes init_lane)
         /\ (fst st <? FLT_MAX)%f32 = true
     end.

(** While element [i] moves down, at position [j]: every adjacent pair of
    the first [i + 1] entries away from the moving element is in order, the
    moving element is below its successor, and its two neighbours are in
    order. *)
Record moving (i j : nat) (dps : list float) : Prop :=
  { moving_rest : forall m, (S m <= i)%nat -> S m <> j -> m <> j ->
      (floatAt dps (S m) <? floatAt dps m)%f32 = false;
    moving_next : (j < i)%nat ->
      (floatAt dps j <? floatAt dps (S j))%f32 = true;
    moving_around : forall j', j = S j' -> (j < i)%nat ->
      (floatAt dps (S j) <? floatAt dps j')%f32 = false }.

(** No adjacent pair of the first [n] keys has the later one smaller. *)
Definition no_inversion (n : nat) (dps : list float) : Prop :=
  forall m, (S m < n)%nat -> (floatAt dps (S m) <? floatAt dps m)%f32 = false.

(** A channel of the table for [count] colors: 16 entries, the running sums
    of [term] first, [FLT_MAX] from [count] on. *)
Record running_sums (count : nat) (term : nat -> float) (arr : list float)
  : Prop :=
  { sums_length : length arr = 16%nat;
    sums_first : floatAt arr 0 = term O;
    sums_next : forall i, (S i < count)%nat ->
      floatAt arr (S i) = (floatAt arr i + term (S i))%f32;
    sums_padding : forall i, (count <= i < 16)%nat -> floatAt arr i = FLT_MAX }.

(** The weighted color and the weight of the [i]-th entry in the sorted
    order. *)
Definition sat_term (colors : list Vector3) (weights : list float)
    (order : list nat) (i : nat) : Vector3 * float :=
  (v3_scale (v3At colors (nth i order O)) (floatAt weights (nth i order O)),
   floatAt weights (nth i order O)).

(** The block is the one passed in, or a proper 4-color block. *)
Definition same_or_strict (b : BlockDXT1) (st : float * BlockDXT1 * nat)
  : Prop :=
  snd (fst st) = b \/ col1 (snd (fst st)) < col0 (snd (fst st)).

(** ** Further concrete inputs *)

(** Sixteen texels of the 8-bit color (200, 100, 50), as floats and as
    bytes. *)
Definition solid_rgb8 : list Vector4 := repeat (rgb8 200 100 50) 16.

Definition solid_rgba_bytes : list Z := concat (repeat [200; 100; 50; 255] 16).

(** Black and white, one texel each: two colors for the summed-area table
    and the cluster fit. *)
Definition black_white : list Vector3 := [v3_zero; mkVector3 one one one].

Definition two_weights : list float := [one; one].

Definition black_white_sat : SummedAreaTable :=
  snd (compute_sat black_white two_weights 2).

(** The endpoints least squares finds for the three-tone block under the
    indices of the white / dark grey block. *)
Definition three_tone_indices : Z :=
  indices (output_block4 three_tone_block unit_channel_weights
             (mkVector3 one one one) (xyz (rgb8 132 130 132))).

Definition three_tone_least_squares : Vector3 * Vector3 :=
  match optimize_end_points4 three_tone_indices three_tone_block 16 with
  | Some p => p
  | None => (v3_zero, v3_zero)
  end.

(** Eight white texels, seven of (254, 254, 254) and a black last texel,
    which the weights below mask. *)
Definition white_pair_black_corner : list Vector4 :=
  repeat (rgb8 255 255 255) 8 ++ repeat (rgb8 254 254 254) 7
  ++ [rgb8 0 0 0].

Definition last_texel_masked : list float := repeat one 15 ++ [zero].

(** Solid red but for a first texel whose channels are NaN. *)
Definition nan_corner : list Vector4 :=
  mkVector4 (mkVector3 S754_nan S754_nan S754_nan) one
  :: repeat (mkVector4 (mkVector3 one zero zero) one) 15.

(** * Theorems *)

(** ** Loops *)

Section ForLoop.
Context {St : Type}.

Lemma fold_seq_invariant (P : St -> Prop) (body : nat -> St -> St) :
  forall len a s,
    P s ->
    (forall i s', (a <= i < a + len)%nat -> P s' -> P (body i s')) ->
    P (fold_left (fun acc i => body i acc) (seq a len) s).
Proof.
  induction len as [|len IH]; intros a s Hs Hstep; simpl; auto.
  apply IH.
  - apply Hstep; [lia | exact Hs].
  - intros i s' Hi. apply Hstep. lia.
Qed.

Lemma for_loop_invariant (P : St -> Prop) n (body : nat -> St -> St) s :
  P s ->
  (forall i s', (i < n)%nat -> P s' -> P (body i s')) ->
  P (for_loop n body s).
Proof.
  intros Hs Hstep. unfold for_loop. apply fold_seq_invariant; auto.
  intros i s' Hi. apply Hstep. lia.
Qed.

Lemma fold_seq_ext (body1 body2 : nat -> St -> St) :
  forall len a s,
    (forall i s', (a <= i < a + len)%nat -> body1 i s' = body2 i s') ->
    fold_left (fun acc i => body1 i acc) (seq a len) s
    = fold_left (fun acc i => body2 i acc) (seq a len) s.
Proof.
  induction len as [|len IH]; intros a s Hext; simpl; auto.
  rewrite Hext by lia. apply IH. intros i s' Hi. apply Hext. lia.
Qed.

Lemma for_loop_ext n (body1 body2 : nat -> St -> St) s :
  (forall i s', (i < n)%nat -> body1 i s' = body2 i s') ->
  for_loop n body1 s = for_loop n body2 s.
Proof.
  intros Hext. unfold for_loop. apply fold_seq_ext.
  intros i s' Hi. apply Hext. lia.
Qed.

Lemma for_loop_iter n (f : St -> St) s :
  for_loop n (fun _ => f) s = Nat.iter n f s.
Proof.
  unfold for_loop. generalize 0%nat. revert s.
  induction n as [|n IH]; intros s a; simpl; auto.
  rewrite IH. clear IH. revert s.
  induction n as [|n IH]; intros s; simpl; auto. now rewrite IH.
Qed.

End ForLoop.

Lemma zrange_forallb (f : Z -> bool) n :
  forallb f (zrange n) = true ->
  forall k, 0 <= k < Z.of_nat n -> f k = true.
Proof.
  intros H k Hk. unfold zrange in H. rewrite forallb_forall in H.
  apply H. apply in_map_iff. exists (Z.to_nat k). split; [lia|].
  apply in_seq. lia.
Qed.

(** ** The static tables *)

(** The partition tables have the sizes the source declares for them,
    [968 + 8] and [152 + 8], and the totals per input count are cumulative. *)
Example cluster_table_sizes :
  length s_fourCluster = 976%nat /\ length s_threeCluster = 160%nat
  /\ s_fourClusterTotal
     = [3; 9; 19; 34; 55; 83; 119; 164; 219; 285; 363; 454; 559; 679; 815;
        968]%nat
  /\ s_threeClusterTotal
     = [2; 5; 9; 14; 20; 27; 35; 44; 54; 65; 77; 90; 104; 119; 135; 152]%nat.
Proof. repeat split; reflexivity. Qed.

(** The expansion tables of [init_dxt1_tables] are the bit replications. *)
Example expand_tables :
  expand5 = map bitexpand5 (zrange 32) /\ expand6 = map bitexpand6 (zrange 64).
Proof. split; reflexivity. Qed.

(** Every partition descriptor has [c0 <= c1 <= c2 <= 16] (4 clusters) or
    [c0 <= c1 <= 16] (3 clusters), so a SAT lookup never leaves the 16
    lanes. *)
Example cluster_tables_in_range :
  forallb (fun c => Nat.leb (comb_c0 c) (comb_c1 c)
                    && Nat.leb (comb_c1 c) (comb_c2 c)
                    && Nat.leb (comb_c2 c) 16) s_fourCluster = true
  /\ forallb (fun c => Nat.leb (comb_c0 c) (comb_c1 c)
                       && Nat.leb (comb_c1 c) 16) s_threeCluster = true.
Proof. split; vm_compute; reflexivity. Qed.

(** ** Float comparison *)

(** [<] on binary32 values is transitive (a NaN compares with nothing). *)
Lemma ltb_trans (a b c : float) :
  (a <? b)%f32 = true -> (b <? c)%f32 = true -> (a <? c)%f32 = true.
Proof.
  unfold ltb, SFltb.
  destruct a as [sa|sa| |sa ma ea], b as [sb|sb| |sb mb eb],
           c as [sc|sc| |sc mc ec]; simpl;
    try discriminate; try reflexivity;
    try (destruct sa; simpl; try discriminate; try reflexivity);
    try (destruct sb; simpl; try discriminate; try reflexivity);
    try (destruct sc; simpl; try discriminate; try reflexivity).
  all: destruct (Z.compare_spec ea eb), (Z.compare_spec eb ec),
         (Z.compare_spec ea ec); subst; try lia; try discriminate;
         try reflexivity.
  all: change (Pos.compare_cont Eq) with Pos.compare.
  all: destruct (Pos.compare_spec ma mb), (Pos.compare_spec mb mc),
         (Pos.compare_spec ma mc); subst; simpl; try lia; try discriminate;
         try reflexivity.
Qed.

Lemma le_or_same_refl a : le_or_same a a.
Proof. now right. Qed.


Lemma eqb_zero_not_positive (w0 : float) :
  (w0 =? zero)%f32 = true -> (w0 >? zero)%f32 = false.
Proof. destruct w0 as [s|s| |s m e]; try destruct s; cbv; congruence. Qed.

(** ** Endpoint order *)

Lemma output_block4_ordered ic cw v0 v1 : ordered (output_block4 ic cw v0 v1).
Proof.
  unfold ordered, output_block4.
  destruct (Z.ltb_spec (vector3_to_color16 v0) (vector3_to_color16 v1));
    cbn [col0 col1]; lia.
Qed.

Lemma single_color_ordered c : ordered (compress_dxt1_single_color_optimal c).
Proof.
  unfold ordered, compress_dxt1_single_color_optimal.
  destruct (single_color_endpoints c) as [c0 c1].
  destruct (Z.ltb_spec c0 c1); cbn [col0 col1]; lia.
Qed.

(** Without [three_color_mode] the cluster fit returns its 4-color block. *)
Lemma cluster_fit_four_color ic iw colors weights count cw utb e b :
  compress_dxt1_cluster_fit ic iw colors weights count cw false utb
  = Some (e, b) ->
  ordered b.
Proof.
  unfold compress_dxt1_cluster_fit.
  destruct (compute_sat colors weights count) as [sat_count sat].
  destruct (cluster_fit_four sat sat_count (v3_mul cw cw))
    as [[start end_]|]; [|discriminate].
  intros H. injection H as _ <-. apply output_block4_ordered.
Qed.

Lemma refine_candidate_ordered i output :
  snd (refine_candidate false i output)
  <= fst (refine_candidate false i output).
Proof.
  unfold refine_candidate.
  destruct (Nat.odd (i / 16)); cbv beta iota;
    match goal with
    | |- context [if ?a =? ?b then _ else _] => destruct (a =? b)
    end;
    match goal with
    | |- context [if ?a <? ?b then _ else _] => destruct (Z.ltb_spec a b)
    end; cbn [fst snd]; lia.
Qed.

Lemma refine_step_ordered ic iw cw i st :
  ordered (snd (fst st)) ->
  ordered (snd (fst (refine_step ic iw cw false i st))).
Proof.
  destruct st as [[best_error output] lastImprovement]. cbn [fst snd].
  intros H. unfold refine_step.
  pose proof (refine_candidate_ordered i output) as Hc.
  destruct (refine_candidate false i output) as [r0 r1].
  cbn [fst snd] in Hc.
  match goal with |- context [if ?c then _ else _] => destruct c end;
    cbn [fst snd]; auto.
Qed.

Lemma refine_loop_ordered ic iw cw fuel :
  forall i st,
    ordered (snd (fst st)) ->
    ordered (snd (fst (refine_loop ic iw cw false fuel i st))).
Proof.
  induction fuel as [|fuel IH]; intros i st H; cbn [refine_loop]; auto.
  pose proof (refine_step_ordered ic iw cw i st H) as H'.
  destruct (Nat.ltb 32 _); auto.
Qed.

Lemma refine_endpoints_ordered ic iw cw e b :
  ordered b -> ordered (snd (refine_endpoints ic iw cw false e b)).
Proof.
  intros H. unfold refine_endpoints.
  apply (refine_loop_ordered ic iw cw 256 0%nat (e, b, 0%nat)). exact H.
Qed.

(** Every path of [compress_dxt1] without [three_color_mode] -- trivial
    block, single color, bounding box, least squares, cluster fit,
    refinement -- leaves the endpoints ordered. *)
Lemma compress_dxt1_ordered ic iw cw hq e b :
  compress_dxt1 ic iw cw false hq = Some (e, b) -> ordered b.
Proof.
  unfold compress_dxt1.
  destruct (r_count (reduce_colors ic iw 16)) as [|[|n]].
  - intros H. injection H as _ <-. unfold ordered. cbn [col0 col1]. lia.
  - intros H. injection H as _ <-. apply single_color_ordered.
  - set (count := S (S n)).
    destruct (select_diagonal _ count _) as [c0 c1].
    pose proof (output_block4_ordered ic cw c0 c1) as H0.
    set (quick := output_block4 ic cw c0 c1) in *.
    assert (Hq : ordered (snd
      match optimize_end_points4 (indices quick) ic 16 with
      | Some (c2, c3) =>
          if (evaluate_mse ic iw cw (output_block4 ic cw c2 c3)
              <? evaluate_mse ic iw cw quick)%f32
          then (evaluate_mse ic iw cw (output_block4 ic cw c2 c3),
                output_block4 ic cw c2 c3)
          else (evaluate_mse ic iw cw quick, quick)
      | None => (evaluate_mse ic iw cw quick, quick)
      end)).
    { destruct (optimize_end_points4 _ _ _) as [[c2 c3]|]; cbn [snd]; auto.
      destruct (ltb _ _); cbn [snd]; auto using output_block4_ordered. }
    destruct (match optimize_end_points4 (indices quick) ic 16 with
              | Some _ => _ | None => _ end) as [error output].
    cbn [snd] in Hq.
    destruct (compress_dxt1_cluster_fit _ _ _ _ _ _ _ _) as [[cfe cfo]|]
      eqn:Hcf; [|discriminate].
    apply cluster_fit_four_color in Hcf.
    assert (Hb : ordered (snd (if (cfe <? error)%f32 then (cfe, cfo)
                               else (error, output)))).
    { destruct (ltb _ _); cbn [snd]; auto. }
    destruct (if (cfe <? error)%f32 then (cfe, cfo) else (error, output))
      as [e' b'].
    cbn [snd] in Hb.
    destruct hq; intros H.
    + injection H as H.
      pose proof (refine_endpoints_ordered ic iw cw e' b' Hb) as Hr.
      rewrite H in Hr. exact Hr.
    + injection H as _ <-. exact Hb.
Qed.

(** ** Errors under refinement *)





(** ** The input reducer *)

Lemma reduce_colors_no_positive ic iw count :
  (forall i, (i < count)%nat -> (floatAt iw i >? zero)%f32 = false) ->
  reduce_colors ic iw count = mkReduced [] [] false.
Proof.
  intros H. unfold reduce_colors.
  apply for_loop_invariant; [reflexivity|].
  intros i s' Hi ->. unfold reduce_step. now rewrite (H i Hi).
Qed.

(** ** Quantization on the grids *)

Lemma quantize5_grid k :
  0 <= k <= 31 ->
  quantize_channel (of_Z k / of_Z 31)%f32 31 midpoints5 = k
  /\ quantize_channel (norm8 (bitexpand5 k)) 31 midpoints5 = k.
Proof.
  intros Hk.
  assert (H : forallb (channel_ok 31 midpoints5 bitexpand5) (zrange 32) = true)
    by (vm_compute; reflexivity).
  apply zrange_forallb with (k := k) in H; [|lia].
  unfold channel_ok in H. apply andb_prop in H. destruct H as [H1 H2].
  split; now apply Z.eqb_eq.
Qed.

Lemma quantize6_grid k :
  0 <= k <= 63 ->
  quantize_channel (of_Z k / of_Z 63)%f32 63 midpoints6 = k
  /\ quantize_channel (norm8 (bitexpand6 k)) 63 midpoints6 = k.
Proof.
  intros Hk.
  assert (H : forallb (channel_ok 63 midpoints6 bitexpand6) (zrange 64) = true)
    by (vm_compute; reflexivity).
  apply zrange_forallb with (k := k) in H; [|lia].
  unfold channel_ok in H. apply andb_prop in H. destruct H as [H1 H2].
  split; now apply Z.eqb_eq.
Qed.

(** Packing three in-range fields and bit-expanding them gives the three
    replicated bytes. *)
Lemma pack_expand r g b :
  0 <= r <= 31 -> 0 <= g <= 63 -> 0 <= b <= 31 ->
  let c := (Z.lor (Z.lor (Z.shiftl r 11) (Z.shiftl g 5)) b) mod 65536 in
  c = c16_make r g b
  /\ color_to_vector3 (bitexpand_color16_to_color32 c)
     = mkVector3 (norm8 (bitexpand5 r)) (norm8 (bitexpand6 g))
                 (norm8 (bitexpand5 b)).
Proof.
  intros Hr Hg Hb.
  assert (H : forallb (fun r => forallb (fun g => forallb (pack_ok r g)
                (zrange 32)) (zrange 64)) (zrange 32) = true)
    by (vm_compute; reflexivity).
  apply zrange_forallb with (k := r) in H; [|lia].
  apply zrange_forallb with (k := g) in H; [|lia].
  apply zrange_forallb with (k := b) in H; [|lia].
  unfold pack_ok in H.
  repeat (apply andb_prop in H; destruct H as [H ?]).
  cbv zeta. split; [now apply Z.eqb_eq|].
  unfold color_to_vector3, norm8.
  repeat match goal with E : (_ =? _) = true |- _ =>
    apply Z.eqb_eq in E; try rewrite E; clear E end.
  reflexivity.
Qed.

(** ** Bit-fields *)

Lemma land_31_range a : 0 <= Z.land a 31 <= 31.
Proof.
  change 31 with (Z.ones 5) at 1 2. rewrite Z.land_ones by lia.
  pose proof (Z.mod_pos_bound a (2 ^ 5) ltac:(lia)).
  change (2 ^ 5) with 32 in *. lia.
Qed.

Lemma land_63_range a : 0 <= Z.land a 63 <= 63.
Proof.
  change 63 with (Z.ones 6) at 1 2. rewrite Z.land_ones by lia.
  pose proof (Z.mod_pos_bound a (2 ^ 6) ltac:(lia)).
  change (2 ^ 6) with 64 in *. lia.
Qed.

(** Small values stored in the bytes of a [Color32] are read back. *)
Lemma c32_make_fields r g b :
  0 <= r <= 31 -> 0 <= g <= 63 -> 0 <= b <= 31 ->
  c32_r (c32_make r g b 255) = r /\ c32_g (c32_make r g b 255) = g
  /\ c32_b (c32_make r g b 255) = b.
Proof.
  intros Hr Hg Hb.
  assert (H : forallb (fun r => forallb (fun g => forallb (fields_ok r g)
                (zrange 32)) (zrange 64)) (zrange 32) = true)
    by (vm_compute; reflexivity).
  apply zrange_forallb with (k := r) in H; [|lia].
  apply zrange_forallb with (k := g) in H; [|lia].
  apply zrange_forallb with (k := b) in H; [|lia].
  unfold fields_ok in H.
  repeat (apply andb_prop in H; destruct H as [H ?]).
  repeat split; now apply Z.eqb_eq.
Qed.

(** What the AMD variant computes in 3-color mode, for all endpoints: the
    rounded-up midpoint of the 5:6:5 fields, and a zero entry 3. *)
Lemma amd_three_color_fields c0 c1 :
  c0 <= c1 ->
  let p2 := paletteAt (evaluate_palette_amd c0 c1) 2 in
  c32_r p2 = (c16_r c0 + c16_r c1 + 1) / 2
  /\ c32_g p2 = (c16_g c0 + c16_g c1 + 1) / 2
  /\ c32_b p2 = (c16_b c0 + c16_b c1 + 1) / 2
  /\ paletteAt (evaluate_palette_amd c0 c1) 3 = 0.
Proof.
  intros Hle. unfold evaluate_palette_amd.
  rewrite Z.gtb_ltb.
  replace (c1 <? c0) with false by (symmetry; apply Z.ltb_ge; lia).
  unfold evaluate_palette3_amd. cbn [upd paletteAt nth].
  pose proof (land_31_range (Z.shiftr c0 11)).
  pose proof (land_31_range (Z.shiftr c1 11)).
  pose proof (land_63_range (Z.shiftr c0 5)).
  pose proof (land_63_range (Z.shiftr c1 5)).
  pose proof (land_31_range c0).
  pose proof (land_31_range c1).
  unfold c16_r, c16_g, c16_b.
  assert (Hf : forall r g b, 0 <= r <= 31 -> 0 <= g <= 63 -> 0 <= b <= 31 ->
            c32_r (c32_make r g b 255) = r /\ c32_g (c32_make r g b 255) = g
            /\ c32_b (c32_make r g b 255) = b /\ 0 = 0).
  { intros r g b Hr Hg Hb.
    destruct (c32_make_fields r g b Hr Hg Hb) as (? & ? & ?). auto. }
  apply Hf; Z.div_mod_to_equations; lia.
Qed.

(** * The claims *)

(** C1, as amended.  For the block of 16 texels (1, 0, 0, 1), that is RGBA
    (255, 0, 0, 255), with all 16 weights 1 and channel weights (1, 1, 1),
    [compress_dxt1] returns error 0 and the block with endpoint0 = 0xF800,
    endpoint1 = 0xF800 and index word 0xAAAAAAAA (every texel has index 2),
    for every value of [three_color_mode] and [hq]. *)
Theorem solid_red_block : forall three_color_mode hq,
  compress_dxt1 solid_red unit_weights unit_channel_weights
                three_color_mode hq
  = Some (zero, mkBlock 0xF800 0xF800 0xAAAAAAAA).
Proof. intros [] []; vm_compute; reflexivity. Qed.

(** C1 as stated (index word 0x00000000) does not hold of solid red. *)
Lemma solid_red_index_word_not_zero :
  ~ (forall three_color_mode hq,
       compress_dxt1 solid_red unit_weights unit_channel_weights
                     three_color_mode hq
       = Some (zero, mkBlock 0xF800 0xF800 0)).
Proof.
  intros H. specialize (H false false). vm_compute in H. discriminate H.
Qed.

(** C2, the code at the failing input.  For endpoint0 = 0x0000 and
    endpoint1 = 0xFFFF (3-color mode) the bit-expanded endpoints are
    (0, 0, 0) and (255, 255, 255), whose rounded-up midpoint is
    (128, 128, 128); the AMD variant stores (16, 32, 16) in palette entry 2,
    the rounded-up midpoint of the unexpanded 5:6:5 fields.  Entry 3 is
    zero. *)
Theorem amd_three_color_midpoint_at_black_white :
  let palette := evaluate_palette_amd 0 0xFFFF in
  let p0 := paletteAt palette 0 in
  let p1 := paletteAt palette 1 in
  let p2 := paletteAt palette 2 in
  (c32_r p0, c32_g p0, c32_b p0) = (0, 0, 0)
  /\ (c32_r p1, c32_g p1, c32_b p1) = (255, 255, 255)
  /\ (c32_r p2, c32_g p2, c32_b p2) = (16, 32, 16)
  /\ ((c32_r p0 + c32_r p1 + 1) / 2, (c32_g p0 + c32_g p1 + 1) / 2,
      (c32_b p0 + c32_b p1 + 1) / 2) = (128, 128, 128)
  /\ paletteAt palette 3 = 0.
Proof. vm_compute. repeat split; reflexivity. Qed.

(** C3, as amended.  [firstEigenVector_PowerMethod] returns the zero vector
    when the three diagonal entries are zero; otherwise it performs exactly
    8 iterations from the seed row, each multiplying the vector by the
    matrix and then scaling it by the reciprocal of max(vx, vy, vz), the
    largest component taken with its sign. *)
Theorem power_method_signed_max : forall matrix,
  firstEigenVector_PowerMethod matrix
  = if diagonal_is_zero matrix then v3_zero
    else Nat.iter 8
           (fun v => let u := sym_mat_vec matrix v in
                     v3_scale u (one / fmax (fmax (x u) (y u)) (z u))%f32)
           (estimatePrincipalComponent matrix).
Proof.
  intros matrix. unfold firstEigenVector_PowerMethod, diagonal_is_zero.
  destruct (_ && _); [reflexivity|].
  unfold NUM. rewrite for_loop_iter. reflexivity.
Qed.

(** C3 as stated (division by the largest absolute value) does not hold:
    on the positive definite matrix [[3,-2,-2],[-2,4,0],[-2,0,4]] the fourth
    product has x = -5.98 and z = 5.88, and the source divides by z: the
    result differs from the specification's, and the fourth iterate has
    x < -1 (and z just below 1, the reciprocal being rounded). *)
Lemma power_method_not_absolute_max :
  firstEigenVector_PowerMethod covariance_3_2_2_4_0_4
  <> spec_power_iteration covariance_3_2_2_4_0_4
  /\ (let v := Nat.iter 4 (power_step covariance_3_2_2_4_0_4)
                (estimatePrincipalComponent covariance_3_2_2_4_0_4) in
      (x v <? of_Z (-1))%f32 = true /\ (z v <? one)%f32 = true).
Proof. vm_compute. repeat split; discriminate. Qed.

(** C4, as amended.  Whenever [compress_dxt1] returns, it outputs a
    3-color-mode block (endpoint0.u <= endpoint1.u with some texel differing
    from the single-color degenerate case) whose endpoints differ only when
    the caller passed [three_color_mode = true]; a near-black texel in the
    reduced input set is not required.  What
    is written when the endpoints are equal is left out (see
    [equal_endpoints_block_without_request]). *)
Theorem three_color_block_only_if_requested :
  forall ic iw cw three_color_mode hq e b,
    compress_dxt1 ic iw cw three_color_mode hq = Some (e, b) ->
    three_color_mode_block b ->
    col0 b <> col1 b ->
    three_color_mode = true.
Proof.
  intros ic iw cw tcm hq e b H [Hle _] Hne.
  destruct tcm; [reflexivity|].
  pose proof (compress_dxt1_ordered ic iw cw hq e b H) as Ho.
  unfold ordered in Ho. lia.
Qed.

(** The hypotheses of C4 (amended) hold of the three-tone block. *)
Lemma three_color_block_only_if_requested_witness :
  compress_dxt1 three_tone_block unit_weights unit_channel_weights true false
  = Some (zero, mkBlock 0x8410 0xFFFF 0x2AA955)
  /\ true = true.
Proof.
  assert (H : compress_dxt1 three_tone_block unit_weights
                            unit_channel_weights true false
              = Some (zero, mkBlock 0x8410 0xFFFF 0x2AA955))
    by (vm_compute; reflexivity).
  assert (Hb : three_color_mode_block (mkBlock 0x8410 0xFFFF 0x2AA955)).
  { split; [cbn [col0 col1]; lia|]. left. cbn [col0 col1]. lia. }
  assert (Hne : col0 (mkBlock 0x8410 0xFFFF 0x2AA955)
                <> col1 (mkBlock 0x8410 0xFFFF 0x2AA955))
    by (cbn [col0 col1]; lia).
  split; [exact H|].
  exact (three_color_block_only_if_requested
           three_tone_block unit_weights unit_channel_weights true false
           zero (mkBlock 0x8410 0xFFFF 0x2AA955) H Hb Hne).
Defined.

(** C4 as stated does not hold: on white, mid grey, darker grey, with
    [three_color_mode] set, no input texel is near black, yet the block
    written is a 3-color-mode block ([0x8410 <= 0xFFFF], endpoints
    different) with indices 1, 2 and 0 in use. *)
Lemma three_color_block_without_black :
  let reduced := reduce_colors three_tone_block unit_weights 16 in
  r_any_black reduced = false
  /\ existsb is_black (r_colors reduced) = false
  /\ existsb (fun c => is_black (xyz c)) three_tone_block = false
  /\ compress_dxt1 three_tone_block unit_weights unit_channel_weights
                   true false
     = Some (zero, mkBlock 0x8410 0xFFFF 0x2AA955)
  /\ three_color_mode_block (mkBlock 0x8410 0xFFFF 0x2AA955).
Proof.
  cbv zeta. split; [vm_compute; reflexivity|].
  split; [vm_compute; reflexivity|]. split; [vm_compute; reflexivity|].
  split; [vm_compute; reflexivity|].
  split; [cbn [col0 col1]; lia|]. left. cbn [col0 col1]. lia.
Qed.

(** The part of C4 the amendment leaves out.  With [three_color_mode] not
    set, eight white texels, seven of (254, 254, 254) and a black texel of
    weight 0 give a block with endpoint0.u = endpoint1.u = 0xFFFF in which
    texel 15 has index 3: [output_block4] swaps the endpoints only on [<]
    and keeps equal ones, the palette is then the 3-color one, and
    [compute_indices4] puts the black texel on its transparent black entry.
    [refine_endpoints] adds 1 to green on equal endpoints;
    [output_block4] does not. *)
Example equal_endpoints_block_without_request :
  compress_dxt1 white_pair_black_corner last_texel_masked
                unit_channel_weights false false
  = Some (evaluate_mse white_pair_black_corner last_texel_masked
            unit_channel_weights (mkBlock 0xFFFF 0xFFFF 0xC0000000),
          mkBlock 0xFFFF 0xFFFF 0xC0000000)
  /\ three_color_mode_block (mkBlock 0xFFFF 0xFFFF 0xC0000000)
  /\ index_at 0xC0000000 15 = 3%nat
  /\ paletteAt (evaluate_palette 0xFFFF 0xFFFF) 3 = 0.
Proof.
  split; [vm_compute; reflexivity|]. split.
  - split; [cbn [col0 col1]; lia|]. right. exists 15%nat.
    split; [lia | reflexivity].
  - split; reflexivity.
Qed.

(** C5.  For every input on which [compress_dxt1] returns and every value
    of [hq], with [three_color_mode = false] the block written has
    col0.u >= col1.u, whichever path produced it.  ([compress_dxt1] returns
    unless the cluster fit reads [bestindex] unassigned, see
    [cluster_fit_none_iff] and [nan_texel_undefined].) *)
Theorem four_color_mode_ordering : forall ic iw cw hq e b,
  compress_dxt1 ic iw cw false hq = Some (e, b) ->
  col0 b >= col1 b.
Proof.
  intros ic iw cw hq e b H.
  pose proof (compress_dxt1_ordered ic iw cw hq e b H) as Ho.
  unfold ordered in Ho. lia.
Qed.

(** C5 on the three-tone block, through the cluster fit and the
    refinement. *)
Lemma four_color_mode_ordering_witness :
  compress_dxt1 three_tone_block unit_weights unit_channel_weights false true
  = Some (evaluate_mse three_tone_block unit_weights unit_channel_weights
            (mkBlock 0xFFFF 0x4A29 0xFFEAA800),
          mkBlock 0xFFFF 0x4A29 0xFFEAA800)
  /\ 0xFFFF >= 0x4A29.
Proof.
  assert (H : compress_dxt1 three_tone_block unit_weights
                            unit_channel_weights false true
              = Some (evaluate_mse three_tone_block unit_weights
                        unit_channel_weights
                        (mkBlock 0xFFFF 0x4A29 0xFFEAA800),
                      mkBlock 0xFFFF 0x4A29 0xFFEAA800))
    by (vm_compute; reflexivity).
  split; [exact H|].
  exact (four_color_mode_ordering three_tone_block unit_weights
           unit_channel_weights true _ _ H).
Defined.



(** C7, as amended.  For every r, b in 0..31 and g in 0..63, quantizing
    (r/31, g/63, b/31) yields the 5:6:5 fields r, g, b, and bit-expanding
    them back yields (expand5 r, expand6 g, expand5 b) / 255, the
    bit-replicated grid value; on that grid quantizing and expanding is
    exactly the identity. *)
Theorem quantize_expand_grid : forall r g b,
  0 <= r <= 31 -> 0 <= g <= 63 -> 0 <= b <= 31 ->
  let v := mkVector3 (of_Z r / of_Z 31)%f32 (of_Z g / of_Z 63)%f32
                     (of_Z b / of_Z 31)%f32 in
  let e := mkVector3 (norm8 (bitexpand5 r)) (norm8 (bitexpand6 g))
                     (norm8 (bitexpand5 b)) in
  vector3_to_color16 v = c16_make r g b
  /\ quantize_expand v = e
  /\ quantize_expand e = e.
Proof.
  intros r g b Hr Hg Hb v e.
  destruct (quantize5_grid r Hr) as [Hr1 Hr2].
  destruct (quantize6_grid g Hg) as [Hg1 Hg2].
  destruct (quantize5_grid b Hb) as [Hb1 Hb2].
  destruct (pack_expand r g b Hr Hg Hb) as [Hp He].
  unfold quantize_expand, vector3_to_color16, v, e. cbn [x y z].
  rewrite Hr1, Hg1, Hb1, Hr2, Hg2, Hb2. auto.
Qed.

(** C7 (amended) at r = 3, g = 40, b = 31. *)
Lemma quantize_expand_grid_witness :
  (0 <= 3 <= 31 /\ 0 <= 40 <= 63 /\ 0 <= 31 <= 31)
  /\ quantize_expand (mkVector3 (norm8 (bitexpand5 3)) (norm8 (bitexpand6 40))
                                (norm8 (bitexpand5 31)))
     = mkVector3 (norm8 (bitexpand5 3)) (norm8 (bitexpand6 40))
                 (norm8 (bitexpand5 31)).
Proof.
  split; [lia|].
  exact (proj2 (proj2 (quantize_expand_grid 3 40 31
                         ltac:(lia) ltac:(lia) ltac:(lia)))).
Defined.

(** C7 as stated does not hold: 1/31 quantizes to 1, which expands to
    8/255, not 1/31. *)
Lemma quantize_expand_not_identity :
  x (quantize_expand (mkVector3 (of_Z 1 / of_Z 31)%f32 zero zero))
  <> (of_Z 1 / of_Z 31)%f32.
Proof. vm_compute. discriminate. Qed.

(** C8.  If all 16 input weights are zero, [compress_dxt1] writes the
    block whose two endpoints and index word are zero and returns
    error 0. *)
Theorem zero_weights_block : forall ic iw cw three_color_mode hq,
  (forall i, (i < 16)%nat -> (floatAt iw i =? zero)%f32 = true) ->
  compress_dxt1 ic iw cw three_color_mode hq = Some (zero, mkBlock 0 0 0).
Proof.
  intros ic iw cw tcm hq H. unfold compress_dxt1.
  rewrite reduce_colors_no_positive by auto using eqb_zero_not_positive.
  reflexivity.
Qed.

(** C8 on solid red with all weights zero. *)
Lemma zero_weights_block_witness :
  (forall i, (i < 16)%nat -> (floatAt zero_weights i =? zero)%f32 = true)
  /\ compress_dxt1 solid_red zero_weights unit_channel_weights true true
     = Some (zero, mkBlock 0 0 0).
Proof.
  assert (H : forall i, (i < 16)%nat ->
                (floatAt zero_weights i =? zero)%f32 = true).
  { intros i Hi. do 16 (destruct i as [|i]; [reflexivity|]). lia. }
  split; [exact H|].
  exact (zero_weights_block solid_red zero_weights unit_channel_weights
                            true true H).
Defined.

(** C9.  [compress_dxt1_single_color_optimal] always produces a block with
    col0.u >= col1.u whose 16 two-bit indices are all equal: when the table
    endpoints need no swap the index word is 0xAAAAAAAA (every texel 2),
    and after a swap it is 0xFFFFFFFF (every texel 3). *)
Theorem single_color_block_shape : forall c,
  let '(e0, e1) := single_color_endpoints c in
  let b := compress_dxt1_single_color_optimal c in
  col0 b >= col1 b
  /\ if e0 <? e1
     then col0 b = e1 /\ col1 b = e0 /\ indices b = 0xFFFFFFFF
          /\ Forall (fun i => index_at (indices b) i = 3%nat) (seq 0 16)
     else col0 b = e0 /\ col1 b = e1 /\ indices b = 0xAAAAAAAA
          /\ Forall (fun i => index_at (indices b) i = 2%nat) (seq 0 16).
Proof.
  intros c. pose proof (single_color_ordered c) as Ho.
  unfold compress_dxt1_single_color_optimal, ordered in *.
  destruct (single_color_endpoints c) as [e0 e1].
  cbv zeta. split; [lia|].
  destruct (e0 <? e1); cbn [col0 col1 indices];
    repeat split; repeat constructor.
Qed.

(** Both cases of C9 occur: red 255 needs no swap, red 2 needs one. *)
Example single_color_swap :
  compress_dxt1_single_color_optimal 0xFFFF0000
  = mkBlock 0xF800 0xF800 0xAAAAAAAA
  /\ single_color_endpoints 0xFF020000 = (0, 0x0800)
  /\ compress_dxt1_single_color_optimal 0xFF020000
     = mkBlock 0x0800 0 0xFFFFFFFF.
Proof. vm_compute. repeat split; reflexivity. Qed.

(** C10.  [reduce_colors] depends only on the texels with strictly positive
    weight: two inputs that agree on every such texel (at each index both
    weights are not positive, or the colors and the weights are equal)
    yield the same count, colors, weights and [any_black]; and [any_black]
    stays false when no texel of positive weight is near black, whatever
    the other texels are. *)
Theorem reduce_colors_positive_weights : forall ic1 iw1 ic2 iw2 count,
  (forall i, (i < count)%nat ->
     ((floatAt iw1 i >? zero)%f32 = false
      /\ (floatAt iw2 i >? zero)%f32 = false)
     \/ (xyz (colorAt ic1 i) = xyz (colorAt ic2 i)
         /\ floatAt iw1 i = floatAt iw2 i)) ->
  reduce_colors ic1 iw1 count = reduce_colors ic2 iw2 count
  /\ ((forall i, (i < count)%nat -> (floatAt iw1 i >? zero)%f32 = true ->
         is_black (xyz (colorAt ic1 i)) = false) ->
      r_any_black (reduce_colors ic1 iw1 count) = false).
Proof.
  intros ic1 iw1 ic2 iw2 count H. split.
  - unfold reduce_colors. apply for_loop_ext. intros i s' Hi.
    unfold reduce_step.
    destruct (H i Hi) as [[-> ->] | [-> ->]]; reflexivity.
  - intros Hb. unfold reduce_colors.
    apply for_loop_invariant; [reflexivity|].
    intros i s' Hi Hs. unfold reduce_step.
    destruct (floatAt iw1 i >? zero)%f32 eqn:Hw; auto.
    rewrite (Hb i Hi Hw).
    destruct (find_matching _ _ _ _); cbn [r_any_black]; exact Hs.
Qed.

(** C10 on solid red against solid red with a black first texel, the
    first weight being zero. *)
Lemma reduce_colors_positive_weights_witness :
  reduce_colors red_with_black_corner first_texel_masked 16
  = reduce_colors solid_red first_texel_masked 16
  /\ r_any_black (reduce_colors red_with_black_corner first_texel_masked 16)
     = false.
Proof.
  assert (H : forall i, (i < 16)%nat ->
     ((floatAt first_texel_masked i >? zero)%f32 = false
      /\ (floatAt first_texel_masked i >? zero)%f32 = false)
     \/ (xyz (colorAt red_with_black_corner i) = xyz (colorAt solid_red i)
         /\ floatAt first_texel_masked i = floatAt first_texel_masked i)).
  { intros i Hi. destruct i as [|i]; [left; split; reflexivity|].
    do 15 (destruct i as [|i]; [right; split; reflexivity|]). lia. }
  assert (Hb : forall i, (i < 16)%nat ->
     (floatAt first_texel_masked i >? zero)%f32 = true ->
     is_black (xyz (colorAt red_with_black_corner i)) = false).
  { intros i Hi. destruct i as [|i]; [intros Hw; discriminate Hw|].
    do 15 (destruct i as [|i]; [intros _; reflexivity|]). lia. }
  pose proof (reduce_colors_positive_weights
                red_with_black_corner first_texel_masked
                solid_red first_texel_masked 16 H) as [He Ha].
  split; [exact He | exact (Ha Hb)].
Defined.

(** * Further properties *)

(** ** Bytes and bit-fields *)

Lemma lor_shiftl_low hi lo k :
  0 <= k -> 0 <= lo < 2 ^ k -> Z.lor (Z.shiftl hi k) lo = hi * 2 ^ k + lo.
Proof.
  intros Hk Hlo.
  assert (Hd : Z.land (Z.shiftl hi k) lo = 0).
  { apply Z.bits_inj'. intros n Hn. rewrite Z.land_spec, Z.bits_0.
    destruct (Z.lt_ge_cases n k) as [Hlt | Hge].
    - rewrite Z.shiftl_spec_low by lia. reflexivity.
    - destruct (Z.eq_dec lo 0) as [-> | Hnz].
      + rewrite Z.bits_0. apply andb_false_r.
      + assert (Hl : Z.log2 lo < k) by (apply Z.log2_lt_pow2; lia).
        rewrite (Z.bits_above_log2 lo n) by lia. apply andb_false_r. }
  rewrite <- Z.lxor_lor by exact Hd.
  rewrite <- Z.add_nocarry_lxor by exact Hd.
  now rewrite Z.shiftl_mul_pow2.
Qed.

Lemma c32_make_sum r g b a :
  0 <= r <= 255 -> 0 <= g <= 255 -> 0 <= b <= 255 -> 0 <= a <= 255 ->
  c32_make r g b a = a * 16777216 + r * 65536 + g * 256 + b.
Proof.
  intros Hr Hg Hb Ha. unfold c32_make.
  rewrite !Z.mod_small by lia.
  rewrite (Z.shiftl_mul_pow2 r 16), (Z.shiftl_mul_pow2 g 8) by lia.
  change (2 ^ 16) with 65536. change (2 ^ 8) with 256.
  pose proof (lor_shiftl_low a (r * 65536) 24) as H1.
  pose proof (lor_shiftl_low (a * 256 + r) (g * 256) 16) as H2.
  pose proof (lor_shiftl_low ((a * 256 + r) * 256 + g) b 8) as H3.
  rewrite !Z.shiftl_mul_pow2 in H2, H3 by lia.
  change (2 ^ 24) with 16777216 in *. change (2 ^ 16) with 65536 in *.
  change (2 ^ 8) with 256 in *.
  rewrite H1 by lia.
  replace (a * 16777216 + r * 65536) with ((a * 256 + r) * 65536) by lia.
  rewrite H2 by lia.
  replace ((a * 256 + r) * 65536 + g * 256)
    with (((a * 256 + r) * 256 + g) * 256) by lia.
  rewrite H3 by lia. lia.
Qed.

Lemma c32_make_channels r g b a :
  0 <= r <= 255 -> 0 <= g <= 255 -> 0 <= b <= 255 -> 0 <= a <= 255 ->
  c32_r (c32_make r g b a) = r /\ c32_g (c32_make r g b a) = g
  /\ c32_b (c32_make r g b a) = b /\ c32_a (c32_make r g b a) = a.
Proof.
  intros Hr Hg Hb Ha. rewrite c32_make_sum by assumption.
  unfold c32_r, c32_g, c32_b, c32_a.
  change 255 with (Z.ones 8). rewrite !Z.land_ones, !Z.shiftr_div_pow2 by lia.
  change (2 ^ 24) with 16777216. change (2 ^ 16) with 65536.
  change (2 ^ 8) with 256.
  repeat split; Z.div_mod_to_equations; lia.
Qed.

Lemma land_255_range a : 0 <= Z.land a 255 <= 255.
Proof.
  change 255 with (Z.ones 8) at 1 2. rewrite Z.land_ones by lia.
  pose proof (Z.mod_pos_bound a (2 ^ 8) ltac:(lia)).
  change (2 ^ 8) with 256 in *. lia.
Qed.

Lemma c16_make_sum r g b :
  0 <= r <= 31 -> 0 <= g <= 63 -> 0 <= b <= 31 ->
  c16_make r g b = r * 2048 + g * 32 + b.
Proof.
  intros Hr Hg Hb. unfold c16_make. rewrite !Z.mod_small by lia.
  rewrite (Z.shiftl_mul_pow2 g 5) by lia. change (2 ^ 5) with 32.
  pose proof (lor_shiftl_low r (g * 32) 11) as H1.
  pose proof (lor_shiftl_low (r * 64 + g) b 5) as H2.
  rewrite Z.shiftl_mul_pow2 in H2 by lia.
  change (2 ^ 11) with 2048 in *. change (2 ^ 5) with 32 in *.
  rewrite H1 by lia.
  replace (r * 2048 + g * 32) with ((r * 64 + g) * 32) by lia.
  rewrite H2 by lia. lia.
Qed.

(** A 16-bit color is its three bit-fields packed. *)
Lemma c16_fields c :
  0 <= c < 65536 ->
  c = c16_make (c16_r c) (c16_g c) (c16_b c)
  /\ 0 <= c16_r c <= 31 /\ 0 <= c16_g c <= 63 /\ 0 <= c16_b c <= 31.
Proof.
  intros Hc.
  pose proof (land_31_range (Z.shiftr c 11)) as Hr.
  pose proof (land_63_range (Z.shiftr c 5)) as Hg.
  pose proof (land_31_range c) as Hb.
  fold (c16_r c) in Hr. fold (c16_g c) in Hg. fold (c16_b c) in Hb.
  split; [|tauto].
  rewrite c16_make_sum by assumption.
  unfold c16_r, c16_g, c16_b.
  change 31 with (Z.ones 5). change 63 with (Z.ones 6).
  rewrite !Z.land_ones, !Z.shiftr_div_pow2 by lia.
  change (2 ^ 11) with 2048. change (2 ^ 5) with 32. change (2 ^ 6) with 64.
  Z.div_mod_to_equations. lia.
Qed.

Lemma bitexpand_fields c :
  0 <= c < 65536 ->
  c32_r (bitexpand_color16_to_color32 c) = bitexpand5 (c16_r c)
  /\ c32_g (bitexpand_color16_to_color32 c) = bitexpand6 (c16_g c)
  /\ c32_b (bitexpand_color16_to_color32 c) = bitexpand5 (c16_b c)
  /\ c32_a (bitexpand_color16_to_color32 c) = 0.
Proof.
  intros Hc. destruct (c16_fields c Hc) as (Hm & Hr & Hg & Hb).
  assert (H : forallb (fun r => forallb (fun g => forallb (expand_ok r g)
                (zrange 32)) (zrange 64)) (zrange 32) = true)
    by (vm_compute; reflexivity).
  apply zrange_forallb with (k := c16_r c) in H; [|lia].
  apply zrange_forallb with (k := c16_g c) in H; [|lia].
  apply zrange_forallb with (k := c16_b c) in H; [|lia].
  unfold expand_ok in H. rewrite <- Hm in H.
  repeat (apply andb_prop in H; destruct H as [H ?]).
  repeat split; now apply Z.eqb_eq.
Qed.

(** X1.  [bitexpand_color16_to_color32] on any 16-bit color: each 8-bit
    channel is the 5- or 6-bit field with its top bits replicated below it
    ((r << 3) | (r >> 2), (g << 2) | (g >> 4), (b << 3) | (b >> 2)), and the
    alpha byte is 0, not 255. *)
Theorem bitexpand_channels : forall c,
  0 <= c < 65536 ->
  let e := bitexpand_color16_to_color32 c in
  c32_r e = bitexpand5 (c16_r c) /\ c32_g e = bitexpand6 (c16_g c)
  /\ c32_b e = bitexpand5 (c16_b c) /\ c32_a e = 0.
Proof. intros c Hc e. now apply bitexpand_fields. Qed.

(** X1 at the color 0xF81F. *)
Lemma bitexpand_channels_witness :
  0 <= 0xF81F < 65536
  /\ c32_r (bitexpand_color16_to_color32 0xF81F) = bitexpand5 (c16_r 0xF81F).
Proof.
  split; [lia|].
  exact (proj1 (bitexpand_channels 0xF81F ltac:(lia))).
Defined.

(** ** Palettes *)

Lemma thirds_between a b :
  0 <= a <= 255 -> 0 <= b <= 255 ->
  between a b ((2 * a + b) / 3) /\ 0 <= (2 * a + b) / 3 <= 255.
Proof. unfold between. intros Ha Hb. split; Z.div_mod_to_equations; lia. Qed.

Lemma half_between a b :
  0 <= a <= 255 -> 0 <= b <= 255 ->
  between a b ((a + b) / 2) /\ 0 <= (a + b) / 2 <= 255.
Proof. unfold between. intros Ha Hb. split; Z.div_mod_to_equations; lia. Qed.

(** X2.  The Direct3D 10 palette of any two endpoints: entries 0 and 1 are
    the bit-expanded endpoints; entry 2 lies between them in every channel;
    when c0 > c1 entry 3 does too and both interpolants have alpha 255;
    otherwise entry 3 is the all-zero color (transparent black) and entry 2
    has alpha 255. *)
Theorem d3d10_palette_between : forall c0 c1,
  let palette := evaluate_palette_d3d10 c0 c1 in
  let p0 := paletteAt palette 0 in
  let p1 := paletteAt palette 1 in
  p0 = bitexpand_color16_to_color32 c0
  /\ p1 = bitexpand_color16_to_color32 c1
  /\ Forall (fun ch => between (ch p0) (ch p1) (ch (paletteAt palette 2)))
            channels
  /\ if c0 >? c1
     then Forall (fun ch => between (ch p0) (ch p1) (ch (paletteAt palette 3)))
                 channels
          /\ c32_a (paletteAt palette 2) = 255
          /\ c32_a (paletteAt palette 3) = 255
     else paletteAt palette 3 = 0 /\ c32_a (paletteAt palette 2) = 255.
Proof.
  intros c0 c1. unfold evaluate_palette_d3d10.
  set (e0 := bitexpand_color16_to_color32 c0).
  set (e1 := bitexpand_color16_to_color32 c1).
  pose proof (land_255_range (Z.shiftr e0 16)) as Hr0.
  pose proof (land_255_range (Z.shiftr e1 16)) as Hr1.
  pose proof (land_255_range (Z.shiftr e0 8)) as Hg0.
  pose proof (land_255_range (Z.shiftr e1 8)) as Hg1.
  pose proof (land_255_range e0) as Hb0.
  pose proof (land_255_range e1) as Hb1.
  fold (c32_r e0) in Hr0. fold (c32_r e1) in Hr1.
  fold (c32_g e0) in Hg0. fold (c32_g e1) in Hg1.
  fold (c32_b e0) in Hb0. fold (c32_b e1) in Hb1.
  destruct (c0 >? c1);
    unfold evaluate_palette4_d3d10, evaluate_palette3_d3d10;
    cbn [upd paletteAt nth]; cbv zeta.
  - destruct (thirds_between _ _ Hr0 Hr1) as [? ?].
    destruct (thirds_between _ _ Hg0 Hg1) as [? ?].
    destruct (thirds_between _ _ Hb0 Hb1) as [? ?].
    destruct (thirds_between _ _ Hr1 Hr0) as [? ?].
    destruct (thirds_between _ _ Hg1 Hg0) as [? ?].
    destruct (thirds_between _ _ Hb1 Hb0) as [? ?].
    destruct (c32_make_channels ((2 * c32_r e0 + c32_r e1) / 3)
                ((2 * c32_g e0 + c32_g e1) / 3)
                ((2 * c32_b e0 + c32_b e1) / 3) 255) as (E1 & E2 & E3 & E4);
      try lia.
    destruct (c32_make_channels ((2 * c32_r e1 + c32_r e0) / 3)
                ((2 * c32_g e1 + c32_g e0) / 3)
                ((2 * c32_b e1 + c32_b e0) / 3) 255) as (F1 & F2 & F3 & F4);
      try lia.
    unfold channels, between in *.
    repeat split; repeat constructor;
      rewrite ?E1, ?E2, ?E3, ?E4, ?F1, ?F2, ?F3, ?F4; lia.
  - destruct (half_between _ _ Hr0 Hr1) as [? ?].
    destruct (half_between _ _ Hg0 Hg1) as [? ?].
    destruct (half_between _ _ Hb0 Hb1) as [? ?].
    destruct (c32_make_channels ((c32_r e0 + c32_r e1) / 2)
                ((c32_g e0 + c32_g e1) / 2)
                ((c32_b e0 + c32_b e1) / 2) 255) as (E1 & E2 & E3 & E4);
      try lia.
    unfold channels, between in *.
    repeat split; repeat constructor; rewrite ?E1, ?E2, ?E3, ?E4; lia.
Qed.

Lemma betweenb_between a b v : betweenb a b v = true -> between a b v.
Proof. unfold betweenb, between. intros H. apply andb_prop in H. lia. Qed.

Lemma nv_rb_between e0 e1 :
  0 <= e0 <= 31 -> 0 <= e1 <= 31 ->
  between (bitexpand5 e0) (bitexpand5 e1) (nv_rb4 e0 e1)
  /\ between (bitexpand5 e0) (bitexpand5 e1) (nv_rb3 e0 e1).
Proof.
  intros H0 H1.
  assert (H : forallb (fun a => forallb (nv_rb_ok a) (zrange 32)) (zrange 32)
              = true) by (vm_compute; reflexivity).
  apply zrange_forallb with (k := e0) in H; [|lia].
  apply zrange_forallb with (k := e1) in H; [|lia].
  unfold nv_rb_ok in H. apply andb_prop in H.
  split; apply betweenb_between; tauto.
Qed.

Lemma nv_g_between g0 g1 :
  0 <= g0 <= 63 -> 0 <= g1 <= 63 ->
  let p0 := bitexpand6 g0 in
  let p1 := bitexpand6 g1 in
  between p0 p1 (nv_g p0 (p1 - p0) 80)
  /\ between p0 p1 (Z.quot (256 * p1 - Z.quot (p1 - p0) 4 + 128
                            - (p1 - p0) * 80) 256)
  /\ between p0 p1 (nv_g p0 (p1 - p0) 128).
Proof.
  intros H0 H1.
  assert (H : forallb (fun a => forallb (nv_g_ok a) (zrange 64)) (zrange 64)
              = true) by (vm_compute; reflexivity).
  apply zrange_forallb with (k := g0) in H; [|lia].
  apply zrange_forallb with (k := g1) in H; [|lia].
  unfold nv_g_ok in H. cbv zeta in *.
  apply andb_prop in H. destruct H as [H Hc].
  apply andb_prop in H. destruct H as [Ha Hb].
  split; [|split]; apply betweenb_between; assumption.
Qed.

(** X3.  The NVIDIA palette of any two 16-bit endpoints: the interpolated
    entries computed from the 5:6:5 fields (red and blue) and from the
    expanded green never leave the byte range and lie between entries 0 and
    1 in every channel; with c0 <= c1 entry 3 is the all-zero color. *)
Theorem nv_palette_between : forall c0 c1,
  0 <= c0 < 65536 -> 0 <= c1 < 65536 ->
  let palette := evaluate_palette_nv c0 c1 in
  let p0 := paletteAt palette 0 in
  let p1 := paletteAt palette 1 in
  Forall (fun ch => between (ch p0) (ch p1) (ch (paletteAt palette 2)))
         channels
  /\ if c0 >? c1
     then Forall (fun ch => between (ch p0) (ch p1) (ch (paletteAt palette 3)))
                 channels
     else paletteAt palette 3 = 0.
Proof.
  intros c0 c1 Hc0 Hc1. unfold evaluate_palette_nv.
  destruct (c16_fields c0 Hc0) as (_ & Hr0 & Hg0 & Hb0).
  destruct (c16_fields c1 Hc1) as (_ & Hr1 & Hg1 & Hb1).
  destruct (bitexpand_fields c0 Hc0) as (Er0 & Eg0 & Eb0 & _).
  destruct (bitexpand_fields c1 Hc1) as (Er1 & Eg1 & Eb1 & _).
  set (e0 := bitexpand_color16_to_color32 c0) in *.
  set (e1 := bitexpand_color16_to_color32 c1) in *.
  destruct (nv_rb_between _ _ Hr0 Hr1) as [Br4 Br3].
  destruct (nv_rb_between _ _ Hr1 Hr0) as [Br4' _].
  destruct (nv_rb_between _ _ Hb0 Hb1) as [Bb4 Bb3].
  destruct (nv_rb_between _ _ Hb1 Hb0) as [Bb4' _].
  destruct (nv_g_between _ _ Hg0 Hg1) as (Bg2 & Bg3 & Bg2').
  cbv zeta in Bg2, Bg3, Bg2'. rewrite <- Eg0, <- Eg1 in Bg2, Bg3, Bg2'.
  rewrite <- Er0, <- Er1 in Br4, Br3, Br4'.
  rewrite <- Eb0, <- Eb1 in Bb4, Bb3, Bb4'.
  pose proof (land_255_range (Z.shiftr e0 16)) as Rr0.
  pose proof (land_255_range (Z.shiftr e1 16)) as Rr1.
  pose proof (land_255_range (Z.shiftr e0 8)) as Rg0.
  pose proof (land_255_range (Z.shiftr e1 8)) as Rg1.
  pose proof (land_255_range e0) as Rb0.
  pose proof (land_255_range e1) as Rb1.
  fold (c32_r e0) in Rr0. fold (c32_r e1) in Rr1.
  fold (c32_g e0) in Rg0. fold (c32_g e1) in Rg1.
  fold (c32_b e0) in Rb0. fold (c32_b e1) in Rb1.
  unfold nv_rb4, nv_rb3, nv_g, between in *.
  destruct (c0 >? c1); unfold evaluate_palette4_nv, evaluate_palette3_nv;
    cbn [upd paletteAt nth]; cbv zeta.
  - destruct (c32_make_channels
                (Z.quot ((2 * c16_r c0 + c16_r c1) * 22) 8)
                (Z.quot (256 * c32_g e0 + Z.quot (c32_g e1 - c32_g e0) 4 + 128
                         + (c32_g e1 - c32_g e0) * 80) 256)
                (Z.quot ((2 * c16_b c0 + c16_b c1) * 22) 8) 255)
      as (E1 & E2 & E3 & _); try lia.
    destruct (c32_make_channels
                (Z.quot ((2 * c16_r c1 + c16_r c0) * 22) 8)
                (Z.quot (256 * c32_g e1 - Z.quot (c32_g e1 - c32_g e0) 4 + 128
                         - (c32_g e1 - c32_g e0) * 80) 256)
                (Z.quot ((2 * c16_b c1 + c16_b c0) * 22) 8) 255)
      as (F1 & F2 & F3 & _); try lia.
    unfold channels.
    split; repeat constructor;
      rewrite ?E1, ?E2, ?E3, ?F1, ?F2, ?F3; lia.
  - destruct (c32_make_channels
                (Z.quot ((c16_r c0 + c16_r c1) * 33) 8)
                (Z.quot (256 * c32_g e0 + Z.quot (c32_g e1 - c32_g e0) 4 + 128
                         + (c32_g e1 - c32_g e0) * 128) 256)
                (Z.quot ((c16_b c0 + c16_b c1) * 33) 8) 255)
      as (E1 & E2 & E3 & _); try lia.
    unfold channels.
    split; [|reflexivity]. repeat constructor; rewrite ?E1, ?E2, ?E3; lia.
Qed.

(** X3 at the endpoints 0xFFFF and 0x8410. *)
Lemma nv_palette_between_witness :
  (0 <= 0xFFFF < 65536 /\ 0 <= 0x8410 < 65536)
  /\ Forall (fun ch =>
       between (ch (paletteAt (evaluate_palette_nv 0xFFFF 0x8410) 0))
               (ch (paletteAt (evaluate_palette_nv 0xFFFF 0x8410) 1))
               (ch (paletteAt (evaluate_palette_nv 0xFFFF 0x8410) 2)))
     channels.
Proof.
  split; [lia|].
  exact (proj1 (nv_palette_between 0xFFFF 0x8410 ltac:(lia) ltac:(lia))).
Defined.

(** ** Single color tables *)

Lemma s_match5_ok i :
  0 <= i <= 255 -> match_ok s_match5 bitexpand5 32 i = true.
Proof.
  intros Hi.
  assert (H : forallb (match_ok s_match5 bitexpand5 32) (zrange 256) = true)
    by (vm_compute; reflexivity).
  apply zrange_forallb with (k := i) in H; [exact H | lia].
Qed.

Lemma s_match6_ok i :
  0 <= i <= 255 -> match_ok s_match6 bitexpand6 64 i = true.
Proof.
  intros Hi.
  assert (H : forallb (match_ok s_match6 bitexpand6 64) (zrange 256) = true)
    by (vm_compute; reflexivity).
  apply zrange_forallb with (k := i) in H; [exact H | lia].
Qed.

Lemma match_ok_spec table expand size i :
  match_ok table expand size i = true ->
  let mx := fst (matchAt table i) in
  let mn := snd (matchAt table i) in
  0 <= mx < Z.of_nat size /\ 0 <= mn < Z.of_nat size
  /\ Z.abs ((2 * expand mx + expand mn) / 3 - i) <= 1
  /\ forall a b, 0 <= a < Z.of_nat size -> 0 <= b < Z.of_nat size ->
       opt_err expand i mx mn <= opt_err expand i a b.
Proof.
  unfold match_ok. destruct (matchAt table i) as [mx mn]. cbn [fst snd].
  intros H.
  apply andb_prop in H. destruct H as [H Hopt].
  apply andb_prop in H. destruct H as [H Hdev].
  apply andb_prop in H. destruct H as [H H4].
  apply andb_prop in H. destruct H as [H H3].
  apply andb_prop in H. destruct H as [H1 H2].
  repeat split; try lia.
  intros a b Ha Hb.
  apply zrange_forallb with (k := a) in Hopt; [|lia].
  apply zrange_forallb with (k := b) in Hopt; [|lia].
  lia.
Qed.

(** X4.  For every 8-bit target [i], the pair that [init_dxt1_tables] stores
    in [s_match5] ([s_match6]) minimises the cost [PrepareOptTable] uses,
    |Lerp13(expand max, expand min) - i| * 100 + |max - min| * 3, over all
    pairs of 5-bit (6-bit) values. *)
Theorem single_color_tables_optimal : forall i a b,
  0 <= i <= 255 ->
  (0 <= a <= 31 -> 0 <= b <= 31 ->
   opt_err bitexpand5 i (fst (matchAt s_match5 i)) (snd (matchAt s_match5 i))
   <= opt_err bitexpand5 i a b)
  /\ (0 <= a <= 63 -> 0 <= b <= 63 ->
      opt_err bitexpand6 i (fst (matchAt s_match6 i))
              (snd (matchAt s_match6 i))
      <= opt_err bitexpand6 i a b).
Proof.
  intros i a b Hi.
  destruct (match_ok_spec _ _ _ i (s_match5_ok i Hi)) as (_ & _ & _ & H5).
  destruct (match_ok_spec _ _ _ i (s_match6_ok i Hi)) as (_ & _ & _ & H6).
  split; intros Ha Hb; [apply H5 | apply H6]; lia.
Qed.

(** X4 at the target 128 against the pair (31, 0). *)
Lemma single_color_tables_optimal_witness :
  0 <= 128 <= 255
  /\ opt_err bitexpand5 128 (fst (matchAt s_match5 128))
             (snd (matchAt s_match5 128))
     <= opt_err bitexpand5 128 31 0.
Proof.
  split; [lia|].
  exact (proj1 (single_color_tables_optimal 128 31 0 ltac:(lia))
               ltac:(lia) ltac:(lia)).
Defined.

Lemma c16_make_fields r g b :
  0 <= r <= 31 -> 0 <= g <= 63 -> 0 <= b <= 31 ->
  0 <= c16_make r g b < 65536
  /\ c16_r (c16_make r g b) = r /\ c16_g (c16_make r g b) = g
  /\ c16_b (c16_make r g b) = b.
Proof.
  intros Hr Hg Hb. rewrite c16_make_sum by assumption.
  unfold c16_r, c16_g, c16_b.
  change 31 with (Z.ones 5). change 63 with (Z.ones 6).
  rewrite !Z.land_ones, !Z.shiftr_div_pow2 by lia.
  change (2 ^ 11) with 2048. change (2 ^ 5) with 32. change (2 ^ 6) with 64.
  repeat split; Z.div_mod_to_equations; lia.
Qed.

Lemma index_at_all_2 i : (i < 16)%nat -> index_at 0xAAAAAAAA i = 2%nat.
Proof. intros Hi. do 16 (destruct i as [|i]; [reflexivity|]). lia. Qed.

Lemma index_at_all_3 i : (i < 16)%nat -> index_at 0xFFFFFFFF i = 3%nat.
Proof. intros Hi. do 16 (destruct i as [|i]; [reflexivity|]). lia. Qed.

Lemma single_color_within_one c i :
  (i < 16)%nat ->
  within_one c
    (decoded_texel
       (evaluate_palette (col0 (compress_dxt1_single_color_optimal c))
                         (col1 (compress_dxt1_single_color_optimal c)))
       (compress_dxt1_single_color_optimal c) i).
Proof.
  intros Hi.
  unfold compress_dxt1_single_color_optimal, single_color_endpoints.
  pose proof (land_255_range (Z.shiftr c 16)) as Hr. fold (c32_r c) in Hr.
  pose proof (land_255_range (Z.shiftr c 8)) as Hg. fold (c32_g c) in Hg.
  pose proof (land_255_range c) as Hb. fold (c32_b c) in Hb.
  destruct (match_ok_spec _ _ _ _ (s_match5_ok _ Hr)) as (Rr0 & Rr1 & Dr & _).
  destruct (match_ok_spec _ _ _ _ (s_match6_ok _ Hg)) as (Rg0 & Rg1 & Dg & _).
  destruct (match_ok_spec _ _ _ _ (s_match5_ok _ Hb)) as (Rb0 & Rb1 & Db & _).
  cbv zeta in *.
  set (Mr := fst (matchAt s_match5 (c32_r c))) in *.
  set (mr := snd (matchAt s_match5 (c32_r c))) in *.
  set (Mg := fst (matchAt s_match6 (c32_g c))) in *.
  set (mg := snd (matchAt s_match6 (c32_g c))) in *.
  set (Mb := fst (matchAt s_match5 (c32_b c))) in *.
  set (mb := snd (matchAt s_match5 (c32_b c))) in *.
  clearbody Mr mr Mg mg Mb mb.
  change (Z.of_nat 32) with 32 in *. change (Z.of_nat 64) with 64 in *.
  destruct (c16_make_fields Mr Mg Mb) as (R0 & F0r & F0g & F0b); try lia.
  destruct (c16_make_fields mr mg mb) as (R1 & F1r & F1g & F1b); try lia.
  set (e0 := c16_make Mr Mg Mb) in *. set (e1 := c16_make mr mg mb) in *.
  clearbody e0 e1.
  destruct (bitexpand_fields e0 R0) as (X0r & X0g & X0b & _).
  destruct (bitexpand_fields e1 R1) as (X1r & X1g & X1b & _).
  rewrite F0r, F0g, F0b in *. rewrite F1r, F1g, F1b in *.
  assert (B5 : forall k, 0 <= k < 32 -> 0 <= bitexpand5 k <= 255).
  { intros k Hk. assert (H : forallb (fun k => (0 <=? bitexpand5 k)
        && (bitexpand5 k <=? 255)) (zrange 32) = true) by reflexivity.
    apply zrange_forallb with (k := k) in H; [|lia].
    apply andb_prop in H. lia. }
  assert (B6 : forall k, 0 <= k < 64 -> 0 <= bitexpand6 k <= 255).
  { intros k Hk. assert (H : forallb (fun k => (0 <=? bitexpand6 k)
        && (bitexpand6 k <=? 255)) (zrange 64) = true) by reflexivity.
    apply zrange_forallb with (k := k) in H; [|lia].
    apply andb_prop in H. lia. }
  pose proof (B5 Mr Rr0). pose proof (B5 mr Rr1). pose proof (B6 Mg Rg0).
  pose proof (B6 mg Rg1). pose proof (B5 Mb Rb0). pose proof (B5 mb Rb1).
  unfold within_one, decoded_texel, evaluate_palette, evaluate_palette_d3d10.
  destruct (Z.ltb_spec e0 e1) as [Hlt | Hge]; cbn [col0 col1 indices].
  - rewrite index_at_all_3 by exact Hi.
    replace (e1 >? e0) with true by (symmetry; apply Z.gtb_lt; lia).
    unfold evaluate_palette4_d3d10. cbn [upd paletteAt nth].
    rewrite X0r, X0g, X0b, X1r, X1g, X1b.
    destruct (c32_make_channels ((2 * bitexpand5 Mr + bitexpand5 mr) / 3)
                ((2 * bitexpand6 Mg + bitexpand6 mg) / 3)
                ((2 * bitexpand5 Mb + bitexpand5 mb) / 3) 255)
      as (-> & -> & -> & _);
      try (split; [apply Z.div_pos; lia | apply Z.div_le_upper_bound; lia]);
      try lia.
    all: try tauto.
  - rewrite index_at_all_2 by exact Hi.
    destruct (Z.eq_dec e0 e1) as [Heq | Hne].
    + assert (Mr = mr /\ Mg = mg /\ Mb = mb) as (Er & Eg & Eb).
      { rewrite <- F0r, <- F0g, <- F0b, <- F1r, <- F1g, <- F1b.
        now rewrite Heq. }
      replace (e0 >? e1) with false by (symmetry; rewrite Z.gtb_ltb;
        apply Z.ltb_ge; lia).
      unfold evaluate_palette3_d3d10. cbn [upd paletteAt nth].
      rewrite X0r, X0g, X0b, X1r, X1g, X1b.
      rewrite <- Er, <- Eg, <- Eb in *.
      destruct (c32_make_channels ((bitexpand5 Mr + bitexpand5 Mr) / 2)
                  ((bitexpand6 Mg + bitexpand6 Mg) / 2)
                  ((bitexpand5 Mb + bitexpand5 Mb) / 2) 255)
        as (-> & -> & -> & _);
        try (split; [apply Z.div_pos; lia | apply Z.div_le_upper_bound; lia]);
        try lia.
      all: try (repeat split; revert Dr Dg Db; Z.div_mod_to_equations; lia).
    + replace (e0 >? e1) with true by (symmetry; apply Z.gtb_lt; lia).
      unfold evaluate_palette4_d3d10. cbn [upd paletteAt nth].
      rewrite X0r, X0g, X0b, X1r, X1g, X1b.
      destruct (c32_make_channels ((2 * bitexpand5 Mr + bitexpand5 mr) / 3)
                  ((2 * bitexpand6 Mg + bitexpand6 mg) / 3)
                  ((2 * bitexpand5 Mb + bitexpand5 mb) / 3) 255)
        as (-> & -> & -> & _);
        try (split; [apply Z.div_pos; lia | apply Z.div_le_upper_bound; lia]);
        try lia.
      all: try tauto.
Qed.

(** X5.  The block [compress_dxt1_single_color_optimal] writes for any
    [Color32] decodes, under the Direct3D 10 palette, to a color within 1
    of the input in each of red, green and blue, at every one of the 16
    texels. *)
Theorem single_color_decodes_within_one : forall c i,
  (i < 16)%nat ->
  let block := compress_dxt1_single_color_optimal c in
  within_one c (decoded_texel (evaluate_palette (col0 block) (col1 block))
                              block i).
Proof. intros c i Hi block. now apply single_color_within_one. Qed.

(** X5 at the color (200, 100, 50), texel 5. *)
Lemma single_color_decodes_within_one_witness :
  (5 < 16)%nat
  /\ within_one (c32_make 200 100 50 255)
       (decoded_texel
          (evaluate_palette
             (col0 (compress_dxt1_single_color_optimal
                      (c32_make 200 100 50 255)))
             (col1 (compress_dxt1_single_color_optimal
                      (c32_make 200 100 50 255))))
          (compress_dxt1_single_color_optimal (c32_make 200 100 50 255)) 5).
Proof.
  split; [lia|].
  exact (single_color_decodes_within_one (c32_make 200 100 50 255) 5
           ltac:(lia)).
Defined.

(** ** Error evaluator *)



(** ** 8-bit colors through the float conversion *)

Lemma to_uint8_norm8 v : 0 <= v <= 255 -> to_uint8 (norm8 v) = v.
Proof.
  intros Hv.
  assert (H : forallb (fun v => to_uint8 (norm8 v) =? v) (zrange 256) = true)
    by (vm_compute; reflexivity).
  apply zrange_forallb with (k := v) in H; [|lia]. now apply Z.eqb_eq.
Qed.

(** X7.  [vector3_to_color32 (color_to_vector3 c)] gives back the red,
    green and blue bytes of any [Color32] [c], with alpha 255: all 256 byte
    values survive the division by 255 and the rounding. *)
Theorem color32_float_round_trip : forall c,
  vector3_to_color32 (color_to_vector3 c)
  = c32_make (c32_r c) (c32_g c) (c32_b c) 255.
Proof.
  intros c. unfold vector3_to_color32, color_to_vector3. cbn [x y z].
  fold (norm8 (c32_r c)). fold (norm8 (c32_g c)). fold (norm8 (c32_b c)).
  pose proof (land_255_range (Z.shiftr c 16)) as Hr. fold (c32_r c) in Hr.
  pose proof (land_255_range (Z.shiftr c 8)) as Hg. fold (c32_g c) in Hg.
  pose proof (land_255_range c) as Hb. fold (c32_b c) in Hb.
  now rewrite !to_uint8_norm8 by assumption.
Qed.

(** ** Loops with a counter *)

Section ForLoopIndexed.

Context {St : Type}.

Lemma fold_seq_invariant_indexed (P : nat -> St -> Prop)
    (body : nat -> St -> St) :
  forall len a s,
    P a s ->
    (forall i s', (a <= i < a + len)%nat -> P i s' -> P (S i) (body i s')) ->
    P (a + len)%nat (fold_left (fun acc i => body i acc) (seq a len) s).
Proof.
  induction len as [|len IH]; intros a s Hs Hstep; simpl.
  - now rewrite Nat.add_0_r.
  - replace (a + S len)%nat with (S a + len)%nat by lia. apply IH.
    + apply Hstep; [lia | exact Hs].
    + intros i s' Hi. apply Hstep. lia.
Qed.

(** Loop invariants that mention the iteration count. *)
Lemma for_loop_invariant_indexed (P : nat -> St -> Prop) n
    (body : nat -> St -> St) s :
  P 0%nat s ->
  (forall i s', (i < n)%nat -> P i s' -> P (S i) (body i s')) ->
  P n (for_loop n body s).
Proof.
  intros Hs Hstep. unfold for_loop.
  apply (fold_seq_invariant_indexed P body n 0 s Hs).
  intros i s' Hi. apply Hstep. lia.
Qed.

End ForLoopIndexed.

(** ** The invariant of [reduce_colors] *)

Lemma find_matching_some colors weights ci wi weights' :
  find_matching colors weights ci wi = Some weights' ->
  length weights' = length weights.
Proof.
  revert weights weights'.
  induction colors as [|c colors IH]; intros [|wj weights] weights' H;
    cbn [find_matching] in H; try discriminate.
  destruct (v3_equal c ci threshold).
  - injection H as <-. reflexivity.
  - destruct (find_matching colors weights ci wi) as [ws|] eqn:E;
      cbn [option_map] in H; [|discriminate].
    injection H as <-. cbn [length]. f_equal. now apply IH.
Qed.

Lemma find_matching_none colors weights ci wi :
  length colors = length weights ->
  find_matching colors weights ci wi = None ->
  Forall (fun c => far_apart c ci) colors.
Proof.
  revert weights.
  induction colors as [|c colors IH]; intros [|wj weights] Hlen H;
    cbn [find_matching length] in *; try discriminate; [constructor|].
  destruct (v3_equal c ci threshold) eqn:E; [discriminate|].
  destruct (find_matching colors weights ci wi) eqn:F;
    cbn [option_map] in H; [discriminate|].
  constructor; [exact E|]. apply (IH weights); [lia | exact F].
Qed.

Lemma ForallOrdPairs_snoc {A} (R : A -> A -> Prop) l a :
  ForallOrdPairs R l -> Forall (fun b => R b a) l ->
  ForallOrdPairs R (l ++ [a]).
Proof.
  induction 1 as [|b l Hb Hl IH]; intros Ha; cbn [app].
  - repeat constructor.
  - inversion Ha as [|? ? Hba Hla]; subst. constructor.
    + apply Forall_app. split; [exact Hb | repeat constructor; exact Hba].
    + apply IH. exact Hla.
Qed.

Lemma reduce_step_inv ic iw k st :
  reduce_inv ic iw k st -> reduce_inv ic iw (S k) (reduce_step ic iw k st).
Proof.
  intros [Hlen Hcnt Hin Hfar Hblack].
  assert (Hin' : Forall (fun c => exists i, (i < S k)%nat
                   /\ c = xyz (colorAt ic i)
                   /\ (floatAt iw i >? zero)%f32 = true) (r_colors st)).
  { eapply Forall_impl; [|exact Hin]. intros c (i & Hi & Hc & Hw).
    exists i. repeat split; auto. }
  unfold reduce_step.
  destruct (floatAt iw k >? zero)%f32 eqn:Hw.
  - assert (Hb' : (if is_black (xyz (colorAt ic k)) then true
                   else r_any_black st) = true <->
              exists i, (i < S k)%nat /\ (floatAt iw i >? zero)%f32 = true
                        /\ is_black (xyz (colorAt ic i)) = true).
    { destruct (is_black (xyz (colorAt ic k))) eqn:Hk.
      - split; [intros _; exists k; auto | reflexivity].
      - rewrite Hblack. split.
        + intros (i & Hi & Hwi & Hbi). exists i. auto.
        + intros (i & Hi & Hwi & Hbi).
          assert (i <> k) by (intros ->; congruence).
          exists i. repeat split; auto. lia. }
    destruct (find_matching _ _ _ _) as [weights'|] eqn:F.
    + constructor; cbn [r_colors r_weights r_any_black]; auto.
      rewrite (find_matching_some _ _ _ _ _ F). exact Hlen.
    + constructor; cbn [r_colors r_weights r_any_black]; auto.
      * rewrite !length_app, Hlen. reflexivity.
      * rewrite length_app. cbn [length]. lia.
      * apply Forall_app. split; [exact Hin'|].
        repeat constructor. exists k. auto.
      * apply ForallOrdPairs_snoc; [exact Hfar|].
        apply (find_matching_none _ (r_weights st) _ (floatAt iw k));
          [now symmetry | exact F].
  - constructor; auto.
    rewrite Hblack. split.
    + intros (i & Hi & Hwi & Hbi). exists i. auto.
    + intros (i & Hi & Hwi & Hbi).
      assert (i <> k) by (intros ->; congruence).
      exists i. repeat split; auto. lia.
Qed.

Lemma reduce_colors_inv ic iw count :
  reduce_inv ic iw count (reduce_colors ic iw count).
Proof.
  unfold reduce_colors. apply for_loop_invariant_indexed.
  - constructor; cbn [r_colors r_weights r_any_black length]; auto.
    + constructor.
    + split; [discriminate | intros (i & Hi & _); lia].
  - intros i s' _. apply reduce_step_inv.
Qed.

(** X8.  [reduce_colors] returns at most [count] colors (the assertion
    [n <= count] of the source) and as many weights as colors. *)
Theorem reduce_colors_count_bound : forall ic iw count,
  (r_count (reduce_colors ic iw count) <= count)%nat
  /\ length (r_weights (reduce_colors ic iw count))
     = r_count (reduce_colors ic iw count).
Proof.
  intros ic iw count. destruct (reduce_colors_inv ic iw count).
  unfold r_count. auto.
Qed.

(** X9.  Every color [reduce_colors] returns is the color of an input
    texel with weight > 0, and no two returned colors are equal up to the
    threshold 1/256 in all three channels (the earlier of the two would
    have absorbed the later). *)
Theorem reduce_colors_distinct_inputs : forall ic iw count,
  let colors := r_colors (reduce_colors ic iw count) in
  Forall (fun c => exists i, (i < count)%nat /\ c = xyz (colorAt ic i)
                             /\ (floatAt iw i >? zero)%f32 = true) colors
  /\ ForallOrdPairs (fun a b => v3_equal a b threshold = false) colors.
Proof.
  intros ic iw count. destruct (reduce_colors_inv ic iw count). auto.
Qed.

(** X10.  [reduce_colors] sets [*any_black] exactly when some texel among
    the first [count] has weight > 0 and is black ([is_black]: all three
    channels below 1/8). *)
Theorem reduce_colors_any_black_iff : forall ic iw count,
  r_any_black (reduce_colors ic iw count) = true <->
  exists i, (i < count)%nat /\ (floatAt iw i >? zero)%f32 = true
            /\ is_black (xyz (colorAt ic i)) = true.
Proof.
  intros ic iw count. destruct (reduce_colors_inv ic iw count). auto.
Qed.

(** ** [skip_blacks] *)

(** X11.  [skip_blacks] keeps, in order and paired with their weights,
    exactly the entries whose color is not black: the result is the filter
    of the first [count] (color, weight) pairs, it has at most [count]
    entries, and none of the colors kept is black. *)
Theorem skip_blacks_filter : forall colors weights count,
  let kept := skip_blacks colors weights count in
  combine (fst kept) (snd kept)
  = filter (fun p => negb (is_black (fst p)))
           (map (fun i => (v3At colors i, floatAt weights i)) (seq 0 count))
  /\ length (fst kept) = length (snd kept)
  /\ (length (fst kept) <= count)%nat
  /\ Forall (fun c => is_black c = false) (fst kept).
Proof.
  intros colors weights count. cbv zeta. unfold skip_blacks.
  apply (for_loop_invariant_indexed
    (fun k (st : list Vector3 * list float) =>
       combine (fst st) (snd st)
       = filter (fun p => negb (is_black (fst p)))
           (map (fun i => (v3At colors i, floatAt weights i)) (seq 0 k))
       /\ length (fst st) = length (snd st)
       /\ (length (fst st) <= k)%nat
       /\ Forall (fun c => is_black c = false) (fst st))).
  - cbn. repeat split; auto.
  - intros i [cs ws] Hi (Hc & Hl & Hn & Hb). cbn [fst snd] in *.
    rewrite seq_S, map_app, filter_app. cbn [map filter fst Nat.add].
    destruct (is_black (v3At colors i)) eqn:E; cbn [negb fst snd].
    + rewrite app_nil_r. repeat split; auto.
    + repeat split.
      * rewrite <- Hc. clear Hc Hb Hn.
        revert ws Hl. induction cs as [|c cs IH]; intros [|w0 ws] Hl;
          cbn [length] in Hl; try discriminate; cbn [app combine].
        -- reflexivity.
        -- f_equal. apply IH. lia.
      * rewrite !length_app. cbn [length]. lia.
      * rewrite length_app. cbn [length]. lia.
      * apply Forall_app. split; [exact Hb | repeat constructor; exact E].
Qed.

(** ** The partition tables *)

Lemma seq_forallb (f : nat -> bool) n :
  forallb f (seq 0 n) = true -> forall k, (k < n)%nat -> f k = true.
Proof.
  intros H k Hk. rewrite forallb_forall in H. apply H, in_seq. lia.
Qed.

Lemma comb_eqb_eq a b : comb_eqb a b = true -> a = b.
Proof.
  destruct a, b. unfold comb_eqb. cbn. intros H.
  apply andb_prop in H. destruct H as [H H2].
  apply andb_prop in H. destruct H as [H0 H1].
  apply Nat.eqb_eq in H0, H1, H2. now subst.
Qed.

Lemma nodupb_NoDup l : nodupb l = true -> NoDup l.
Proof.
  induction l as [|a l IH]; cbn [nodupb]; intros H; constructor.
  - apply andb_prop in H. destruct H as [H _].
    intros Hin. apply negb_true_iff in H.
    assert (existsb (comb_eqb a) l = true); [|congruence].
    apply existsb_exists. exists a. split; [exact Hin|].
    destruct a. unfold comb_eqb. cbn. now rewrite !Nat.eqb_refl.
  - apply IH. apply andb_prop in H. tauto.
Qed.

(** X12.  For every number of colors [t] from 1 to 16, the first
    [s_fourClusterTotal[t - 1]] entries of [s_fourCluster] left by
    [init_cluster_tables] are, without repetition, exactly the triples of
    cluster boundaries c0 <= c1 <= c2 with 0 < c2 <= t. *)
Theorem four_cluster_table_complete : forall t c0 c1 c2,
  (1 <= t <= 16)%nat ->
  NoDup (four_partitions t)
  /\ (In (mkComb c0 c1 c2) (four_partitions t)
      <-> (c0 <= c1 <= c2 /\ 0 < c2 <= t)%nat).
Proof.
  intros t c0 c1 c2 Ht.
  assert (H : forallb four_complete (seq 0 16) = true)
    by (vm_compute; reflexivity).
  apply seq_forallb with (k := (t - 1)%nat) in H; [|lia].
  unfold four_complete in H. replace (S (t - 1)) with t in H by lia.
  apply andb_prop in H. destruct H as [H Hnd].
  apply andb_prop in H. destruct H as [Hall Hin].
  split; [now apply nodupb_NoDup|]. split.
  - intros Hc. rewrite forallb_forall in Hin. apply Hin in Hc.
    apply andb_prop in Hc. destruct Hc as [Hc H4].
    apply andb_prop in Hc. destruct Hc as [Hc H3].
    apply andb_prop in Hc. destruct Hc as [H1 H2].
    apply Nat.leb_le in H1, H2, H4. apply Nat.ltb_lt in H3.
    cbn in H1, H2, H3, H4. lia.
  - intros Hc.
    apply seq_forallb with (k := c0) in Hall; [|lia].
    apply seq_forallb with (k := c1) in Hall; [|lia].
    apply seq_forallb with (k := c2) in Hall; [|lia].
    replace (Nat.leb c0 c1) with true in Hall
      by (symmetry; apply Nat.leb_le; lia).
    replace (Nat.leb c1 c2) with true in Hall
      by (symmetry; apply Nat.leb_le; lia).
    replace (Nat.ltb 0 c2) with true in Hall
      by (symmetry; apply Nat.ltb_lt; lia).
    cbn [andb] in Hall. apply existsb_exists in Hall.
    destruct Hall as (c & Hc1 & Hc2). apply comb_eqb_eq in Hc2. now subst.
Qed.

(** X12 at three colors and the boundaries (1, 2, 3). *)
Lemma four_cluster_table_complete_witness :
  (1 <= 3 <= 16)%nat
  /\ (In (mkComb 1 2 3) (four_partitions 3)
      <-> (1 <= 2 <= 3 /\ 0 < 3 <= 3)%nat).
Proof.
  split; [lia|].
  exact (proj2 (four_cluster_table_complete 3 1 2 3 ltac:(lia))).
Defined.

(** X13.  For every number of colors [t] from 1 to 16, the first
    [s_threeClusterTotal[t - 1]] entries of [s_threeCluster] left by
    [init_cluster_tables] are, without repetition, exactly the pairs of
    cluster boundaries c0 <= c1 with 0 < c1 <= t. *)
Theorem three_cluster_table_complete : forall t c0 c1 c2,
  (1 <= t <= 16)%nat ->
  NoDup (three_partitions t)
  /\ (In (mkComb c0 c1 c2) (three_partitions t)
      <-> (c0 <= c1 /\ 0 < c1 <= t /\ c2 = 0)%nat).
Proof.
  intros t c0 c1 c2 Ht.
  assert (H : forallb three_complete (seq 0 16) = true)
    by (vm_compute; reflexivity).
  apply seq_forallb with (k := (t - 1)%nat) in H; [|lia].
  unfold three_complete in H. replace (S (t - 1)) with t in H by lia.
  apply andb_prop in H. destruct H as [H Hnd].
  apply andb_prop in H. destruct H as [Hall Hin].
  split; [now apply nodupb_NoDup|]. split.
  - intros Hc. rewrite forallb_forall in Hin. apply Hin in Hc.
    apply andb_prop in Hc. destruct Hc as [Hc H4].
    apply andb_prop in Hc. destruct Hc as [Hc H3].
    apply andb_prop in Hc. destruct Hc as [H1 H2].
    apply Nat.leb_le in H1, H3. apply Nat.ltb_lt in H2.
    apply Nat.eqb_eq in H4. cbn in H1, H2, H3, H4. lia.
  - intros (H1 & H2 & ->).
    apply seq_forallb with (k := c0) in Hall; [|lia].
    apply seq_forallb with (k := c1) in Hall; [|lia].
    replace (Nat.leb c0 c1) with true in Hall
      by (symmetry; apply Nat.leb_le; lia).
    replace (Nat.ltb 0 c1) with true in Hall
      by (symmetry; apply Nat.ltb_lt; lia).
    cbn [andb] in Hall. apply existsb_exists in Hall.
    destruct Hall as (c & Hc1 & Hc2). apply comb_eqb_eq in Hc2. now subst.
Qed.

(** X13 at three colors and the boundaries (1, 2). *)
Lemma three_cluster_table_complete_witness :
  (1 <= 3 <= 16)%nat
  /\ (In (mkComb 1 2 0) (three_partitions 3)
      <-> (1 <= 2 /\ 0 < 2 <= 3 /\ 0 = 0)%nat).
Proof.
  split; [lia|].
  exact (proj2 (three_cluster_table_complete 3 1 2 0 ltac:(lia))).
Defined.

(** ** More on float comparison *)

Lemma ltb_irrefl (a : float) : (a <? a)%f32 = false.
Proof.
  unfold ltb, SFltb.
  destruct a as [s|s| |s m e]; try destruct s; cbn; try reflexivity.
  all: rewrite Z.compare_refl; change (Pos.compare_cont Eq) with Pos.compare;
    rewrite Pos.compare_refl; reflexivity.
Qed.

Lemma ltb_asym (a b : float) : (a <? b)%f32 = true -> (b <? a)%f32 = false.
Proof.
  intros H. destruct (b <? a)%f32 eqn:E; [|reflexivity].
  pose proof (ltb_trans _ _ _ H E) as H'. now rewrite ltb_irrefl in H'.
Qed.

Lemma ltb_negtrans (a b c : float) :
  is_nan a = false -> is_nan b = false -> is_nan c = false ->
  (a <? b)%f32 = false -> (b <? c)%f32 = false -> (a <? c)%f32 = false.
Proof.
  unfold ltb, SFltb.
  destruct a as [sa|sa| |sa ma ea], b as [sb|sb| |sb mb eb],
           c as [sc|sc| |sc mc ec]; simpl;
    try discriminate; try reflexivity;
    try (destruct sa; simpl; try discriminate; try reflexivity);
    try (destruct sb; simpl; try discriminate; try reflexivity);
    try (destruct sc; simpl; try discriminate; try reflexivity).
  all: intros _ _ _.
  all: destruct (Z.compare_spec ea eb), (Z.compare_spec eb ec),
         (Z.compare_spec ea ec); subst; try lia; try discriminate;
         try reflexivity.
  all: change (Pos.compare_cont Eq) with Pos.compare.
  all: destruct (Pos.compare_spec ma mb), (Pos.compare_spec mb mc),
         (Pos.compare_spec ma mc); subst; simpl; try lia; try discriminate;
         try reflexivity.
Qed.

(** ** [saturate] *)

Lemma saturate_in_unit a : in_unit (saturate a).
Proof.
  unfold saturate, clamp, fmin, fmax, in_unit.
  destruct (zero <? a)%f32 eqn:E0.
  - destruct (a <? one)%f32 eqn:E1; auto.
  - replace (zero <? one)%f32 with true by (vm_compute; reflexivity). auto.
Qed.

Lemma v3_saturate_in_unit v : v3_in_unit (v3_saturate v).
Proof.
  unfold v3_in_unit, v3_saturate; cbn [x y z]; auto using saturate_in_unit.
Qed.

Lemma in_unit_not_nan a : in_unit a -> is_nan a = false.
Proof.
  intros [-> | [-> | [H _]]]; try reflexivity.
  destruct a; try reflexivity. discriminate H.
Qed.

(** ** Endpoints handed to the quantizer *)

Lemma inset_bbox_in_unit c :
  v3_in_unit (fst (inset_bbox c)) /\ v3_in_unit (snd (inset_bbox c)).
Proof.
  destruct c as [c0 c1]. unfold inset_bbox. cbv zeta. cbn [fst snd].
  split; apply v3_saturate_in_unit.
Qed.

Lemma select_diagonal_in_unit colors count c :
  v3_in_unit (fst c) -> v3_in_unit (snd c) ->
  v3_in_unit (fst (select_diagonal colors count c))
  /\ v3_in_unit (snd (select_diagonal colors count c)).
Proof.
  destruct c as [c0 c1]. cbn [fst snd].
  intros (H0x & H0y & H0z) (H1x & H1y & H1z).
  unfold select_diagonal.
  destruct (for_loop count _ (zero, zero)) as [cov_xz cov_yz].
  destruct (cov_xz <? zero)%f32, (cov_yz <? zero)%f32; cbn [fst snd];
    unfold v3_in_unit; cbn [x y z]; tauto.
Qed.

(** X14.  Whatever the colors (NaN and infinities included), the endpoints
    that [fit_colors_bbox], [inset_bbox] and [select_diagonal] hand to the
    quantizer have every component equal to 0, equal to 1 or strictly
    between: [saturate] maps a NaN to 0. *)
Theorem quick_endpoints_in_unit_cube : forall colors count,
  let c := select_diagonal colors count
             (inset_bbox (fit_colors_bbox colors count)) in
  v3_in_unit (fst c) /\ v3_in_unit (snd c).
Proof.
  intros colors count c. subst c.
  apply select_diagonal_in_unit; apply inset_bbox_in_unit.
Qed.

(** X15.  When [optimize_end_points4] returns true, both endpoints it
    writes have every component equal to 0, equal to 1 or strictly between,
    whatever the indices and colors. *)
Theorem optimize_end_points4_in_unit_cube : forall indices colors count a b,
  optimize_end_points4 indices colors count = Some (a, b) ->
  v3_in_unit a /\ v3_in_unit b.
Proof.
  intros indices colors count a b. unfold optimize_end_points4.
  destruct (for_loop count _ _) as [[[[a2 b2] ab] ax] bx].
  destruct (equal _ _ _); [discriminate|].
  intros H. injection H as <- <-. split; apply v3_saturate_in_unit.
Qed.

(** X15 on the three-tone block. *)
Lemma optimize_end_points4_in_unit_cube_witness :
  optimize_end_points4 three_tone_indices three_tone_block 16
  = Some (fst three_tone_least_squares, snd three_tone_least_squares)
  /\ v3_in_unit (fst three_tone_least_squares)
  /\ v3_in_unit (snd three_tone_least_squares).
Proof.
  assert (H : optimize_end_points4 three_tone_indices three_tone_block 16
              = Some (fst three_tone_least_squares,
                      snd three_tone_least_squares))
    by (vm_compute; reflexivity).
  split; [exact H|].
  exact (optimize_end_points4_in_unit_cube _ _ _ _ _ H).
Defined.

(** ** The returned error is the error of the returned block *)

Lemma cluster_fit_consistent ic iw colors weights count cw tcm utb r :
  compress_dxt1_cluster_fit ic iw colors weights count cw tcm utb = Some r ->
  consistent ic iw cw r.
Proof.
  unfold consistent, compress_dxt1_cluster_fit.
  destruct (compute_sat colors weights count) as [sat_count sat].
  destruct (cluster_fit_four sat sat_count _) as [[start end_]|];
    [|discriminate].
  destruct tcm; [|intros H; injection H as <-; reflexivity].
  destruct (skip_blacks colors weights count) as [tc tw].
  destruct (utb && _); [intros H; injection H as <-; reflexivity|].
  destruct (if utb then _ else _) as [sc s].
  destruct (cluster_fit_three s sc _) as [[s3 e3]|]; [|discriminate].
  destruct (ltb _ _); intros H; injection H as <-; reflexivity.
Qed.

Lemma refine_step_consistent ic iw cw tcm i st :
  consistent ic iw cw (fst st) ->
  consistent ic iw cw (fst (refine_step ic iw cw tcm i st)).
Proof.
  destruct st as [[e b] li]. cbn [fst]. intros H. unfold refine_step.
  destruct (refine_candidate tcm i b) as [r0 r1].
  destruct (ltb _ _); cbn [fst]; [reflexivity | exact H].
Qed.

Lemma refine_loop_consistent ic iw cw tcm fuel :
  forall i st,
    consistent ic iw cw (fst st) ->
    consistent ic iw cw (fst (refine_loop ic iw cw tcm fuel i st)).
Proof.
  induction fuel as [|fuel IH]; intros i st H; cbn [refine_loop]; auto.
  pose proof (refine_step_consistent ic iw cw tcm i st H) as H'.
  destruct (Nat.ltb 32 _); auto.
Qed.

Lemma refine_endpoints_consistent ic iw cw tcm e b :
  e = evaluate_mse ic iw cw b ->
  consistent ic iw cw (refine_endpoints ic iw cw tcm e b).
Proof.
  intros H. unfold refine_endpoints.
  apply (refine_loop_consistent ic iw cw tcm 256 0%nat (e, b, 0%nat)).
  exact H.
Qed.

Lemma compress_dxt1_consistent ic iw cw tcm hq r :
  r_count (reduce_colors ic iw 16) <> 0%nat ->
  compress_dxt1 ic iw cw tcm hq = Some r ->
  consistent ic iw cw r.
Proof.
  intros Hc. unfold compress_dxt1.
  destruct (r_count (reduce_colors ic iw 16)) as [|[|n]]; [congruence| |].
  - intros H. injection H as <-. unfold consistent. cbn [fst snd].
    reflexivity.
  - set (count := S (S n)).
    destruct (select_diagonal _ count _) as [c0 c1].
    set (quick := output_block4 ic cw c0 c1).
    assert (Hq : consistent ic iw cw
      match optimize_end_points4 (indices quick) ic 16 with
      | Some (c2, c3) =>
          if (evaluate_mse ic iw cw (output_block4 ic cw c2 c3)
              <? evaluate_mse ic iw cw quick)%f32
          then (evaluate_mse ic iw cw (output_block4 ic cw c2 c3),
                output_block4 ic cw c2 c3)
          else (evaluate_mse ic iw cw quick, quick)
      | None => (evaluate_mse ic iw cw quick, quick)
      end).
    { destruct (optimize_end_points4 _ _ _) as [[c2 c3]|];
        [destruct (ltb _ _)|]; unfold consistent; cbn [fst snd];
        reflexivity. }
    destruct (match optimize_end_points4 (indices quick) ic 16 with
              | Some _ => _ | None => _ end) as [error output].
    destruct (compress_dxt1_cluster_fit _ _ _ _ _ _ _ _) as [[cfe cfo]|]
      eqn:Hcf; [|discriminate].
    apply cluster_fit_consistent in Hcf.
    assert (Hb : consistent ic iw cw (if (cfe <? error)%f32 then (cfe, cfo)
                                      else (error, output))).
    { destruct (ltb _ _); assumption. }
    destruct (if (cfe <? error)%f32 then (cfe, cfo) else (error, output))
      as [e b].
    destruct hq; intros H; injection H as <-; [|exact Hb].
    apply refine_endpoints_consistent. exact Hb.
Qed.

(** X16.  Whenever [compress_dxt1] returns, unless [reduce_colors] finds no
    texel of weight > 0, the error it returns is [evaluate_mse] of the block
    it writes, on every path (single color, bounding box, least squares,
    cluster fit, refinement) and for both flags. *)
Theorem compress_dxt1_error_is_block_error : forall ic iw cw tcm hq e b,
  r_count (reduce_colors ic iw 16) <> 0%nat ->
  compress_dxt1 ic iw cw tcm hq = Some (e, b) ->
  e = evaluate_mse ic iw cw b.
Proof.
  intros ic iw cw tcm hq e b Hc H.
  exact (compress_dxt1_consistent ic iw cw tcm hq (e, b) Hc H).
Qed.

(** X16 on the three-tone block, both flags set. *)
Lemma compress_dxt1_error_is_block_error_witness :
  r_count (reduce_colors three_tone_block unit_weights 16) <> 0%nat
  /\ compress_dxt1 three_tone_block unit_weights unit_channel_weights
                   true true
     = Some (zero, mkBlock 0x8410 0xFFFF 0x2AA955)
  /\ zero = evaluate_mse three_tone_block unit_weights unit_channel_weights
              (mkBlock 0x8410 0xFFFF 0x2AA955).
Proof.
  assert (Hc : r_count (reduce_colors three_tone_block unit_weights 16)
               <> 0%nat) by (vm_compute; discriminate).
  assert (H : compress_dxt1 three_tone_block unit_weights
                            unit_channel_weights true true
              = Some (zero, mkBlock 0x8410 0xFFFF 0x2AA955))
    by (vm_compute; reflexivity).
  split; [exact Hc|]. split; [exact H|].
  exact (compress_dxt1_error_is_block_error three_tone_block unit_weights
           unit_channel_weights true true _ _ Hc H).
Defined.

(** ** Refinement changes the block only for a smaller error *)

Lemma unchanged_or_better_trans a b c :
  unchanged_or_better a b -> unchanged_or_better b c ->
  unchanged_or_better a c.
Proof.
  unfold unchanged_or_better.
  intros [-> | H1] [-> | H2]; auto. right. eauto using ltb_trans.
Qed.

Lemma refine_step_better ic iw cw tcm i st :
  unchanged_or_better (fst st) (fst (refine_step ic iw cw tcm i st)).
Proof.
  destruct st as [[e b] li]. cbn [fst]. unfold refine_step.
  destruct (refine_candidate tcm i b) as [r0 r1].
  destruct (ltb _ _) eqn:E; cbn [fst]; [right; exact E | now left].
Qed.

Lemma refine_loop_better ic iw cw tcm fuel :
  forall i st,
    unchanged_or_better (fst st) (fst (refine_loop ic iw cw tcm fuel i st)).
Proof.
  induction fuel as [|fuel IH]; intros i st; cbn [refine_loop].
  - now left.
  - pose proof (refine_step_better ic iw cw tcm i st) as H'.
    destruct (Nat.ltb 32 _); auto.
    eapply unchanged_or_better_trans; [exact H' | apply IH].
Qed.

(** X17.  [refine_endpoints] returns its input error and leaves the block
    untouched, or returns an error strictly below its input error. *)
Theorem refine_endpoints_unchanged_or_better : forall ic iw cw tcm e b,
  refine_endpoints ic iw cw tcm e b = (e, b)
  \/ (fst (refine_endpoints ic iw cw tcm e b) <? e)%f32 = true.
Proof.
  intros. unfold refine_endpoints.
  apply (refine_loop_better ic iw cw tcm 256 0%nat (e, b, 0%nat)).
Qed.

(** ** Endpoint order on the fast paths *)

Lemma output_block4_v3_ordered ic v0 v1 : ordered (output_block4_v3 ic v0 v1).
Proof.
  unfold ordered, output_block4_v3.
  destruct (Z.ltb_spec (vector3_to_color16 v0) (vector3_to_color16 v1));
    cbn [col0 col1]; lia.
Qed.

(** X18.  Both [compress_dxt1_fast] overloads (float texels, 8-bit texels)
    write a block with col0.u >= col1.u on every input. *)
Theorem fast_paths_four_color_mode : forall ic iw cw rgba,
  ordered (snd (compress_dxt1_fast ic iw cw))
  /\ ordered (compress_dxt1_fast_u8 rgba).
Proof.
  intros ic iw cw rgba. split.
  - unfold compress_dxt1_fast.
    destruct (fit_colors_bbox _ _) as [c0 c1].
    destruct (v3_eqb c0 c1); cbn [snd]; [apply single_color_ordered|].
    destruct (select_diagonal _ _ _) as [d0 d1].
    destruct (optimize_end_points4 _ _ _) as [[e0 e1]|]; cbn [snd];
      apply output_block4_ordered.
  - unfold compress_dxt1_fast_u8.
    destruct (fit_colors_bbox _ _) as [c0 c1].
    destruct (v3_eqb c0 c1); [apply single_color_ordered|].
    destruct (select_diagonal _ _ _) as [d0 d1].
    destruct (optimize_end_points4_v3 _ _ _) as [[e0 e1]|];
      apply output_block4_v3_ordered.
Qed.

(** ** Blocks of one color *)

Lemma in_unit_bounds a :
  in_unit a ->
  (a <? zero)%f32 = false /\ (one <? a)%f32 = false /\ (a =? a)%f32 = true.
Proof.
  intros [-> | [-> | [H0 H1]]].
  - repeat split; vm_compute; reflexivity.
  - repeat split; vm_compute; reflexivity.
  - repeat split; auto using ltb_asym.
    destruct a as [s|s| |s m e]; try discriminate; try reflexivity.
    + destruct s; discriminate.
    + unfold eqb, SFeqb, SFcompare.
      destruct s; rewrite Z.compare_refl;
        change (Pos.compare_cont Eq) with Pos.compare;
        rewrite Pos.compare_refl; reflexivity.
Qed.

Lemma fit_colors_bbox_uniform colors count c :
  (0 < count)%nat ->
  (forall i, (i < count)%nat -> v3At colors i = c) ->
  v3_in_unit c ->
  fit_colors_bbox colors count = (c, c).
Proof.
  intros Hcount Hall (Hx & Hy & Hz).
  destruct (in_unit_bounds _ Hx) as (Hx0 & Hx1 & _).
  destruct (in_unit_bounds _ Hy) as (Hy0 & Hy1 & _).
  destruct (in_unit_bounds _ Hz) as (Hz0 & Hz1 & _).
  unfold fit_colors_bbox.
  set (P := fun (k : nat) (st : Vector3 * Vector3) =>
       match k with
       | O => st = (v3_zero, mkVector3 one one one)
       | S _ => st = (c, c)
       end).
  assert (H : P count
    (for_loop count
       (fun i '(c0, c1) =>
          (v3_max c0 (v3At colors i), v3_min c1 (v3At colors i)))
       (v3_zero, mkVector3 one one one))).
  { apply for_loop_invariant_indexed; [reflexivity|].
    intros i [c0 c1] Hi Hst. rewrite (Hall i Hi).
    destruct c as [cx cy cz]. cbn [x y z] in *.
    destruct i as [|i]; injection Hst as -> ->;
      unfold P, v3_max, v3_min, fmax, fmin, v3_zero; cbn [x y z];
      rewrite ?Hx0, ?Hy0, ?Hz0, ?Hx1, ?Hy1, ?Hz1, ?ltb_irrefl; reflexivity. }
  destruct count; [lia|]. exact H.
Qed.

Lemma norm8_in_unit v : 0 <= v <= 255 -> in_unit (norm8 v).
Proof.
  intros Hv.
  assert (H : forallb (fun v => (v =? 0) || (v =? 255)
                                || ((zero <? norm8 v)%f32
                                    && (norm8 v <? one)%f32))
                      (zrange 256) = true) by (vm_compute; reflexivity).
  apply zrange_forallb with (k := v) in H; [|lia].
  destruct (Z.eqb_spec v 0) as [-> | _]; [left; vm_compute; reflexivity|].
  destruct (Z.eqb_spec v 255) as [-> | _];
    [right; left; vm_compute; reflexivity|].
  cbn [orb] in H. apply andb_prop in H. right. right. exact H.
Qed.

Lemma norm8_self_equal v :
  0 <= v <= 255 -> equal (norm8 v) (norm8 v) threshold = true.
Proof.
  intros Hv.
  assert (H : forallb (fun v => equal (norm8 v) (norm8 v) threshold)
                      (zrange 256) = true) by (vm_compute; reflexivity).
  apply zrange_forallb with (k := v) in H; [exact H | lia].
Qed.

Lemma reduce_colors_uniform ic iw c count :
  (forall i, (i < count)%nat -> positive_weight iw i ->
             xyz (colorAt ic i) = c) ->
  (exists i, (i < count)%nat /\ positive_weight iw i) ->
  v3_equal c c threshold = true ->
  r_colors (reduce_colors ic iw count) = [c].
Proof.
  intros Hall (i0 & Hi0 & Hw0) Hc.
  set (P := fun (k : nat) (st : Reduced) =>
         (forall i, (i < k)%nat -> ~ positive_weight iw i)
         /\ st = mkReduced [] [] false
         \/ r_colors st = [c] /\ exists w0, r_weights st = [w0]).
  assert (H : P count (reduce_colors ic iw count)).
  { unfold reduce_colors. apply for_loop_invariant_indexed.
    - left. split; [intros i Hi; lia | reflexivity].
    - intros i st Hi Hst. unfold reduce_step, P.
      destruct (floatAt iw i >? zero)%f32 eqn:Hw.
      + right. rewrite (Hall i Hi Hw).
        destruct Hst as [[_ ->] | [Hcs [w0 Hws]]].
        * cbn [r_colors r_weights find_matching app]. eauto.
        * rewrite Hcs, Hws. cbn [find_matching]. rewrite Hc.
          cbn [r_colors r_weights]. eauto.
      + destruct Hst as [[Hn ->] | Hst]; [left | right; exact Hst].
        split; [|reflexivity]. intros j Hj Hpos.
        destruct (Nat.eq_dec j i) as [-> | Hne].
        * unfold positive_weight in Hpos. congruence.
        * apply (Hn j); [lia | exact Hpos]. }
  destruct H as [[H _] | [H _]]; [|exact H]. exfalso. exact (H i0 Hi0 Hw0).
Qed.

Lemma compress_dxt1_single ic iw cw tcm hq c :
  r_colors (reduce_colors ic iw 16) = [c] ->
  exists e,
    compress_dxt1 ic iw cw tcm hq
    = Some (e, compress_dxt1_single_color_optimal (vector3_to_color32 c)).
Proof.
  intros H. unfold compress_dxt1, r_count. rewrite H.
  eexists. reflexivity.
Qed.

(** X19.  If every texel of weight > 0 has the same color [c], there is
    such a texel, and [c] equals itself up to the threshold (no NaN or
    infinite channel), then [compress_dxt1] returns, and writes the
    single-color block of [vector3_to_color32 c], for both flags. *)
Theorem uniform_color_block : forall ic iw cw tcm hq c,
  (forall i, (i < 16)%nat -> positive_weight iw i ->
             xyz (colorAt ic i) = c) ->
  (exists i, (i < 16)%nat /\ positive_weight iw i) ->
  v3_equal c c threshold = true ->
  option_map snd (compress_dxt1 ic iw cw tcm hq)
  = Some (compress_dxt1_single_color_optimal (vector3_to_color32 c)).
Proof.
  intros ic iw cw tcm hq c Hall Hex Hc.
  destruct (compress_dxt1_single ic iw cw tcm hq c) as [e ->];
    [now apply reduce_colors_uniform | reflexivity].
Qed.

Lemma unit_weights_positive i :
  (i < 16)%nat -> positive_weight unit_weights i.
Proof.
  intros Hi. do 16 (destruct i as [|i]; [reflexivity|]). lia.
Qed.

Lemma solid_rgb8_texel i :
  (i < 16)%nat -> xyz (colorAt solid_rgb8 i) = xyz (rgb8 200 100 50).
Proof.
  intros Hi. do 16 (destruct i as [|i]; [reflexivity|]). lia.
Qed.

(** X19 on sixteen texels (200, 100, 50) / 255. *)
Lemma uniform_color_block_witness :
  v3_equal (xyz (rgb8 200 100 50)) (xyz (rgb8 200 100 50)) threshold = true
  /\ option_map snd (compress_dxt1 solid_rgb8 unit_weights
                                   unit_channel_weights false true)
     = Some (compress_dxt1_single_color_optimal
               (vector3_to_color32 (xyz (rgb8 200 100 50)))).
Proof.
  assert (H : v3_equal (xyz (rgb8 200 100 50)) (xyz (rgb8 200 100 50))
                       threshold = true) by (vm_compute; reflexivity).
  split; [exact H|].
  exact (uniform_color_block solid_rgb8 unit_weights unit_channel_weights
           false true (xyz (rgb8 200 100 50))
           (fun i Hi _ => solid_rgb8_texel i Hi)
           (ex_intro _ O (conj (Nat.lt_0_succ 15)
                               (unit_weights_positive O (Nat.lt_0_succ 15))))
           H).
Defined.

Lemma vector3_to_color32_norm8 r g b :
  0 <= r <= 255 -> 0 <= g <= 255 -> 0 <= b <= 255 ->
  vector3_to_color32 (mkVector3 (norm8 r) (norm8 g) (norm8 b))
  = c32_make r g b 255.
Proof.
  intros Hr Hg Hb. unfold vector3_to_color32. cbn [x y z].
  now rewrite !to_uint8_norm8 by assumption.
Qed.

(** X20.  If every texel of weight > 0 is the 8-bit color (r, g, b) divided
    by 255, and there is such a texel, then [compress_dxt1] returns, and
    every texel of the block it writes decodes to within 1 of (r, g, b) in
    each channel. *)
Theorem uniform_rgb8_block_within_one : forall ic iw cw tcm hq r g b i,
  0 <= r <= 255 -> 0 <= g <= 255 -> 0 <= b <= 255 ->
  (forall k, (k < 16)%nat -> positive_weight iw k ->
             xyz (colorAt ic k) = xyz (rgb8 r g b)) ->
  (exists k, (k < 16)%nat /\ positive_weight iw k) ->
  (i < 16)%nat ->
  exists e block,
    compress_dxt1 ic iw cw tcm hq = Some (e, block)
    /\ within_one (c32_make r g b 255)
         (decoded_texel (evaluate_palette (col0 block) (col1 block))
                        block i).
Proof.
  intros ic iw cw tcm hq r g b i Hr Hg Hb Hall Hex Hi.
  destruct (compress_dxt1_single ic iw cw tcm hq (xyz (rgb8 r g b)))
    as [e He].
  - apply reduce_colors_uniform; [exact Hall | exact Hex |].
    unfold rgb8, v3_equal. cbn [xyz x y z].
    now rewrite !norm8_self_equal by assumption.
  - exists e. eexists. split; [exact He|].
    unfold rgb8. cbn [xyz]. rewrite vector3_to_color32_norm8 by assumption.
    now apply single_color_within_one.
Qed.

(** X20 on sixteen texels (200, 100, 50) / 255, texel 7. *)
Lemma uniform_rgb8_block_within_one_witness :
  (0 <= 200 <= 255 /\ 0 <= 100 <= 255 /\ 0 <= 50 <= 255)
  /\ exists e block,
       compress_dxt1 solid_rgb8 unit_weights unit_channel_weights
                     false false
       = Some (e, block)
       /\ within_one (c32_make 200 100 50 255)
            (decoded_texel (evaluate_palette (col0 block) (col1 block))
                           block 7).
Proof.
  split; [lia|].
  exact (uniform_rgb8_block_within_one solid_rgb8 unit_weights
           unit_channel_weights false false 200 100 50 7
           ltac:(lia) ltac:(lia) ltac:(lia)
           (fun i Hi _ => solid_rgb8_texel i Hi)
           (ex_intro _ O (conj (Nat.lt_0_succ 15)
                               (unit_weights_positive O (Nat.lt_0_succ 15))))
           ltac:(lia)).
Defined.

Lemma compress_dxt1_fast_uniform ic iw cw c :
  (forall i, (i < 16)%nat -> xyz (colorAt ic i) = c) ->
  v3_in_unit c ->
  snd (compress_dxt1_fast ic iw cw)
  = compress_dxt1_single_color_optimal (vector3_to_color32 c).
Proof.
  intros Hall Hc. unfold compress_dxt1_fast.
  rewrite (fit_colors_bbox_uniform _ 16 c); [|lia| |exact Hc].
  - destruct Hc as (Hx & Hy & Hz). unfold v3_eqb.
    destruct (in_unit_bounds _ Hx) as (_ & _ & ->).
    destruct (in_unit_bounds _ Hy) as (_ & _ & ->).
    destruct (in_unit_bounds _ Hz) as (_ & _ & ->).
    reflexivity.
  - intros i Hi. unfold v3At.
    rewrite (nth_indep _ v3_zero (xyz (colorAt ic 0)))
      by (rewrite length_map, length_seq; exact Hi).
    rewrite (map_nth (fun i => xyz (colorAt ic i))), seq_nth by exact Hi.
    apply Hall. lia.
Qed.

(** X21.  If all 16 texels have the same color [c], with every channel
    equal to 0, equal to 1 or strictly between, then the float
    [compress_dxt1_fast] writes the single-color block of
    [vector3_to_color32 c], whatever the weights. *)
Theorem fast_uniform_color_block : forall ic iw cw c,
  (forall i, (i < 16)%nat -> xyz (colorAt ic i) = c) ->
  v3_in_unit c ->
  snd (compress_dxt1_fast ic iw cw)
  = compress_dxt1_single_color_optimal (vector3_to_color32 c).
Proof. intros. now apply compress_dxt1_fast_uniform. Qed.

(** X21 on sixteen texels (200, 100, 50) / 255. *)
Lemma fast_uniform_color_block_witness :
  v3_in_unit (xyz (rgb8 200 100 50))
  /\ snd (compress_dxt1_fast solid_rgb8 unit_weights unit_channel_weights)
     = compress_dxt1_single_color_optimal
         (vector3_to_color32 (xyz (rgb8 200 100 50))).
Proof.
  assert (H : v3_in_unit (xyz (rgb8 200 100 50))).
  { unfold rgb8, v3_in_unit. cbn [xyz x y z].
    repeat split; apply norm8_in_unit; lia. }
  split; [exact H|].
  exact (fast_uniform_color_block solid_rgb8 unit_weights
           unit_channel_weights (xyz (rgb8 200 100 50))
           solid_rgb8_texel H).
Defined.

(** X22.  If all 16 texels of an 8-bit block have the same (r, g, b), the
    8-bit [compress_dxt1_fast] writes the single-color block of (r, g, b),
    and every texel of it decodes to within 1 of (r, g, b) in each
    channel. *)
Theorem fast_u8_uniform_block_within_one : forall rgba r g b i,
  0 <= r <= 255 -> 0 <= g <= 255 -> 0 <= b <= 255 ->
  (forall k, (k < 16)%nat ->
     nth (4 * k) rgba 0 = r /\ nth (4 * k + 1) rgba 0 = g
     /\ nth (4 * k + 2) rgba 0 = b) ->
  (i < 16)%nat ->
  let block := compress_dxt1_fast_u8 rgba in
  block = compress_dxt1_single_color_optimal (c32_make r g b 255)
  /\ within_one (c32_make r g b 255)
       (decoded_texel (evaluate_palette (col0 block) (col1 block)) block i).
Proof.
  intros rgba r g b i Hr Hg Hb Hall Hi block.
  assert (E : block
              = compress_dxt1_single_color_optimal (c32_make r g b 255)).
  { subst block. unfold compress_dxt1_fast_u8.
    assert (Hc : v3_in_unit (mkVector3 (norm8 r) (norm8 g) (norm8 b))).
    { unfold v3_in_unit. cbn [x y z]. auto using norm8_in_unit. }
    rewrite (fit_colors_bbox_uniform _ 16
               (mkVector3 (norm8 r) (norm8 g) (norm8 b)));
      [|lia| |exact Hc].
    - destruct Hc as (Hx & Hy & Hz). unfold v3_eqb.
      destruct (in_unit_bounds _ Hx) as (_ & _ & ->).
      destruct (in_unit_bounds _ Hy) as (_ & _ & ->).
      destruct (in_unit_bounds _ Hz) as (_ & _ & ->).
      cbn [andb]. now rewrite vector3_to_color32_norm8.
    - intros k Hk. unfold v3At.
      set (f := fun i0 : nat => mkVector3 _ _ _).
      rewrite (nth_indep _ v3_zero (f 0%nat))
        by (rewrite length_map, length_seq; exact Hk).
      rewrite (map_nth f), seq_nth by exact Hk. unfold f.
      cbn [Nat.add]. destruct (Hall k Hk) as (-> & -> & ->). reflexivity. }
  split; [exact E|]. rewrite E. now apply single_color_within_one.
Qed.

Lemma solid_rgba_bytes_texel k :
  (k < 16)%nat ->
  nth (4 * k) solid_rgba_bytes 0 = 200
  /\ nth (4 * k + 1) solid_rgba_bytes 0 = 100
  /\ nth (4 * k + 2) solid_rgba_bytes 0 = 50.
Proof.
  intros Hk. do 16 (destruct k as [|k]; [repeat split; reflexivity|]). lia.
Qed.

(** X22 on sixteen texels (200, 100, 50). *)
Lemma fast_u8_uniform_block_within_one_witness :
  (0 <= 200 <= 255 /\ 0 <= 100 <= 255 /\ 0 <= 50 <= 255)
  /\ compress_dxt1_fast_u8 solid_rgba_bytes
     = compress_dxt1_single_color_optimal (c32_make 200 100 50 255).
Proof.
  split; [lia|].
  exact (proj1 (fast_u8_uniform_block_within_one solid_rgba_bytes 200 100 50 3
                  ltac:(lia) ltac:(lia) ltac:(lia)
                  solid_rgba_bytes_texel ltac:(lia))).
Defined.

(** ** Index words *)

Lemma testbit_below_4 a q : 0 <= a < 4 -> 2 <= q -> Z.testbit a q = false.
Proof.
  intros Ha Hq.
  destruct (Z.eq_dec a 0) as [-> | Hne]; [apply Z.testbit_0_l|].
  apply Z.bits_above_log2; [lia|].
  assert (Z.log2 a < 2); [|lia]. apply Z.log2_lt_pow2; lia.
Qed.

Lemma index_word_bits (f : nat -> Z) n :
  (forall i, 0 <= f i < 4) ->
  forall p, 0 <= p ->
    Z.testbit (for_loop n (fun i acc =>
                 Z.lor acc (Z.shiftl (f i) (2 * Z.of_nat i))) 0) p
    = (p / 2 <? Z.of_nat n) && Z.testbit (f (Z.to_nat (p / 2))) (p mod 2).
Proof.
  intros Hf. unfold for_loop.
  induction n as [|n IH]; intros p Hp.
  - cbn [seq fold_left]. rewrite Z.testbit_0_l.
    replace (p / 2 <? Z.of_nat 0) with false; [reflexivity|].
    symmetry. apply Z.ltb_ge. change (Z.of_nat 0) with 0.
    Z.div_mod_to_equations. lia.
  - rewrite seq_S, fold_left_app. cbn [fold_left Nat.add].
    rewrite Z.lor_spec, IH by exact Hp.
    rewrite Z.shiftl_spec by exact Hp.
    destruct (Z.ltb_spec (p / 2) (Z.of_nat n)) as [Hlt | Hge].
    + replace (p / 2 <? Z.of_nat (S n)) with true
        by (symmetry; apply Z.ltb_lt; lia).
      rewrite (Z.testbit_neg_r (f n)) by (Z.div_mod_to_equations; lia).
      now rewrite orb_false_r.
    + cbn [andb orb].
      destruct (Z.eq_dec (p / 2) (Z.of_nat n)) as [Heq | Hne].
      * replace (p / 2 <? Z.of_nat (S n)) with true
          by (symmetry; apply Z.ltb_lt; lia).
        rewrite Heq, Nat2Z.id. cbn [andb]. f_equal.
        Z.div_mod_to_equations. lia.
      * replace (p / 2 <? Z.of_nat (S n)) with false
          by (symmetry; apply Z.ltb_ge; lia).
        cbn [andb]. apply testbit_below_4; [apply Hf|].
        Z.div_mod_to_equations. lia.
Qed.

Lemma index_at_for_loop (f : nat -> Z) k :
  (forall i, 0 <= f i < 4) -> (k < 16)%nat ->
  index_at (for_loop 16 (fun i acc =>
              Z.lor acc (Z.shiftl (f i) (2 * Z.of_nat i))) 0) k
  = Z.to_nat (f k).
Proof.
  intros Hf Hk. unfold index_at. f_equal.
  apply Z.bits_inj'. intros q Hq.
  rewrite Z.land_spec, Z.shiftr_spec by exact Hq.
  rewrite index_word_bits by (try exact Hf; lia).
  destruct (Z.ltb_spec q 2) as [Hlt | Hge].
  - replace ((q + 2 * Z.of_nat k) / 2) with (Z.of_nat k)
      by (Z.div_mod_to_equations; lia).
    replace ((q + 2 * Z.of_nat k) mod 2) with q
      by (Z.div_mod_to_equations; lia).
    rewrite Nat2Z.id.
    replace (Z.of_nat k <? Z.of_nat 16) with true
      by (symmetry; apply Z.ltb_lt; lia).
    assert (Hq3 : Z.testbit 3 q = true).
    { assert (q = 0 \/ q = 1) as [-> | ->] by lia; reflexivity. }
    rewrite Hq3. cbn [andb]. now rewrite andb_true_r.
  - rewrite (testbit_below_4 3 q) by lia.
    rewrite (testbit_below_4 (f k) q) by (try apply Hf; lia).
    now rewrite andb_false_r.
Qed.

(** ** Nearest palette entry *)

Ltac order_step :=
  match goal with
  | H1 : (?a <? ?b)%f32 = true, H2 : (?b <? ?c)%f32 = true |- _ =>
      lazymatch goal with
      | _ : (a <? c)%f32 = true |- _ => fail
      | _ => pose proof (ltb_trans a b c H1 H2)
      end
  | H1 : (?a <? ?b)%f32 = false, H2 : (?b <? ?c)%f32 = false,
    Ha : is_nan ?a = false, Hb : is_nan ?b = false, Hc : is_nan ?c = false
    |- _ =>
      lazymatch goal with
      | _ : (a <? c)%f32 = false |- _ => fail
      | _ => pose proof (ltb_negtrans a b c Ha Hb Hc H1 H2)
      end
  end.

Ltac order_solve :=
  repeat order_step;
  match goal with
  | H : ?c = true, H' : ?c = false |- _ => rewrite H in H'; discriminate H'
  end.

Lemma compute_indices_choice (d0 d1 d2 d3 : float) :
  is_nan d0 = false -> is_nan d1 = false -> is_nan d2 = false ->
  is_nan d3 = false ->
  let d := fun j : nat => nth j [d0; d1; d2; d3] zero in
  let index :=
    if (d0 <? d1)%f32 && (d0 <? d2)%f32 && (d0 <? d3)%f32 then 0
    else if (d1 <? d2)%f32 && (d1 <? d3)%f32 then 1
    else if (d2 <? d3)%f32 then 2
    else 3 in
  0 <= index < 4
  /\ (forall j, (j < 4)%nat -> (d j <? d (Z.to_nat index))%f32 = false)
  /\ (forall j, (Z.to_nat index < j < 4)%nat ->
                (d (Z.to_nat index) <? d j)%f32 = true).
Proof.
  intros N0 N1 N2 N3 d index. subst d index.
  pose proof (ltb_irrefl d0). pose proof (ltb_irrefl d1).
  pose proof (ltb_irrefl d2). pose proof (ltb_irrefl d3).
  destruct (d0 <? d1)%f32 eqn:E01, (d0 <? d2)%f32 eqn:E02,
           (d0 <? d3)%f32 eqn:E03, (d1 <? d2)%f32 eqn:E12,
           (d1 <? d3)%f32 eqn:E13, (d2 <? d3)%f32 eqn:E23;
    cbn [andb].
  all: split; [lia|].
  all: split; intros j Hj.
  all: destruct j as [|[|[|[|j]]]]; [| | | |exfalso; clear -Hj; lia].
  all: change (Z.to_nat 0) with 0%nat in *;
    change (Z.to_nat 1) with 1%nat in *;
    change (Z.to_nat 2) with 2%nat in *;
    change (Z.to_nat 3) with 3%nat in *; cbn [nth].
  all: try (exfalso; clear - Hj; lia).
  all: clear Hj.
  all: try assumption.
  all: match goal with
    | |- ?g = false => destruct g eqn:?; [exfalso | reflexivity]
    | |- ?g = true => destruct g eqn:?; [reflexivity | exfalso]
    end.
  all: order_solve.
Qed.

Lemma compute_indices4_choice (d0 d1 d2 d3 : float) :
  is_nan d0 = false -> is_nan d1 = false -> is_nan d2 = false ->
  is_nan d3 = false ->
  let d := fun j : nat => nth j [d0; d1; d2; d3] zero in
  let b0 := bool_to_Z (d0 >? d3)%f32 in
  let b1 := bool_to_Z (d1 >? d2)%f32 in
  let b2 := bool_to_Z (d0 >? d2)%f32 in
  let b3 := bool_to_Z (d1 >? d3)%f32 in
  let b4 := bool_to_Z (d2 >? d3)%f32 in
  let x0 := Z.land b1 b2 in
  let x1 := Z.land b0 b3 in
  let x2 := Z.land b0 b4 in
  let index := Z.lor x2 (Z.shiftl (Z.lor x0 x1) 1) in
  0 <= index < 4
  /\ (index <> 0 ->
      forall j, (j < 4)%nat -> (d j <? d (Z.to_nat index))%f32 = false).
Proof.
  intros N0 N1 N2 N3 d b0 b1 b2 b3 b4 x0 x1 x2 index.
  subst d b0 b1 b2 b3 b4 x0 x1 x2 index. unfold gtb.
  change SFltb with ltb.
  pose proof (ltb_irrefl d0). pose proof (ltb_irrefl d1).
  pose proof (ltb_irrefl d2). pose proof (ltb_irrefl d3).
  destruct (d3 <? d0)%f32 eqn:E30, (d2 <? d1)%f32 eqn:E21,
           (d2 <? d0)%f32 eqn:E20, (d3 <? d1)%f32 eqn:E31,
           (d3 <? d2)%f32 eqn:E32;
    cbn [bool_to_Z];
    match goal with
    | |- context [Z.lor ?a (Z.shiftl ?b 1)] =>
        let v := eval vm_compute in (Z.lor a (Z.shiftl b 1)) in
        change (Z.lor a (Z.shiftl b 1)) with v
    end.
  all: split; [lia|].
  all: intros Hne j Hj; try (exfalso; clear - Hne; lia); clear Hne.
  all: destruct j as [|[|[|[|j]]]]; [| | | |exfalso; clear -Hj; lia].
  all: clear Hj.
  all: change (Z.to_nat 1) with 1%nat in *;
    change (Z.to_nat 2) with 2%nat in *;
    change (Z.to_nat 3) with 3%nat in *; cbn [nth].
  all: try assumption.
  all: match goal with
    | |- ?g = false => destruct g eqn:?; [exfalso | reflexivity]
    end.
  all: order_solve.
Qed.

Lemma texel_distance_nth palette c w j :
  (j < 4)%nat ->
  nth j [evaluate_mse_v3 (v3At palette 0) c w;
         evaluate_mse_v3 (v3At palette 1) c w;
         evaluate_mse_v3 (v3At palette 2) c w;
         evaluate_mse_v3 (v3At palette 3) c w] zero
  = texel_distance palette c w j.
Proof.
  intros Hj. destruct j as [|[|[|[|j]]]]; try reflexivity. lia.
Qed.

(** X23.  For a texel whose four palette distances are not NaN, the index
    [compute_indices] stores for it selects a palette entry of least
    distance, and among entries of equal distance the one of highest
    index: every later entry is strictly farther. *)
Theorem compute_indices_nearest : forall ic cw palette i,
  (i < 16)%nat ->
  let d := texel_distance palette (xyz (colorAt ic i)) cw in
  (forall j, (j < 4)%nat -> is_nan (d j) = false) ->
  let idx := index_at (compute_indices ic cw palette) i in
  (idx < 4)%nat
  /\ (forall j, (j < 4)%nat -> (d j <? d idx)%f32 = false)
  /\ (forall j, (idx < j < 4)%nat -> (d idx <? d j)%f32 = true).
Proof.
  intros ic cw palette i Hi d Hnan idx. subst idx.
  unfold compute_indices, palette_distances. cbv beta iota zeta.
  rewrite index_at_for_loop;
    [|intros k; repeat match goal with
                       | |- context [if ?c then _ else _] => destruct c
                       end; lia
     |exact Hi].
  pose proof (compute_indices_choice
                (d 0%nat) (d 1%nat) (d 2%nat) (d 3%nat)
                (Hnan 0%nat ltac:(lia)) (Hnan 1%nat ltac:(lia))
                (Hnan 2%nat ltac:(lia)) (Hnan 3%nat ltac:(lia))) as H.
  cbv zeta in H. subst d. unfold texel_distance in H.
  destruct H as (Hr & Hmin & Htie).
  match goal with |- context [Z.to_nat ?e] => set (index := e) in * end.
  clearbody index.
  assert (Hidx : (Z.to_nat index < 4)%nat) by lia.
  split; [exact Hidx|]. split.
  - intros j Hj. specialize (Hmin j Hj).
    now rewrite !texel_distance_nth in Hmin by assumption.
  - intros j Hj. specialize (Htie j Hj).
    now rewrite !texel_distance_nth in Htie by lia.
Qed.

Lemma three_tone_distances_not_nan (c0 c1 : Z) i j :
  In (c0, c1) [(0xFFFF, 0x8410); (0x8410, 0xFFFF)] ->
  (i < 16)%nat -> (j < 4)%nat ->
  is_nan (texel_distance (evaluate_palette_v3 c0 c1)
            (xyz (colorAt three_tone_block i)) unit_channel_weights j)
  = false.
Proof.
  intros [H | [H | []]] Hi Hj; injection H as <- <-;
    do 16 (destruct i as [|i];
           [do 4 (destruct j as [|j]; [vm_compute; reflexivity|]); lia|]);
    lia.
Qed.

(** X23 on texel 11 of the three-tone block. *)
Lemma compute_indices_nearest_witness :
  (11 < 16)%nat
  /\ Nat.lt (index_at (compute_indices three_tone_block unit_channel_weights
                         (evaluate_palette_v3 0x8410 0xFFFF)) 11) 4.
Proof.
  split; [lia|].
  exact (proj1 (compute_indices_nearest three_tone_block
                  unit_channel_weights (evaluate_palette_v3 0x8410 0xFFFF) 11
                  ltac:(lia)
                  (fun j Hj => three_tone_distances_not_nan 0x8410 0xFFFF 11 j
                                 (or_intror (or_introl eq_refl))
                                 ltac:(lia) Hj))).
Defined.

(** X24.  For a texel whose four palette distances are not NaN, an index
    other than 0 stored by [compute_indices4] selects a palette entry of
    least distance (index 0 is what the comparison network falls back
    to). *)
Theorem compute_indices4_nearest_unless_zero : forall ic cw palette i,
  (i < 16)%nat ->
  let d := texel_distance palette (xyz (colorAt ic i)) cw in
  (forall j, (j < 4)%nat -> is_nan (d j) = false) ->
  let idx := index_at (compute_indices4 ic cw palette) i in
  (idx < 4)%nat
  /\ (idx <> 0%nat -> forall j, (j < 4)%nat -> (d j <? d idx)%f32 = false).
Proof.
  intros ic cw palette i Hi d Hnan idx. subst idx.
  unfold compute_indices4, palette_distances. cbv beta iota zeta.
  pose proof (compute_indices4_choice
                (d 0%nat) (d 1%nat) (d 2%nat) (d 3%nat)
                (Hnan 0%nat ltac:(lia)) (Hnan 1%nat ltac:(lia))
                (Hnan 2%nat ltac:(lia)) (Hnan 3%nat ltac:(lia))) as H.
  cbv zeta in H. subst d. unfold texel_distance in H.
  destruct H as (Hr & Hmin).
  rewrite index_at_for_loop; [|intros k|exact Hi].
  - match goal with |- context [Z.to_nat ?e] => set (index := e) in * end.
    clearbody index.
    split; [lia|]. intros Hne j Hj.
    assert (Hne' : index <> 0) by lia.
    specialize (Hmin Hne' j Hj).
    now rewrite !texel_distance_nth in Hmin by (assumption || lia).
  - clear Hr Hmin Hnan. unfold gtb. change SFltb with ltb.
    repeat match goal with
           | |- context [bool_to_Z (ltb ?a ?b)] => destruct (ltb a b)
           end; cbn; lia.
Qed.

(** X24 on texel 11 of the three-tone block. *)
Lemma compute_indices4_nearest_unless_zero_witness :
  (11 < 16)%nat
  /\ Nat.lt (index_at (compute_indices4 three_tone_block unit_channel_weights
                         (evaluate_palette_v3 0xFFFF 0x8410)) 11) 4.
Proof.
  split; [lia|].
  exact (proj1 (compute_indices4_nearest_unless_zero three_tone_block
                  unit_channel_weights (evaluate_palette_v3 0xFFFF 0x8410) 11
                  ltac:(lia)
                  (fun j Hj => three_tone_distances_not_nan 0xFFFF 0x8410 11 j
                                 (or_introl eq_refl) ltac:(lia) Hj))).
Defined.

(** ** The vectorised search of the cluster fit *)

Lemma ltb_not_nan_l a b : (a <? b)%f32 = true -> is_nan a = false.
Proof. destruct a; try reflexivity. discriminate. Qed.

Lemma ltb_nan_l a b : is_nan a = true -> (a <? b)%f32 = false.
Proof. destruct a; try discriminate. reflexivity. Qed.

Lemma ltb_lower a b c :
  (c <? b)%f32 = false -> (a <? b)%f32 = true -> (c <? a)%f32 = false.
Proof.
  intros Hcb Hab. destruct (c <? a)%f32 eqn:E; [|reflexivity].
  pose proof (ltb_trans _ _ _ E Hab). congruence.
Qed.

Lemma nth_map_combine_seq {A B} (f : nat * A -> B) (l : list A) n i dA dB :
  length l = n -> (i < n)%nat ->
  nth i (map f (combine (seq 0 n) l)) dB = f (i, nth i l dA).
Proof.
  intros Hl Hi.
  rewrite (nth_indep _ dB (f (O, dA)))
    by (rewrite length_map, length_combine, length_seq; lia).
  rewrite (map_nth f), combine_nth by (rewrite length_seq; lia).
  now rewrite seq_nth by exact Hi.
Qed.

Section ClusterFit.

Variable candidate : Combinations -> Lane.

Variable table : list Combinations.

Lemma lanes_after_inv K :
  length (lanes_after candidate table K) = 16%nat
  /\ forall l, (l < 16)%nat ->
       lane_inv candidate table K l
         (nth l (lanes_after candidate table K) init_lane).
Proof.
  unfold lanes_after.
  apply (for_loop_invariant_indexed
    (fun K lanes => length lanes = 16%nat
       /\ forall l, (l < 16)%nat ->
            lane_inv candidate table K l (nth l lanes init_lane))).
  - split; [reflexivity|]. intros l Hl.
    rewrite nth_repeat_lt by exact Hl. split; [now left | intros k Hk; lia].
  - intros k lanes _ [Hlen Hinv]. split.
    + rewrite length_map, length_combine, length_seq. lia.
    + intros l Hl.
      rewrite (nth_map_combine_seq _ lanes 16 l init_lane) by assumption.
      destruct (Hinv l Hl) as [Hbest Hmin].
      set (best := nth l lanes init_lane) in *. clearbody best.
      fold (table_entry candidate table (k * 16 + l)). unfold keep_if_wins.
      fold (entry_error candidate table (k * 16 + l)).
      destruct (entry_error candidate table (k * 16 + l)
                <? lane_error best)%f32 eqn:E.
      * split.
        -- right. exists k. split; [lia|]. split; [reflexivity|].
           fold (entry_error candidate table (k * 16 + l)).
           destruct Hbest as [-> | (k0 & _ & _ & Hlt)];
             [exact E | exact (ltb_trans _ _ _ E Hlt)].
        -- intros k' Hk'. fold (entry_error candidate table (k * 16 + l)).
           destruct (Nat.eq_dec k' k) as [-> | Hne];
             [apply ltb_irrefl|].
           apply ltb_lower with (b := lane_error best); [|exact E].
           apply Hmin. lia.
      * split.
        -- destruct Hbest as [-> | (k0 & Hk0 & Hb & Hlt)]; [now left|].
           right. exists k0. split; [lia|]. now split.
        -- intros k' Hk'.
           destruct (Nat.eq_dec k' k) as [-> | Hne]; [exact E|].
           apply Hmin. lia.
Qed.

Lemma lane_inv_not_nan K l best :
  lane_inv candidate table K l best -> is_nan (lane_error best) = false.
Proof.
  intros [[-> | (k & _ & _ & H)] _]; [reflexivity|].
  exact (ltb_not_nan_l _ _ H).
Qed.

Lemma reduction_inv lanes :
  reduce_inv_lanes lanes 16
    (for_loop 16
       (fun i '(besterror, bestindex) =>
          let e := lane_error (nth i lanes init_lane) in
          if (e <? besterror)%f32 then (e, Some i)
          else (besterror, bestindex))
       (FLT_MAX, None)).
Proof.
  apply (for_loop_invariant_indexed (reduce_inv_lanes lanes)).
  - split; [intros l Hl; lia | reflexivity].
  - intros i [be bi] _ [Hmin Hbest]. cbn [fst snd] in *. cbv zeta.
    destruct (lane_error (nth i lanes init_lane) <? be)%f32 eqn:E;
      split; cbn [fst snd].
    + intros l Hl. destruct (Nat.eq_dec l i) as [-> | Hne];
        [apply ltb_irrefl|].
      apply ltb_lower with (b := be); [apply Hmin; lia | exact E].
    + split; [lia|]. split; [reflexivity|].
      destruct bi as [bi|];
        [destruct Hbest as (_ & _ & Hlt); exact (ltb_trans _ _ _ E Hlt)
        | rewrite Hbest in E; exact E].
    + intros l Hl. destruct (Nat.eq_dec l i) as [-> | Hne]; [exact E|].
      apply Hmin. lia.
    + destruct bi as [bi|]; [|exact Hbest].
      destruct Hbest as (Hbi & Hb & Hlt). split; [lia|]. now split.
Qed.

(** The two outcomes of the search: no evaluated entry has an error below
    [FLT_MAX] and [bestindex] is never assigned, or the endpoints of an
    evaluated entry of least error are returned. *)
Lemma cluster_fit_cases total :
  (cluster_fit candidate table total = None
   /\ forall j, (j < tested total)%nat ->
        (entry_error candidate table j <? FLT_MAX)%f32 = false)
  \/ exists j, (j < tested total)%nat
       /\ cluster_fit candidate table total
          = Some (lane_start (table_entry candidate table j),
                  lane_end (table_entry candidate table j))
       /\ (entry_error candidate table j <? FLT_MAX)%f32 = true
       /\ forall k, (k < tested total)%nat ->
            (entry_error candidate table k
             <? entry_error candidate table j)%f32 = false.
Proof.
  unfold cluster_fit, tested, VEC_SIZE in *.
  set (iterations := ((total + (16 - 1)) / 16)%nat) in *.
  clearbody iterations.
  fold init_lane. fold (lanes_after candidate table iterations).
  destruct (lanes_after_inv iterations) as [Hlen Hlanes].
  pose proof (reduction_inv (lanes_after candidate table iterations))
    as Hred.
  set (lanes := lanes_after candidate table iterations) in *.
  clearbody lanes.
  destruct (for_loop 16 _ (FLT_MAX, None)) as [be bi].
  destruct Hred as [Hmin Hbest]. cbn [fst snd] in *.
  assert (Hsplit : forall j, (j < iterations * 16)%nat ->
            (j / 16 < iterations)%nat /\ (j mod 16 < 16)%nat
            /\ j = (j / 16 * 16 + j mod 16)%nat).
  { intros j Hj. pose proof (Nat.div_mod_eq j 16).
    pose proof (Nat.mod_upper_bound j 16 ltac:(lia)).
    repeat split; lia. }
  assert (Hall : forall j, (j < iterations * 16)%nat ->
            (entry_error candidate table j <? be)%f32 = false).
  { intros j Hj. destruct (Hsplit j Hj) as (Hq & Hr & Hj').
    destruct (Hlanes _ Hr) as [Hb Hm].
    pose proof (Hm _ Hq) as H1. rewrite <- Hj' in H1.
    pose proof (Hmin _ Hr) as H2.
    destruct (is_nan (entry_error candidate table j)) eqn:Hn;
      [now apply ltb_nan_l|].
    apply ltb_negtrans
      with (b := lane_error (nth (j mod 16) lanes init_lane));
      try assumption.
    - exact (lane_inv_not_nan _ _ _ (Hlanes _ Hr)).
    - destruct bi as [bi|];
        [destruct Hbest as (_ & _ & H); exact (ltb_not_nan_l _ _ H)
        | rewrite Hbest; reflexivity]. }
  destruct bi as [bi|].
  - right. destruct Hbest as (Hbi & Hbe & Hlt).
    destruct (Hlanes bi Hbi) as [[Hinit | (k & Hk & Hb & _)] _].
    + rewrite Hbe, Hinit in Hlt. cbn [lane_error init_lane] in Hlt.
      now rewrite ltb_irrefl in Hlt.
    + exists (k * 16 + bi)%nat.
      assert (E : entry_error candidate table (k * 16 + bi) = be)
        by (unfold entry_error; rewrite <- Hb; symmetry; exact Hbe).
      split; [nia|]. split; [now rewrite Hb|]. rewrite E.
      split; [exact Hlt | exact Hall].
  - left. split; [reflexivity|]. rewrite <- Hbest. exact Hall.
Qed.

Lemma cluster_fit_minimum total :
  (exists j, (j < tested total)%nat
             /\ (entry_error candidate table j <? FLT_MAX)%f32 = true) ->
  exists j, (j < tested total)%nat
    /\ cluster_fit candidate table total
       = Some (lane_start (table_entry candidate table j),
               lane_end (table_entry candidate table j))
    /\ (entry_error candidate table j <? FLT_MAX)%f32 = true
    /\ forall k, (k < tested total)%nat ->
         (entry_error candidate table k <? entry_error candidate table j)%f32
         = false.
Proof.
  intros (j0 & Hj0 & Hlt0).
  destruct (cluster_fit_cases total) as [[_ Hall] | H]; [|exact H].
  rewrite (Hall j0 Hj0) in Hlt0. discriminate.
Qed.

(** The search reads [bestindex] unassigned exactly when no evaluated entry
    has an error below [FLT_MAX]. *)
Lemma cluster_fit_none_iff total :
  cluster_fit candidate table total = None
  <-> forall j, (j < tested total)%nat ->
        (entry_error candidate table j <? FLT_MAX)%f32 = false.
Proof.
  destruct (cluster_fit_cases total)
    as [[Hn Hall] | (j & Hj & Hfit & Hlt & _)].
  - split; auto.
  - split; intros H.
    + rewrite H in Hfit. discriminate.
    + rewrite (H j Hj) in Hlt. discriminate.
Qed.

End ClusterFit.

(** X25.  The vectorised search shared by [cluster_fit_three] and
    [cluster_fit_four] evaluates the table entries up to the total rounded
    up to a multiple of 16; if one of them has an error below [FLT_MAX],
    the search returns, and the endpoints returned are those of an evaluated
    entry whose error is below [FLT_MAX] and which no evaluated entry
    undercuts. *)
Theorem cluster_fit_selects_minimum : forall candidate table total,
  (exists j, (j < tested total)%nat
             /\ (entry_error candidate table j <? FLT_MAX)%f32 = true) ->
  exists j, (j < tested total)%nat
    /\ cluster_fit candidate table total
       = Some (lane_start (table_entry candidate table j),
               lane_end (table_entry candidate table j))
    /\ (entry_error candidate table j <? FLT_MAX)%f32 = true
    /\ forall k, (k < tested total)%nat ->
         (entry_error candidate table k <? entry_error candidate table j)%f32
         = false.
Proof.
  intros candidate table total H.
  exact (cluster_fit_minimum candidate table total H).
Qed.

(** X25 on the four-cluster fit of black and white. *)
Lemma cluster_fit_selects_minimum_witness :
  (entry_error (four_candidate black_white_sat 2 unit_channel_weights)
               s_fourCluster 0 <? FLT_MAX)%f32 = true
  /\ exists j, (j < tested (nth 1 s_fourClusterTotal O))%nat
       /\ cluster_fit_four black_white_sat 2 unit_channel_weights
          = Some (lane_start (table_entry
                                (four_candidate black_white_sat 2
                                                unit_channel_weights)
                                s_fourCluster j),
                  lane_end (table_entry
                              (four_candidate black_white_sat 2
                                              unit_channel_weights)
                              s_fourCluster j)).
Proof.
  assert (H : (entry_error
                 (four_candidate black_white_sat 2 unit_channel_weights)
                 s_fourCluster 0 <? FLT_MAX)%f32 = true)
    by (vm_compute; reflexivity).
  assert (H0 : (0 < tested (nth 1 s_fourClusterTotal O))%nat)
    by (vm_compute; lia).
  split; [exact H|].
  destruct (cluster_fit_selects_minimum
              (four_candidate black_white_sat 2 unit_channel_weights)
              s_fourCluster (nth 1 s_fourClusterTotal O)
              (ex_intro _ O (conj H0 H)))
    as (j & Hj & Hfit & _).
  exists j. split; [exact Hj | exact Hfit].
Defined.

(** A texel with NaN channels and weight 1 makes the error of every
    candidate NaN: no comparison with [FLT_MAX] holds, and the four-cluster
    fit reads [bestindex] unassigned. *)
Example nan_texel_undefined :
  r_count (reduce_colors nan_corner unit_weights 16) = 2%nat
  /\ compress_dxt1 nan_corner unit_weights unit_channel_weights false false
     = None.
Proof. split; vm_compute; reflexivity. Qed.

(** ** The insertion sort of [compute_sat] *)

Lemma length_upd {A} (l : list A) i v : length (upd l i v) = length l.
Proof.
  revert i; induction l as [|a l IH]; intros [|i]; cbn [upd length]; auto.
Qed.

Lemma nth_upd {A} (l : list A) i v m d :
  nth m (upd l i v) d
  = if Nat.eqb m i && Nat.ltb i (length l) then v else nth m l d.
Proof.
  revert i m; induction l as [|a l IH]; intros i m.
  - destruct i; cbn [upd length]; change (Nat.ltb _ 0) with false;
      now rewrite andb_false_r.
  - destruct i as [|i], m as [|m]; cbn [upd nth length]; try reflexivity.
    rewrite IH. reflexivity.
Qed.

Lemma length_swap_at {A} (d : A) l i j : length (swap_at d l i j) = length l.
Proof. unfold swap_at. now rewrite !length_upd. Qed.

Lemma nth_swap_at {A} (d : A) l j m :
  (S j < length l)%nat ->
  nth m (swap_at d l (S j) j) d
  = if Nat.eqb m j then nth (S j) l d
    else if Nat.eqb m (S j) then nth j l d else nth m l d.
Proof.
  intros Hj. unfold swap_at. rewrite !nth_upd, !length_upd.
  replace (Nat.ltb j (length l)) with true
    by (symmetry; apply Nat.ltb_lt; lia).
  replace (Nat.ltb (S j) (length l)) with true
    by (symmetry; apply Nat.ltb_lt; lia).
  now rewrite !andb_true_r.
Qed.

Lemma swap_at_adjacent_perm {A} (d : A) l j :
  (S j < length l)%nat -> Permutation l (swap_at d l (S j) j).
Proof.
  revert l; induction j as [|j IH]; intros l Hj.
  - destruct l as [|a [|b l]]; cbn [length] in Hj; try lia.
    unfold swap_at. cbn [upd nth]. apply perm_swap.
  - destruct l as [|a l]; cbn [length] in Hj; try lia.
    specialize (IH l ltac:(lia)).
    unfold swap_at in *. cbn [upd nth]. now apply perm_skip.
Qed.

Lemma upd_map {A B} (f : A -> B) l i v :
  map f (upd l i v) = upd (map f l) i (f v).
Proof.
  revert i; induction l as [|a l IH]; intros [|i]; cbn [upd map];
    try reflexivity.
  now rewrite IH.
Qed.

Lemma swap_at_map {A B} (f : A -> B) dA dB l i j :
  (i < length l)%nat -> (j < length l)%nat ->
  swap_at dB (map f l) i j = map f (swap_at dA l i j).
Proof.
  intros Hi Hj. unfold swap_at. rewrite !upd_map.
  rewrite (nth_indep (map f l) dB (f dA)) by (rewrite length_map; lia).
  rewrite (nth_indep (map f l) dB (f dA)) by (rewrite length_map; lia).
  now rewrite !map_nth.
Qed.

Lemma sort_inner_inv (key : nat -> float) i :
  forall j order,
    (j <= i)%nat -> (i < length order)%nat ->
    moving i j (map key order) ->
    let st := sort_inner j (map key order, order) in
    Permutation order (snd st) /\ fst st = map key (snd st)
    /\ no_inversion (S i) (fst st).
Proof.
  induction j as [|j IH]; intros order Hj Hi Hm; cbn [sort_inner].
  - split; [reflexivity|]. split; [reflexivity|].
    intros m Hlt. destruct m as [|m].
    + destruct (Nat.eq_dec i 0) as [-> | Hne]; [lia|].
      apply ltb_asym. apply (moving_next _ _ _ Hm). lia.
    + apply (moving_rest _ _ _ Hm); lia.
  - destruct (floatAt (map key order) (S j) <? floatAt (map key order) j)%f32
      eqn:E.
    + rewrite (swap_at_map key O zero) by lia.
      assert (Hlen : length (swap_at O order (S j) j) = length order)
        by apply length_swap_at.
      destruct (IH (swap_at O order (S j) j)) as (Hp & Hk & Hs);
        [lia | lia | | ].
      * rewrite <- (swap_at_map key O zero) by lia.
        assert (Hl : (S j < length (map key order))%nat)
          by (rewrite length_map; lia).
        constructor.
        -- intros m Hmi Hne1 Hne2. unfold floatAt.
           rewrite !(nth_swap_at zero) by exact Hl.
           repeat match goal with
                  | |- context [Nat.eqb ?a ?b] => destruct (Nat.eqb_spec a b)
                  end; try lia.
           ++ subst m. apply (moving_around _ _ _ Hm j eq_refl). lia.
           ++ apply (moving_rest _ _ _ Hm); lia.
        -- intros _. unfold floatAt.
           rewrite !(nth_swap_at zero) by exact Hl.
           repeat match goal with
                  | |- context [Nat.eqb ?a ?b] => destruct (Nat.eqb_spec a b)
                  end; try lia.
           exact E.
        -- intros j' -> _. unfold floatAt.
           rewrite !(nth_swap_at zero) by exact Hl.
           repeat match goal with
                  | |- context [Nat.eqb ?a ?b] => destruct (Nat.eqb_spec a b)
                  end; try lia.
           apply (moving_rest _ _ _ Hm); lia.
      * split; [|split; assumption].
        eapply perm_trans; [|exact Hp]. apply swap_at_adjacent_perm. lia.
    + cbn [fst snd]. split; [reflexivity|]. split; [reflexivity|].
      intros m Hlt.
      destruct (Nat.eq_dec (S m) (S j)) as [Heq | Hne].
      * injection Heq as ->. exact E.
      * destruct (Nat.eq_dec m (S j)) as [-> | Hne2].
        -- apply ltb_asym. apply (moving_next _ _ _ Hm). lia.
        -- apply (moving_rest _ _ _ Hm); lia.
Qed.

Lemma sort_loop_inv (key : nat -> float) order0 n :
  (n <= length order0)%nat ->
  let st := for_loop n sort_inner (map key order0, order0) in
  Permutation order0 (snd st) /\ fst st = map key (snd st)
  /\ no_inversion n (fst st).
Proof.
  intros Hn.
  apply (for_loop_invariant_indexed
    (fun n (st : list float * list nat) =>
       (n <= length order0)%nat ->
       Permutation order0 (snd st) /\ fst st = map key (snd st)
       /\ no_inversion n (fst st))); [| |exact Hn].
  - intros _. cbn [fst snd]. split; [reflexivity|]. split; [reflexivity|].
    intros m Hm. lia.
  - intros i [dps order] Hi IH Hle. cbn [fst snd] in IH.
    destruct IH as (Hp & -> & Hs); [lia|].
    assert (Hlen : length order = length order0)
      by (symmetry; now apply Permutation_length).
    destruct (sort_inner_inv key i i order) as (Hp' & Hk' & Hs');
      [lia | lia | | ].
    + constructor.
      * intros m Hmi Hne1 Hne2. apply Hs. lia.
      * intros Hlt. lia.
      * intros j' _ Hlt. lia.
    + split; [|split; assumption]. eapply perm_trans; eassumption.
Qed.

(** X26.  The insertion sort of [compute_sat], run on keys computed from
    [order], permutes [order], keeps [dps] the keys of [order], and leaves
    no adjacent pair with the later key strictly smaller (also when keys
    are NaN). *)
Theorem sort_loop_sorts : forall (key : nat -> float) order,
  let st := for_loop (length order) sort_inner (map key order, order) in
  Permutation order (snd st)
  /\ fst st = map key (snd st)
  /\ forall m, (S m < length order)%nat ->
       (floatAt (fst st) (S m) <? floatAt (fst st) m)%f32 = false.
Proof.
  intros key order. apply sort_loop_inv. lia.
Qed.

(** ** The summed-area table *)

Lemma running_append {St : Type} (term : nat -> float)
    (proj : St -> list float) (body : nat -> St -> St) s0 n :
  proj s0 = [term O] ->
  (forall k s, proj (body k s)
               = proj s ++ [(floatAt (proj s) k + term (S k))%f32]) ->
  length (proj (for_loop n body s0)) = S n
  /\ floatAt (proj (for_loop n body s0)) 0 = term O
  /\ forall i, (S i <= n)%nat ->
       floatAt (proj (for_loop n body s0)) (S i)
       = (floatAt (proj (for_loop n body s0)) i + term (S i))%f32.
Proof.
  intros H0 Hstep.
  apply (for_loop_invariant_indexed
    (fun n s => length (proj s) = S n
       /\ floatAt (proj s) 0 = term O
       /\ forall i, (S i <= n)%nat ->
            floatAt (proj s) (S i) = (floatAt (proj s) i + term (S i))%f32)).
  - rewrite H0. split; [reflexivity|]. split; [reflexivity|].
    intros i Hi. lia.
  - intros k s _ (Hlen & Hfirst & Hnext). rewrite Hstep. unfold floatAt in *.
    split; [rewrite length_app; cbn [length]; lia|].
    split; [rewrite app_nth1 by lia; exact Hfirst|].
    intros i Hi. destruct (Nat.eq_dec i k) as [-> | Hne].
    + rewrite app_nth2 by lia. rewrite app_nth1 by lia.
      replace (S k - length (proj s))%nat with O by lia. reflexivity.
    + rewrite !app_nth1 by lia. apply Hnext. lia.
Qed.

Lemma pad_running count term l :
  (1 <= count <= 16)%nat ->
  length l = count ->
  floatAt l 0 = term O ->
  (forall i, (S i < count)%nat ->
     floatAt l (S i) = (floatAt l i + term (S i))%f32) ->
  running_sums count term (firstn 16 (l ++ repeat FLT_MAX 16)).
Proof.
  intros Hc Hlen Hfirst Hnext.
  assert (Hnth : forall i, (i < 16)%nat ->
            floatAt (firstn 16 (l ++ repeat FLT_MAX 16)) i
            = if Nat.ltb i count then floatAt l i else FLT_MAX).
  { intros i Hi. unfold floatAt. rewrite nth_firstn.
    replace (Nat.ltb i 16) with true by (symmetry; apply Nat.ltb_lt; lia).
    destruct (Nat.ltb_spec i count).
    - now rewrite app_nth1 by lia.
    - rewrite app_nth2 by lia. apply nth_repeat_lt. lia. }
  constructor.
  - rewrite length_firstn, length_app, repeat_length. lia.
  - rewrite Hnth by lia.
    replace (Nat.ltb 0 count) with true by (symmetry; apply Nat.ltb_lt; lia).
    exact Hfirst.
  - intros i Hi. rewrite !Hnth by lia.
    replace (Nat.ltb (S i) count) with true
      by (symmetry; apply Nat.ltb_lt; lia).
    replace (Nat.ltb i count) with true by (symmetry; apply Nat.ltb_lt; lia).
    now apply Hnext.
  - intros i Hi. rewrite Hnth by lia.
    replace (Nat.ltb i count) with false by (symmetry; apply Nat.ltb_ge; lia).
    reflexivity.
Qed.

(** X27.  For 1 <= count <= 16, [compute_sat] returns [count] and four
    16-entry arrays: for a permutation [order] of 0 .. count - 1 with no
    adjacent pair out of order along the principal axis, the first [count]
    entries of each array are the running sums of the weighted channel
    (of the weight, for [w]) in that order, and the entries from [count]
    on are [FLT_MAX]. *)
Theorem compute_sat_table : forall colors weights count,
  (1 <= count <= 16)%nat ->
  let principal := computePrincipalComponent_PowerMethod count colors weights in
  let key := fun i => dot (v3At colors i) principal in
  let sat := snd (compute_sat colors weights count) in
  fst (compute_sat colors weights count) = count
  /\ exists order,
       Permutation (seq 0 count) order
       /\ (forall m, (S m < count)%nat ->
             (key (nth (S m) order O) <? key (nth m order O))%f32 = false)
       /\ running_sums count
            (fun i => x (fst (sat_term colors weights order i))) (sat_r sat)
       /\ running_sums count
            (fun i => y (fst (sat_term colors weights order i))) (sat_g sat)
       /\ running_sums count
            (fun i => z (fst (sat_term colors weights order i))) (sat_b sat)
       /\ running_sums count
            (fun i => snd (sat_term colors weights order i)) (sat_w sat).
Proof.
  intros colors weights count Hc principal key sat. subst sat.
  unfold compute_sat. fold principal. cbv zeta.
  pose proof (sort_loop_inv key (seq 0 count) count) as Hsort.
  rewrite length_seq in Hsort. specialize (Hsort (le_n _)). cbv zeta in Hsort.
  change (map (fun i => dot (v3At colors i) principal) (seq 0 count))
    with (map key (seq 0 count)).
  destruct (for_loop count sort_inner (map key (seq 0 count), seq 0 count))
    as [dps order].
  cbn [fst snd] in *. destruct Hsort as (Hperm & Hdps & Hinv).
  split; [reflexivity|]. exists order.
  assert (Hlen : length order = count)
    by (rewrite <- (Permutation_length Hperm); apply length_seq).
  split; [exact Hperm|]. split.
  { intros m Hm. specialize (Hinv m Hm). rewrite Hdps in Hinv.
    unfold floatAt in Hinv.
    rewrite !(nth_indep (map key order) zero (key O)) in Hinv
      by (rewrite length_map; lia).
    now rewrite !map_nth in Hinv. }
  match goal with
  | |- context [for_loop (count - 1) ?b ?f] =>
      set (body := b); set (first := f)
  end.
  assert (Hr := running_append
            (fun i => x (fst (sat_term colors weights order i)))
            sat_r body first (count - 1) eq_refl (fun k s => eq_refl)).
  assert (Hg := running_append
            (fun i => y (fst (sat_term colors weights order i)))
            sat_g body first (count - 1) eq_refl (fun k s => eq_refl)).
  assert (Hb := running_append
            (fun i => z (fst (sat_term colors weights order i)))
            sat_b body first (count - 1) eq_refl (fun k s => eq_refl)).
  assert (Hw := running_append
            (fun i => snd (sat_term colors weights order i))
            sat_w body first (count - 1) eq_refl (fun k s => eq_refl)).
  set (sums := for_loop (count - 1) body first) in *. clearbody sums.
  cbn [sat_r sat_g sat_b sat_w].
  destruct Hr as (Hr1 & Hr2 & Hr3), Hg as (Hg1 & Hg2 & Hg3),
           Hb as (Hb1 & Hb2 & Hb3), Hw as (Hw1 & Hw2 & Hw3).
  split; [|split; [|split]]; apply pad_running; try assumption; try lia;
    intros i Hi; auto with zarith.
Qed.

(** X27 on black and white. *)
Lemma compute_sat_table_witness :
  (1 <= 2 <= 16)%nat
  /\ fst (compute_sat black_white two_weights 2) = 2%nat.
Proof.
  split; [lia|].
  exact (proj1 (compute_sat_table black_white two_weights 2 ltac:(lia))).
Defined.

(** ** Three-color blocks *)

(** X28.  [output_block3] always writes col0.u <= col1.u, so the block
    decodes in 3-color mode: entry 3 of its palette is the all-zero color
    (transparent black). *)
Theorem output_block3_three_color_mode : forall ic cw v0 v1,
  let block := output_block3 ic cw v0 v1 in
  col0 block <= col1 block
  /\ paletteAt (evaluate_palette (col0 block) (col1 block)) 3 = 0.
Proof.
  intros ic cw v0 v1 block. subst block. unfold output_block3.
  destruct (Z.gtb_spec (vector3_to_color16 v0) (vector3_to_color16 v1));
    cbn [col0 col1]; (split; [lia|]);
    unfold evaluate_palette, evaluate_palette_d3d10;
    match goal with
    | |- context [if ?a >? ?b then _ else _] =>
        replace (a >? b) with false
          by (symmetry; rewrite Z.gtb_ltb; apply Z.ltb_ge; lia)
    end; reflexivity.
Qed.

(** ** Enabling the 3-color mode *)

Lemma cluster_fit_three_color_error ic iw colors weights count cw utb e3 b3 :
  compress_dxt1_cluster_fit ic iw colors weights count cw true utb
  = Some (e3, b3) ->
  exists e4 b4,
    compress_dxt1_cluster_fit ic iw colors weights count cw false utb
    = Some (e4, b4)
    /\ ((e3, b3) = (e4, b4) \/ (e3 <? e4)%f32 = true).
Proof.
  unfold compress_dxt1_cluster_fit.
  destruct (compute_sat colors weights count) as [sat_count sat].
  destruct (cluster_fit_four sat sat_count _) as [[start end_]|];
    [|discriminate].
  set (e4' := evaluate_mse ic iw cw (output_block4 ic cw start end_)).
  intros H. exists e4', (output_block4 ic cw start end_).
  split; [reflexivity|]. revert H.
  destruct (skip_blacks colors weights count) as [tc tw].
  destruct (utb && _); [intros H; injection H as <- <-; now left|].
  destruct (if utb then _ else _) as [sc s].
  destruct (cluster_fit_three s sc _) as [[s3 e3']|]; [|discriminate].
  set (e3'' := evaluate_mse ic iw cw (output_block3 ic cw s3 e3')).
  clearbody e3'' e4'.
  destruct (e3'' <? e4')%f32 eqn:E; intros H; injection H as <- <-;
    [right; exact E | now left].
Qed.

(** X29.  Without [hq], whenever [compress_dxt1] returns with
    [three_color_mode] set, it returns without it too, and the error
    returned with [three_color_mode] set is less than, or the very same
    value as, the error returned without: the 3-color fit only replaces the
    4-color one on a strictly smaller error. *)
Theorem three_color_mode_error_monotone : forall ic iw cw e3 b3,
  compress_dxt1 ic iw cw true false = Some (e3, b3) ->
  exists e4 b4,
    compress_dxt1 ic iw cw false false = Some (e4, b4)
    /\ le_or_same e3 e4.
Proof.
  intros ic iw cw e3 b3. unfold compress_dxt1.
  destruct (r_count (reduce_colors ic iw 16)) as [|[|n]];
    try (intros H; injection H as <- <-; eexists _, _;
         split; [reflexivity | apply le_or_same_refl]).
  set (count := S (S n)).
  destruct (select_diagonal _ count _) as [c0 c1].
  destruct (match optimize_end_points4 _ ic 16 with
            | Some _ => _ | None => _ end) as [error output].
  destruct (compress_dxt1_cluster_fit _ _ _ _ _ _ true _) as [[e3' b3']|]
    eqn:H3; [|discriminate].
  apply cluster_fit_three_color_error in H3.
  destruct H3 as (e4 & b4 & -> & H).
  destruct H as [H | H].
  - injection H as -> ->. intros H. eexists _, _. split; [exact H|].
    apply le_or_same_refl.
  - destruct (e4 <? error)%f32 eqn:E4.
    + rewrite (ltb_trans _ _ _ H E4). intros H'. injection H' as <- <-.
      eexists _, _. split; [reflexivity|]. now left.
    + destruct (e3' <? error)%f32 eqn:E3; intros H'; injection H' as <- <-;
        eexists _, _; (split; [reflexivity|]);
        [now left | apply le_or_same_refl].
Qed.

(** X29 on the three-tone block: error 0 with the 3-color mode. *)
Lemma three_color_mode_error_monotone_witness :
  compress_dxt1 three_tone_block unit_weights unit_channel_weights true false
  = Some (zero, mkBlock 0x8410 0xFFFF 0x2AA955)
  /\ exists e4 b4,
       compress_dxt1 three_tone_block unit_weights unit_channel_weights
                     false false
       = Some (e4, b4)
       /\ le_or_same zero e4.
Proof.
  assert (H : compress_dxt1 three_tone_block unit_weights
                            unit_channel_weights true false
              = Some (zero, mkBlock 0x8410 0xFFFF 0x2AA955))
    by (vm_compute; reflexivity).
  split; [exact H|].
  exact (three_color_mode_error_monotone three_tone_block unit_weights
           unit_channel_weights _ _ H).
Defined.

(** ** Candidates of the refinement *)

Lemma c16_g_make r g b : c16_g (c16_make r g b) = g mod 64.
Proof.
  pose proof (Z.mod_pos_bound r 32 ltac:(lia)).
  pose proof (Z.mod_pos_bound g 64 ltac:(lia)).
  pose proof (Z.mod_pos_bound b 32 ltac:(lia)).
  assert (E : c16_make r g b = c16_make (r mod 32) (g mod 64) (b mod 32))
    by (unfold c16_make; now rewrite !Z.mod_mod by lia).
  rewrite E.
  now destruct (c16_make_fields (r mod 32) (g mod 64) (b mod 32))
    as (_ & _ & -> & _); try lia.
Qed.

Lemma c16_add_green_differs c : c16_add c (0, 1, 0) <> c.
Proof.
  intros H. apply (f_equal c16_g) in H. unfold c16_add in H.
  rewrite c16_g_make in H. revert H. unfold c16_g.
  pose proof (land_63_range (Z.shiftr c 5)).
  Z.div_mod_to_equations. lia.
Qed.

Lemma refine_candidate_strict i output :
  snd (refine_candidate false i output)
  < fst (refine_candidate false i output).
Proof.
  unfold refine_candidate.
  destruct (Nat.odd (i / 16)); cbv beta iota;
    match goal with
    | |- context [if ?a =? ?b then _ else _] =>
        destruct (Z.eqb_spec a b) as [Heq | Hne]
    end;
    match goal with
    | |- context [if ?a <? ?b then _ else _] => destruct (Z.ltb_spec a b)
    end; cbn [fst snd]; try lia.
  all: match goal with
       | H : ?a <= ?b |- _ =>
           assert (a <> b); [|lia]
       end.
  all: rewrite Heq; apply c16_add_green_differs.
Qed.

Lemma refine_step_strict ic iw cw i b st :
  same_or_strict b st -> same_or_strict b (refine_step ic iw cw false i st).
Proof.
  destruct st as [[best_error output] lastImprovement].
  unfold same_or_strict. cbn [fst snd]. intros H. unfold refine_step.
  pose proof (refine_candidate_strict i output) as Hc.
  destruct (refine_candidate false i output) as [r0 r1].
  cbn [fst snd] in Hc.
  match goal with |- context [if ?c then _ else _] => destruct c end;
    cbn [fst snd col0 col1]; [right; exact Hc | exact H].
Qed.

Lemma refine_loop_strict ic iw cw b fuel :
  forall i st,
    same_or_strict b st ->
    same_or_strict b (refine_loop ic iw cw false fuel i st).
Proof.
  induction fuel as [|fuel IH]; intros i st H; cbn [refine_loop]; auto.
  pose proof (refine_step_strict ic iw cw i b st H) as H'.
  destruct (Nat.ltb 32 _); auto.
Qed.

(** X30.  Without [three_color_mode], [refine_endpoints] leaves the block
    it was given or ends on a block with col0.u > col1.u strictly: every
    candidate it tries has distinct endpoints (equal ones get green + 1) in
    4-color order. *)
Theorem refine_endpoints_proper_four_color : forall ic iw cw e b,
  snd (refine_endpoints ic iw cw false e b) = b
  \/ col1 (snd (refine_endpoints ic iw cw false e b))
     < col0 (snd (refine_endpoints ic iw cw false e b)).
Proof.
  intros ic iw cw e b. unfold refine_endpoints.
  apply (refine_loop_strict ic iw cw b 256 0%nat (e, b, 0%nat)).
  now left.
Qed.
